(** * Airline reservation system: the storage layer of [database.py]

    A shallow embedding of [class Database] (src/database.py), of the
    tables it reads and writes (the DDL of src/setup_database.py), and of
    the two pages of src/app.py that write: the bookings page with its
    "Cancel Booking" button, and the booking page.

    Modelling conventions.
    - A table is the list of its rows in insertion order; a [SELECT] is a
      filter/join over those lists and returns the list of result rows
      ([cursor.fetchall()]).
    - The MySQL server is assumed reachable, so [execute_query] and
      [execute_update] only hit their [except Error] branch on a constraint
      violation of the statement itself; [execute_update] then rolls back
      and returns [None].
    - What src/ leaves to the server is a parameter, [Server]: the
      collation under which [=], [UNIQUE] and [ORDER BY] compare the
      [VARCHAR] columns (no column of the DDL names one), and the keys that
      [AUTO_INCREMENT] has skipped.  Python's own string operations (a
      dictionary key, the truth of a string) are exact.
    - [DECIMAL(10,2)] values are held in hundredths, as a [Z].
    - Columns filled by the server and never read by the operations below
      ([created_at], [booking_date]) are left out.  The [Aircraft] table,
      which only the flight queries read, is kept beside the [DB] record
      and passed to them. *)

From Stdlib Require Import List String Ascii ZArith Arith Bool Lia.
From Stdlib Require Import Permutation.
Import ListNotations.
Local Open Scope string_scope.
Local Open Scope nat_scope.

(** ** Column types (the [ENUM]s of the DDL) *)

Module SeatClass.
(* seat_class ENUM('business', 'economy'); MySQL orders an ENUM by index *)
Inductive t := business | economy.
Definition index (c : t) : nat :=
  match c with business => 1 | economy => 2 end.
End SeatClass.

Module FlightStatus.
(* status ENUM('scheduled', 'boarding', 'departed', 'arrived', 'cancelled',
   'delayed') *)
Inductive t := scheduled | boarding | departed | arrived | cancelled | delayed.
End FlightStatus.

Module ReservationStatus.
Inductive t := confirmed | cancelled | checked_in | completed.
Definition eqb (a b : t) : bool :=
  match a, b with
  | confirmed, confirmed | cancelled, cancelled
  | checked_in, checked_in | completed, completed => true
  | _, _ => false
  end.
(* the spec's "live status": one that occupies a seat *)
Definition live (a : t) : bool :=
  match a with cancelled => false | _ => true end.
End ReservationStatus.

Module PaymentStatus.
Inductive t := pending | paid | refunded.
End PaymentStatus.

(** ** Rows and the database *)

Record Airport := {
  airport_id : nat;
  airport_code : string;
  airport_name : string;
  city : string
}.

Record Flight := {
  f_flight_id : nat;
  flight_number : string;
  f_aircraft_id : nat;
  origin_airport_id : nat;
  destination_airport_id : nat;
  departure_time : Z;
  arrival_time : Z;
  base_price : Z;
  f_status : FlightStatus.t
}.

Record Passenger := {
  p_passenger_id : nat;
  first_name : string;
  last_name : string;
  email : string;
  phone : option string;
  date_of_birth : option Z;
  passport_number : option string;
  nationality : option string
}.

Record Seat := {
  s_seat_id : nat;
  s_aircraft_id : nat;
  seat_number : string;
  seat_class : SeatClass.t
}.

Record Reservation := {
  reservation_id : nat;
  r_passenger_id : nat;
  r_flight_id : nat;
  r_seat_id : option nat;          (* seat_id INT, nullable *)
  booking_reference : string;
  ticket_price : Z;
  r_status : ReservationStatus.t;
  payment_status : PaymentStatus.t
}.

Record DB := {
  Airports : list Airport;
  Flights : list Flight;
  Passengers : list Passenger;
  Seats : list Seat;
  Reservations : list Reservation
}.

(** ** The server

    [WEIGHT_STRING] is the sort key of a string under the collation of the
    columns: two strings compare equal when their keys are equal, and
    [ORDER BY] orders by the keys.  [skipped] is the number of keys of a
    table that AUTO_INCREMENT has handed to refused INSERTs, and not given
    back, since the table last grew; rows are never deleted, so it is a
    function of the table and of its keys in use. *)

Class Server := {
  WEIGHT_STRING : string -> string;
  skipped : string -> list nat -> nat
}.

(* equal under the collation *)
Definition collates {srv : Server} (a b : string) : Prop :=
  WEIGHT_STRING a = WEIGHT_STRING b.

(** ** What the server checks on a write *)

Module Sql.

(* a = b and a <= b on VARCHAR columns *)
Definition eq {srv : Server} (a b : string) : bool :=
  String.eqb (WEIGHT_STRING a) (WEIGHT_STRING b).

Definition leb {srv : Server} (a b : string) : bool :=
  String.leb (WEIGHT_STRING a) (WEIGHT_STRING b).

(* AUTO_INCREMENT: the key of the next row of a table, above every key in
   use *)
Definition auto_increment {srv : Server} (table : string) (keys : list nat)
  : nat :=
  S (list_max keys + skipped table keys).

(* VARCHAR(n), strict mode: a longer value is an error *)
Definition varchar (n : nat) (s : string) : bool := String.length s <=? n.

Definition varchar_null (n : nat) (s : option string) : bool :=
  match s with Some v => varchar n v | None => true end.

(* DECIMAL(10,2): ten digits, two of them after the point *)
Definition decimal_10_2 (v : Z) : bool :=
  ((-9999999999 <=? v) && (v <=? 9999999999))%Z.

Definition mem (k : nat) (keys : list nat) : bool := existsb (Nat.eqb k) keys.

(* a nullable foreign key: NULL references nothing *)
Definition references_null (k : option nat) (keys : list nat) : bool :=
  match k with Some v => mem v keys | None => true end.

(* UNIQUE over a nullable column: NULLs never collide *)
Definition unique_null {srv : Server} (s : option string)
    (col : list (option string)) : bool :=
  match s with
  | Some v => negb (existsb (fun o => match o with
                                      | Some w => eq w v
                                      | None => false
                                      end) col)
  | None => true
  end.

End Sql.

(** ** Random source

    [random.choices(population, k=8)] draws eight independent indices below
    [len(population)].  The generator is an arbitrary sequence of raw draws
    with a cursor; a draw is reduced modulo the size of the population. *)

Record Random := {
  draw : nat -> nat;
  cursor : nat
}.

Definition advance (g : Random) (n : nat) : Random :=
  {| draw := draw g; cursor := cursor g + n |}.

Fixpoint choices (population : list ascii) (k : nat) (g : Random)
  : list ascii * Random :=
  match k with
  | 0 => ([], g)
  | S k' =>
      let i := draw g (cursor g) mod List.length population in
      let c := nth i population "000"%char in
      let (rest, g') :=
        choices population k' {| draw := draw g; cursor := S (cursor g) |} in
      (c :: rest, g')
  end.

(* string.ascii_uppercase + string.digits *)
Definition ascii_uppercase : string := "ABCDEFGHIJKLMNOPQRSTUVWXYZ".
Definition digits : string := "0123456789".
Definition alphabet : list ascii :=
  list_ascii_of_string (ascii_uppercase ++ digits).

(** ** How a call ends

    A Python call returns a value or raises.  The error kinds are those of
    the specification's taxonomy; src/ defines none of them and has no
    [raise], and [execute_query] / [execute_update] catch the connector's
    [Error], so every method below ends in [Returns]. *)

Inductive error :=
| NotFoundError
| SeatUnavailableError
| FlightNotBookableError
| ReferenceExhaustedError
| TransientStorageError.

Inductive outcome (A : Type) :=
| Returns (a : A)
| Raises (e : error).
Arguments Returns {A} a.
Arguments Raises {A} e.

(** ** [class Database] *)

Module Database.

(** *** Passenger operations *)

(* SELECT passenger_id FROM Passengers WHERE email = %s *)
Definition select_passenger_id {srv : Server} (db : DB) (e : string)
  : list nat :=
  map p_passenger_id
      (filter (fun p => Sql.eq (email p) e) (Passengers db)).

(* INSERT INTO Passengers (...) VALUES (...), through execute_update:
   the new key, or None after a rollback *)
Definition insert_passenger {srv : Server} (db : DB) (fn ln e : string)
    (ph : option string) (dob : option Z) (pp na : option string)
  : option nat * DB :=
  let ps := Passengers db in
  if Sql.varchar 50 fn && Sql.varchar 50 ln && Sql.varchar 100 e
     && Sql.varchar_null 20 ph && Sql.varchar_null 20 pp
     && Sql.varchar_null 50 na
     && negb (existsb (fun p => Sql.eq (email p) e) ps)
     && Sql.unique_null pp (map passport_number ps)
  then
    let id := Sql.auto_increment "Passengers" (map p_passenger_id ps) in
    let row := {| p_passenger_id := id; first_name := fn; last_name := ln;
                  email := e; phone := ph; date_of_birth := dob;
                  passport_number := pp; nationality := na |} in
    (Some id,
     {| Airports := Airports db; Flights := Flights db;
        Passengers := ps ++ [row]; Seats := Seats db;
        Reservations := Reservations db |})
  else (None, db).

Definition create_passenger {srv : Server} (db : DB)
    (first_name last_name email : string)
    (phone : option string) (date_of_birth : option Z)
    (passport_number nationality : option string)
  : outcome (option nat) * DB :=
  let existing := select_passenger_id db email in
  match existing with
  | id :: _ => (Returns (Some id), db)
  | [] =>
      let (last_id, db') :=
        insert_passenger db first_name last_name email phone date_of_birth
                         passport_number nationality in
      (Returns last_id, db')
  end.

(* SELECT * FROM Passengers WHERE email = %s; result[0] if result else None *)
Definition get_passenger_by_email {srv : Server} (db : DB) (e : string)
  : option Passenger :=
  hd_error (filter (fun p => Sql.eq (email p) e) (Passengers db)).

(** *** Seat operations *)

(* the columns of the SELECT of get_available_seats *)
Record AvailableSeat := {
  a_seat_id : nat;
  a_seat_number : string;
  a_seat_class : SeatClass.t
}.

(* ORDER BY s.seat_class, s.seat_number *)
Definition order_leb {srv : Server} (a b : AvailableSeat) : bool :=
  (SeatClass.index (a_seat_class a) <? SeatClass.index (a_seat_class b))
  || ((SeatClass.index (a_seat_class a) =? SeatClass.index (a_seat_class b))
      && Sql.leb (a_seat_number a) (a_seat_number b)).

Fixpoint order_insert {srv : Server} (x : AvailableSeat)
    (l : list AvailableSeat) :=
  match l with
  | [] => [x]
  | y :: l' => if order_leb x y then x :: l else y :: order_insert x l'
  end.

Definition order_by {srv : Server} (l : list AvailableSeat)
  : list AvailableSeat :=
  fold_right order_insert [] l.

(* SELECT seat_id FROM Reservations
   WHERE flight_id = %s AND status = 'confirmed' AND seat_id IS NOT NULL *)
Definition confirmed_seat_ids (db : DB) (flight_id : nat) : list nat :=
  flat_map (fun r =>
              match r_seat_id r with
              | Some s =>
                  if (r_flight_id r =? flight_id)
                     && ReservationStatus.eqb (r_status r)
                                              ReservationStatus.confirmed
                  then [s] else []
              | None => []
              end)
           (Reservations db).

Definition get_available_seats {srv : Server} (db : DB) (flight_id : nat)
  : list AvailableSeat :=
  let taken := confirmed_seat_ids db flight_id in
  order_by
    (flat_map (fun s =>
       flat_map (fun f =>
         if (s_aircraft_id s =? f_aircraft_id f)
            && (f_flight_id f =? flight_id)
            && negb (Sql.mem (s_seat_id s) taken)
         then [{| a_seat_id := s_seat_id s;
                  a_seat_number := seat_number s;
                  a_seat_class := seat_class s |}]
         else [])
         (Flights db))
       (Seats db)).

(** *** Reservation operations *)

(* SELECT booking_reference FROM Reservations WHERE booking_reference = %s *)
Definition select_booking_reference {srv : Server} (db : DB) (ref : string)
  : list string :=
  filter (fun b => Sql.eq b ref) (map booking_reference (Reservations db)).

(* [while True]: the loop runs on fuel, one unit per candidate; [None] is
   a loop that has not returned when the fuel is spent *)
Fixpoint generate_booking_reference {srv : Server} (fuel : nat) (db : DB)
    (g : Random)
  : option (outcome string * Random) :=
  match fuel with
  | 0 => None
  | S fuel' =>
      let (cs, g') := choices alphabet 8 g in
      let ref := string_of_list_ascii cs in
      match select_booking_reference db ref with
      | [] => Some (Returns ref, g')
      | _ :: _ => generate_booking_reference fuel' db g'
      end
  end.

(* the write of one table leaves the others as they are *)
Definition set_Reservations (db : DB) (rs : list Reservation) : DB :=
  {| Airports := Airports db; Flights := Flights db;
     Passengers := Passengers db; Seats := Seats db;
     Reservations := rs |}.

(* the constraints of the Reservations table on a new row: the three
   FOREIGN KEYs, booking_reference VARCHAR(20) UNIQUE, ticket_price
   DECIMAL(10,2); none is over (flight_id, seat_id) *)
Definition reservation_accepted {srv : Server} (db : DB)
    (passenger_id flight_id : nat)
    (seat_id : option nat) (booking_ref : string) (price : Z) : bool :=
  Sql.mem passenger_id (map p_passenger_id (Passengers db))
  && Sql.mem flight_id (map f_flight_id (Flights db))
  && Sql.references_null seat_id (map s_seat_id (Seats db))
  && Sql.varchar 20 booking_ref
  && negb (existsb (fun r => Sql.eq (booking_reference r) booking_ref)
                   (Reservations db))
  && Sql.decimal_10_2 price.

(* VALUES (%s, %s, %s, %s, %s, 'confirmed', 'paid') *)
Definition new_reservation {srv : Server} (db : DB)
    (passenger_id flight_id : nat)
    (seat_id : option nat) (booking_ref : string) (price : Z) : Reservation :=
  {| reservation_id :=
       Sql.auto_increment "Reservations"
                          (map reservation_id (Reservations db));
     r_passenger_id := passenger_id;
     r_flight_id := flight_id; r_seat_id := seat_id;
     booking_reference := booking_ref; ticket_price := price;
     r_status := ReservationStatus.confirmed;
     payment_status := PaymentStatus.paid |}.

(* INSERT INTO Reservations (...) VALUES (..., 'confirmed', 'paid'),
   through execute_update: cursor.lastrowid, or None after a rollback *)
Definition insert_reservation {srv : Server} (db : DB)
    (passenger_id flight_id : nat)
    (seat_id : option nat) (booking_ref : string) (price : Z)
  : option nat * DB :=
  if reservation_accepted db passenger_id flight_id seat_id booking_ref price
  then
    let row := new_reservation db passenger_id flight_id seat_id booking_ref
                               price in
    (Some (reservation_id row),
     set_Reservations db (Reservations db ++ [row]))
  else (None, db).

(* Python truth of [reservation_id]: None and 0 are false *)
Definition truthy (id : option nat) : bool :=
  match id with Some (S _) => true | _ => false end.

Definition create_reservation {srv : Server} (fuel : nat) (db : DB)
    (g : Random)
    (passenger_id flight_id : nat) (seat_id : option nat) (ticket_price : Z)
  : option (outcome (option string) * DB * Random) :=
  match generate_booking_reference fuel db g with
  | None => None
  | Some (Raises e, g') => Some (Raises e, db, g')
  | Some (Returns booking_ref, g') =>
      let (reservation_id, db') :=
        insert_reservation db passenger_id flight_id seat_id booking_ref
                           ticket_price in
      Some (Returns (if truthy reservation_id then Some booking_ref else None),
            db', g')
  end.

(* the row of get_reservation_by_reference: r.* and the joined columns *)
Record ReservationDetails := {
  r : Reservation;
  d_first_name : string;
  d_last_name : string;
  d_email : string;
  d_phone : option string;
  d_flight_number : string;
  d_departure_time : Z;
  d_arrival_time : Z;
  origin_code : string;
  origin_city : string;
  destination_code : string;
  destination_city : string;
  d_seat_number : option string
}.

(* LEFT JOIN Seats s ON r.seat_id = s.seat_id *)
Definition left_join_seats (db : DB) (seat_id : option nat)
  : list (option Seat) :=
  match filter (fun s => match seat_id with
                         | Some k => k =? s_seat_id s
                         | None => false
                         end) (Seats db) with
  | [] => [None]
  | l => map Some l
  end.

Definition select_reservation_details {srv : Server} (db : DB)
    (ref : string)
  : list ReservationDetails :=
  flat_map (fun r_ =>
    if Sql.eq (booking_reference r_) ref then
      flat_map (fun p =>
        if r_passenger_id r_ =? p_passenger_id p then
          flat_map (fun f =>
            if r_flight_id r_ =? f_flight_id f then
              flat_map (fun o =>
                if origin_airport_id f =? airport_id o then
                  flat_map (fun d =>
                    if destination_airport_id f =? airport_id d then
                      map (fun s =>
                             {| r := r_;
                                d_first_name := first_name p;
                                d_last_name := last_name p;
                                d_email := email p;
                                d_phone := phone p;
                                d_flight_number := flight_number f;
                                d_departure_time := departure_time f;
                                d_arrival_time := arrival_time f;
                                origin_code := airport_code o;
                                origin_city := city o;
                                destination_code := airport_code d;
                                destination_city := city d;
                                d_seat_number := option_map seat_number s |})
                          (left_join_seats db (r_seat_id r_))
                    else [])
                    (Airports db)
                else [])
                (Airports db)
            else [])
            (Flights db)
        else [])
        (Passengers db)
    else [])
    (Reservations db).

Definition get_reservation_by_reference {srv : Server} (db : DB)
    (booking_reference : string)
  : option ReservationDetails :=
  hd_error (select_reservation_details db booking_reference).

(* UPDATE Reservations SET status = 'cancelled', payment_status = 'refunded'
   WHERE booking_reference = %s *)
Definition update_cancelled {srv : Server} (ref : string) (r_ : Reservation)
  : Reservation :=
  if Sql.eq (booking_reference r_) ref then
    {| reservation_id := reservation_id r_;
       r_passenger_id := r_passenger_id r_;
       r_flight_id := r_flight_id r_;
       r_seat_id := r_seat_id r_;
       booking_reference := booking_reference r_;
       ticket_price := ticket_price r_;
       r_status := ReservationStatus.cancelled;
       payment_status := PaymentStatus.refunded |}
  else r_.

Definition cancel_reservation {srv : Server} (db : DB)
    (booking_reference : string)
  : outcome unit * DB :=
  (Returns tt,
   set_Reservations db (map (update_cancelled booking_reference)
                            (Reservations db))).

(** *** Admin operations *)

(* UPDATE Flights SET status = %s WHERE flight_id = %s *)
Definition update_flight_status (db : DB) (flight_id : nat)
    (status : FlightStatus.t) : outcome unit * DB :=
  (Returns tt,
   {| Airports := Airports db;
      Flights :=
        map (fun f =>
               if f_flight_id f =? flight_id then
                 {| f_flight_id := f_flight_id f;
                    flight_number := flight_number f;
                    f_aircraft_id := f_aircraft_id f;
                    origin_airport_id := origin_airport_id f;
                    destination_airport_id := destination_airport_id f;
                    departure_time := departure_time f;
                    arrival_time := arrival_time f;
                    base_price := base_price f;
                    f_status := status |}
               else f)
            (Flights db);
      Passengers := Passengers db; Seats := Seats db;
      Reservations := Reservations db |}).

End Database.


(** ** Runs of the system

    One step is one call of a method of [Database] that writes. *)

Inductive step {srv : Server} : DB -> DB -> Prop :=
| step_create_passenger db fn ln e ph dob pp na :
    step db (snd (Database.create_passenger db fn ln e ph dob pp na))
| step_create_reservation fuel db g p f s c out db' g' :
    Database.create_reservation fuel db g p f s c = Some (out, db', g') ->
    step db db'
| step_cancel_reservation db ref :
    step db (snd (Database.cancel_reservation db ref))
| step_update_flight_status db f st :
    step db (snd (Database.update_flight_status db f st)).

Inductive steps {srv : Server} : DB -> DB -> Prop :=
| steps_refl db : steps db db
| steps_cons db1 db2 db3 : step db1 db2 -> steps db2 db3 -> steps db1 db3.

(** ** Vocabulary of the specification *)

(* the reservations that hold seat [s] on flight [f]: live status *)
Definition holds (f s : nat) (r_ : Reservation) : bool :=
  (r_flight_id r_ =? f)
  && match r_seat_id r_ with Some k => k =? s | None => false end
  && ReservationStatus.live (r_status r_).

Definition holders (db : DB) (f s : nat) : list Reservation :=
  filter (holds f s) (Reservations db).

(* some reservation with status 'confirmed' references (f, s) *)
Definition confirmed_on (db : DB) (f s : nat) : Prop :=
  exists r_, In r_ (Reservations db) /\ r_flight_id r_ = f /\
             r_seat_id r_ = Some s /\
             r_status r_ = ReservationStatus.confirmed.

Definition references (db : DB) : list string :=
  map booking_reference (Reservations db).

(* a stored booking reference equals [ref] under the collation: what
   SELECT booking_reference ... WHERE booking_reference = %s finds *)
Definition collides {srv : Server} (db : DB) (ref : string) : Prop :=
  exists b, In b (references db) /\ collates b ref.

(* a stored email equals [e] under the collation *)
Definition email_known {srv : Server} (db : DB) (e : string) : Prop :=
  exists p, In p (Passengers db) /\ collates (email p) e.

(* UNIQUE (email) and UNIQUE (booking_reference), which compare under the
   collation *)
Definition emails_unique {srv : Server} (db : DB) : Prop :=
  NoDup (map WEIGHT_STRING (map email (Passengers db))).

Definition references_unique {srv : Server} (db : DB) : Prop :=
  NoDup (map WEIGHT_STRING (references db)).

Definition is_upper_or_digit (c : ascii) : bool :=
  let n := nat_of_ascii c in
  ((65 <=? n) && (n <=? 90)) || ((48 <=? n) && (n <=? 57)).

(* the candidate drawn at the current cursor, and the one drawn after
   [k] earlier candidates *)
Definition next_candidate (g : Random) : string :=
  string_of_list_ascii (fst (choices alphabet 8 g)).

Definition candidate (g : Random) (k : nat) : string :=
  next_candidate (advance g (8 * k)).

(* the FOREIGN KEYs of Flights on Airports *)
Definition flights_reference_airports (db : DB) : Prop :=
  forall f, In f (Flights db) ->
    In (origin_airport_id f) (map airport_id (Airports db)) /\
    In (destination_airport_id f) (map airport_id (Airports db)).

Definition seat_row (s : Seat) : Database.AvailableSeat :=
  {| Database.a_seat_id := s_seat_id s;
     Database.a_seat_number := seat_number s;
     Database.a_seat_class := seat_class s |}.

(** ** Sample data

    A small store in the shape of [insert_sample_data]: flight AA101 on
    aircraft 1, two seats of that aircraft (keys renumbered), two
    passengers and the reservation BK2025001. *)

Definition JFK : Airport :=
  {| airport_id := 1; airport_code := "JFK";
     airport_name := "John F. Kennedy International Airport";
     city := "New York" |}.
Definition LAX : Airport :=
  {| airport_id := 2; airport_code := "LAX";
     airport_name := "Los Angeles International Airport";
     city := "Los Angeles" |}.

Definition AA101 (st : FlightStatus.t) : Flight :=
  {| f_flight_id := 1; flight_number := "AA101"; f_aircraft_id := 1;
     origin_airport_id := 1; destination_airport_id := 2;
     departure_time := 1763193600; arrival_time := 1763206200;
     base_price := 35000; f_status := st |}.

Definition john : Passenger :=
  {| p_passenger_id := 1; first_name := "John"; last_name := "Doe";
     email := "john.doe@email.com"; phone := Some "+1-555-0101";
     date_of_birth := Some 485000000%Z; passport_number := Some "P12345678";
     nationality := Some "USA" |}.
Definition jane : Passenger :=
  {| p_passenger_id := 2; first_name := "Jane"; last_name := "Smith";
     email := "jane.smith@email.com"; phone := Some "+1-555-0102";
     date_of_birth := Some 651000000%Z; passport_number := Some "P23456789";
     nationality := Some "USA" |}.

Definition seat_1A : Seat :=
  {| s_seat_id := 1; s_aircraft_id := 1; seat_number := "1A";
     seat_class := SeatClass.business |}.
Definition seat_4A : Seat :=
  {| s_seat_id := 2; s_aircraft_id := 1; seat_number := "4A";
     seat_class := SeatClass.economy |}.

Definition BK2025001 (st : ReservationStatus.t) (pay : PaymentStatus.t)
  : Reservation :=
  {| reservation_id := 1; r_passenger_id := 1; r_flight_id := 1;
     r_seat_id := Some 2; booking_reference := "BK2025001";
     ticket_price := 35000; r_status := st; payment_status := pay |}.

Definition sample (fst_ : FlightStatus.t) (rs : list Reservation) : DB :=
  {| Airports := [JFK; LAX]; Flights := [AA101 fst_];
     Passengers := [john; jane]; Seats := [seat_1A; seat_4A];
     Reservations := rs |}.

(* a generator whose every draw is [n] *)
Definition constant (n : nat) : Random := {| draw := fun _ => n; cursor := 0 |}.

(* the sample store: AA101 scheduled, seat 4A held by BK2025001 *)
Definition booked : DB :=
  sample FlightStatus.scheduled
         [BK2025001 ReservationStatus.confirmed PaymentStatus.paid].


(* a second flight from JFK to LAX, two hours after AA101 *)
Definition AA103 (st : FlightStatus.t) : Flight :=
  {| f_flight_id := 2; flight_number := "AA103"; f_aircraft_id := 1;
     origin_airport_id := 1; destination_airport_id := 2;
     departure_time := 1763200800; arrival_time := 1763213400;
     base_price := 35000; f_status := st |}.

(* the sample store with both flights scheduled *)
Definition two_flights : DB :=
  {| Airports := [JFK; LAX];
     Flights := [AA101 FlightStatus.scheduled; AA103 FlightStatus.scheduled];
     Passengers := [john; jane]; Seats := [seat_1A; seat_4A];
     Reservations := [BK2025001 ReservationStatus.confirmed
                                PaymentStatus.paid] |}.

(* first "AAAAAAAA", then "BBBBBBBB" for ever *)
Definition A_then_B : Random :=
  {| draw := fun n => if n <? 8 then 0 else 1; cursor := 0 |}.

(* a reservation whose reference is the candidate "AAAAAAAA" *)
Definition AAAAAAAA : Reservation :=
  {| reservation_id := 1; r_passenger_id := 1; r_flight_id := 1;
     r_seat_id := Some 2; booking_reference := "AAAAAAAA";
     ticket_price := 35000; r_status := ReservationStatus.confirmed;
     payment_status := PaymentStatus.paid |}.

(** ** The remaining methods of [class Database]

    The queries below read the [Aircraft] table, which is kept beside the
    [DB] record and passed to them.  A joined row is the tuple of the rows
    it joins, of which the SELECT list names columns.  A [DATETIME] is held
    in seconds from a fixed midnight and [DATE()] is its day number. *)

Record Aircraft := {
  aircraft_id : nat;
  aircraft_model : string;
  total_seats : Z;
  business_class_seats : Z;
  economy_class_seats : Z
}.

(* ORDER BY: insertion under [leb], row by row *)
Fixpoint order_insert_by {A : Type} (leb : A -> A -> bool) (x : A)
    (l : list A) : list A :=
  match l with
  | [] => [x]
  | y :: l' => if leb x y then x :: l else y :: order_insert_by leb x l'
  end.

Definition order_rows {A : Type} (leb : A -> A -> bool) (l : list A) : list A :=
  fold_right (order_insert_by leb) [] l.

Definition DATE (t : Z) : Z := (t / 86400)%Z.

Module Queries.

(* f.*, o.airport_code/name/city, d.airport_code/name/city and the
   columns of a *)
Record FlightDetails := {
  row_f : Flight;
  row_o : Airport;
  row_d : Airport;
  row_a : Aircraft
}.

(* FROM Flights f JOIN Airports o ON f.origin_airport_id = o.airport_id
   JOIN Airports d ON f.destination_airport_id = d.airport_id
   JOIN Aircraft a ON f.aircraft_id = a.aircraft_id WHERE [where_] *)
Definition join_flights (aircraft : list Aircraft) (db : DB)
    (where_ : Flight -> Airport -> Airport -> bool) : list FlightDetails :=
  flat_map (fun f =>
    flat_map (fun o =>
      if origin_airport_id f =? airport_id o then
        flat_map (fun d =>
          if destination_airport_id f =? airport_id d then
            flat_map (fun a =>
              if (f_aircraft_id f =? aircraft_id a) && where_ f o d
              then [{| row_f := f; row_o := o; row_d := d; row_a := a |}]
              else [])
              aircraft
          else [])
          (Airports db)
      else [])
      (Airports db))
    (Flights db).

(* (SELECT COUNT( * ) FROM Reservations r
    WHERE r.flight_id = f.flight_id AND r.status = 'confirmed') *)
Definition count_confirmed (db : DB) (flight_id : nat) : nat :=
  List.length
    (filter (fun r_ =>
               (r_flight_id r_ =? flight_id)
               && ReservationStatus.eqb (r_status r_)
                                        ReservationStatus.confirmed)
            (Reservations db)).

(* a row of search_flights and of get_all_flights *)
Record FlightSummary := {
  details : FlightDetails;
  booked_seats : nat
}.

Definition summary (db : DB) (x : FlightDetails) : FlightSummary :=
  {| details := x;
     booked_seats := count_confirmed db (f_flight_id (row_f x)) |}.

Definition is_scheduled (st : FlightStatus.t) : bool :=
  match st with FlightStatus.scheduled => true | _ => false end.

Definition departs_leb (x y : FlightSummary) : bool :=
  (departure_time (row_f (details x)) <=? departure_time (row_f (details y)))%Z.

(* WHERE o.airport_code = %s AND d.airport_code = %s
   AND DATE(f.departure_time) = %s AND f.status = 'scheduled'
   ORDER BY f.departure_time *)
Definition search_flights {srv : Server} (aircraft : list Aircraft) (db : DB)
    (origin_code destination_code : string) (departure_date : Z)
  : list FlightSummary :=
  order_rows departs_leb
    (map (summary db)
       (join_flights aircraft db
          (fun f o d =>
             Sql.eq (airport_code o) origin_code
             && Sql.eq (airport_code d) destination_code
             && (DATE (departure_time f) =? departure_date)%Z
             && is_scheduled (f_status f)))).

(* SELECT * FROM Airports ORDER BY city *)
Definition get_all_airports {srv : Server} (db : DB) : list Airport :=
  order_rows (fun x y => Sql.leb (city x) (city y)) (Airports db).

(* WHERE f.flight_id = %s; result[0] if result else None *)
Definition get_flight_details (aircraft : list Aircraft) (db : DB)
    (flight_id : nat) : option FlightDetails :=
  hd_error (join_flights aircraft db (fun f _ _ => f_flight_id f =? flight_id)).

(* ORDER BY f.departure_time DESC *)
Definition get_all_flights (aircraft : list Aircraft) (db : DB)
  : list FlightSummary :=
  order_rows (fun x y => departs_leb y x)
    (map (summary db) (join_flights aircraft db (fun _ _ _ => true))).

(* a row of get_passenger_reservations: r.*, columns of f, o and d, and
   s.seat_number of the left join *)
Record PassengerReservation := {
  pr_r : Reservation;
  pr_f : Flight;
  pr_o : Airport;
  pr_d : Airport;
  pr_s : option Seat
}.

(* FROM Reservations r JOIN Passengers p ... JOIN Flights f ...
   JOIN Airports o ... JOIN Airports d ... LEFT JOIN Seats s ...
   WHERE p.email = %s ORDER BY f.departure_time DESC *)
Definition get_passenger_reservations {srv : Server} (db : DB) (e : string)
  : list PassengerReservation :=
  order_rows
    (fun x y => (departure_time (pr_f y) <=? departure_time (pr_f x))%Z)
    (flat_map (fun r_ =>
       flat_map (fun p =>
         if (r_passenger_id r_ =? p_passenger_id p)
            && Sql.eq (email p) e then
           flat_map (fun f =>
             if r_flight_id r_ =? f_flight_id f then
               flat_map (fun o =>
                 if origin_airport_id f =? airport_id o then
                   flat_map (fun d =>
                     if destination_airport_id f =? airport_id d then
                       map (fun s => {| pr_r := r_; pr_f := f; pr_o := o;
                                        pr_d := d; pr_s := s |})
                           (Database.left_join_seats db (r_seat_id r_))
                     else [])
                     (Airports db)
                 else [])
                 (Airports db)
             else [])
             (Flights db)
         else [])
         (Passengers db))
       (Reservations db)).

(* a row of get_flight_manifest *)
Record ManifestRow := {
  m_p : Passenger;
  m_r : Reservation;
  m_s : option Seat
}.

(* ORDER BY s.seat_number: NULL sorts first *)
Definition seat_number_leb {srv : Server} (x y : ManifestRow) : bool :=
  match m_s x, m_s y with
  | None, _ => true
  | Some _, None => false
  | Some sx, Some sy => Sql.leb (seat_number sx) (seat_number sy)
  end.

(* FROM Reservations r JOIN Passengers p ON r.passenger_id = p.passenger_id
   LEFT JOIN Seats s ON r.seat_id = s.seat_id
   WHERE r.flight_id = %s ORDER BY s.seat_number *)
Definition get_flight_manifest {srv : Server} (db : DB) (flight_id : nat)
  : list ManifestRow :=
  order_rows seat_number_leb
    (flat_map (fun r_ =>
       if r_flight_id r_ =? flight_id then
         flat_map (fun p =>
           if r_passenger_id r_ =? p_passenger_id p then
             map (fun s => {| m_p := p; m_r := r_; m_s := s |})
                 (Database.left_join_seats db (r_seat_id r_))
           else [])
           (Passengers db)
       else [])
       (Reservations db)).

Definition is_paid (st : PaymentStatus.t) : bool :=
  match st with PaymentStatus.paid => true | _ => false end.

(* SELECT SUM(ticket_price) ... WHERE payment_status = 'paid': NULL over no
   row *)
Definition sum_paid (db : DB) : option Z :=
  match filter (fun r_ => is_paid (payment_status r_)) (Reservations db) with
  | [] => None
  | rows => Some (fold_right Z.add 0%Z (map ticket_price rows))
  end.

(* the dictionary of get_statistics *)
Record Statistics := {
  total_flights : nat;
  total_passengers : nat;
  total_reservations : nat;
  total_revenue : Z
}.

Definition get_statistics (db : DB) : Statistics :=
  {| total_flights := List.length (Flights db);
     total_passengers := List.length (Passengers db);
     total_reservations :=
       List.length
         (filter (fun r_ => ReservationStatus.eqb (r_status r_)
                                                 ReservationStatus.confirmed)
                 (Reservations db));
     (* result[0]['revenue'] if result and result[0]['revenue'] else 0 *)
     total_revenue :=
       match sum_paid db with
       | Some v => if (v =? 0)%Z then 0%Z else v
       | None => 0%Z
       end |}.

End Queries.

(** ** The bookings page of [app.py]

    One run of the "View Bookings" tab of [show_my_bookings_page].  The
    widgets are inputs of the run: the text in the box and what each
    [st.button] returns. *)

Module App.

(* the button is drawn when
   res['status'] == 'confirmed' and res['departure_time'] > datetime.now() *)
Definition cancel_offered (status : ReservationStatus.t)
    (departure_time now : Z) : bool :=
  ReservationStatus.eqb status ReservationStatus.confirmed
  && (now <? departure_time)%Z.

Record Widgets := {
  email_input : string;            (* st.text_input *)
  search : bool;                   (* st.button("Search") *)
  cancel_button : string -> bool   (* st.button("Cancel Booking",
                                      key=f"cancel_{booking_reference}") *)
}.

(* for res in reservations: the first pressed button that is drawn calls
   db.cancel_reservation(res['booking_reference']), and st.rerun() ends
   the run.  The keys of the buttons are distinct, booking_reference
   being UNIQUE. *)
Fixpoint listing {srv : Server} (db : DB) (now : Z) (w : Widgets)
    (reservations : list Queries.PassengerReservation) : DB :=
  match reservations with
  | [] => db
  | res :: rest =>
      if cancel_offered (r_status (Queries.pr_r res))
                        (departure_time (Queries.pr_f res)) now
         && cancel_button w (booking_reference (Queries.pr_r res))
      then snd (Database.cancel_reservation
                  db (booking_reference (Queries.pr_r res)))
      else listing db now w rest
  end.

(* the tab: everything is under  if st.button("Search") *)
Definition show_my_bookings_page {srv : Server} (db : DB) (now : Z)
    (w : Widgets) : DB :=
  if search w then
    match email_input w with
    | EmptyString => db              (* if not email: ... return *)
    | _ => listing db now w
             (Queries.get_passenger_reservations db (email_input w))
    end
  else db.

(* Streamlit starts a run of the script on one event, and a button returns
   True only in the run that its own click started: when "Search" returns
   True no "Cancel Booking" button does *)
Definition one_click (w : Widgets) : Prop :=
  search w = true -> forall key, cancel_button w key = false.

End App.

(** ** The booking page of [app.py] *)

Module BookingPage.

(* st.radio("Select Class", ["Economy", "Business"]) *)
Inductive seat_class := Economy | Business.

Definition class_is (c : SeatClass.t) (s : Database.AvailableSeat) : bool :=
  SeatClass.index (Database.a_seat_class s) =? SeatClass.index c.

(* {s['seat_number']: s['seat_id'] for s in seats}[key]: a later seat with
   the same number replaces an earlier one; None is a KeyError *)
Definition options (seats : list Database.AvailableSeat) (key : string)
  : option nat :=
  fold_left (fun found s =>
               if String.eqb (Database.a_seat_number s) key
               then Some (Database.a_seat_id s) else found)
            seats None.

Inductive selection :=
| Selected (seat_id : nat) (ticket_price : Z)
| NoSeatInClass          (* "No seats available in the selected class!" *)
| KeyError.

Definition nonempty {A : Type} (l : list A) : bool :=
  match l with [] => false | _ :: _ => true end.

(* the if / elif / else after the radio; the surcharge of 200 is in
   hundredths *)
Definition select_seat (available_seats : list Database.AvailableSeat)
    (class : seat_class) (selected_seat : string) (base_price : Z)
  : selection :=
  let business_seats := filter (class_is SeatClass.business) available_seats in
  let economy_seats := filter (class_is SeatClass.economy) available_seats in
  if match class with Business => true | Economy => false end
     && nonempty business_seats
  then match options business_seats selected_seat with
       | Some seat_id => Selected seat_id (base_price + 20000)
       | None => KeyError
       end
  else if nonempty economy_seats
  then match options economy_seats selected_seat with
       | Some seat_id => Selected seat_id base_price
       | None => KeyError
       end
  else NoSeatInClass.

(* what the form holds when the script runs *)
Record Form := {
  first_name_ : string;
  last_name_ : string;
  email_ : string;
  phone_ : string;
  date_of_birth_ : Z;
  passport_number_ : string;
  nationality_ : string;
  class_ : seat_class;
  selected_seat_ : string;
  confirm_booking : bool          (* the button was pressed *)
}.

(* how one run of show_booking_page ends *)
Inductive page :=
| SelectFlightFirst
| FlightNotFound
| NoSeatsAvailable
| NoSeatsInClass
| SeatKeyError
| Waiting                        (* the form is shown, nothing is pressed *)
| RequiredFieldsMissing
| PassengerFailed
| ReservationFailed
| BookingConfirmed (booking_ref : string).

Definition filled (s : string) : bool :=
  match s with EmptyString => false | _ => true end.

Definition show_booking_page {srv : Server} (fuel : nat)
    (aircraft : list Aircraft) (db : DB) (g : Random)
    (selected_flight : option nat) (form : Form)
  : option (page * DB * Random) :=
  match selected_flight with
  | None => Some (SelectFlightFirst, db, g)
  | Some flight_id =>
    match Queries.get_flight_details aircraft db flight_id with
    | None => Some (FlightNotFound, db, g)
    | Some flight =>
      let available_seats :=
        Database.get_available_seats db (f_flight_id (Queries.row_f flight)) in
      if negb (nonempty available_seats)
      then Some (NoSeatsAvailable, db, g)
      else
        match select_seat available_seats (class_ form) (selected_seat_ form)
                          (base_price (Queries.row_f flight)) with
        | NoSeatInClass => Some (NoSeatsInClass, db, g)
        | KeyError => Some (SeatKeyError, db, g)
        | Selected seat_id ticket_price =>
          if negb (confirm_booking form) then Some (Waiting, db, g)
          else if negb (filled (first_name_ form) && filled (last_name_ form)
                        && filled (email_ form))
          then Some (RequiredFieldsMissing, db, g)
          else
            let (created, db1) :=
              Database.create_passenger db (first_name_ form)
                (last_name_ form) (email_ form) (Some (phone_ form))
                (Some (date_of_birth_ form)) (Some (passport_number_ form))
                (Some (nationality_ form)) in
            match created with
            | Raises _ => Some (PassengerFailed, db1, g)
            | Returns passenger_id =>
              match passenger_id with
              | Some (S k) =>
                match Database.create_reservation fuel db1 g (S k)
                        (f_flight_id (Queries.row_f flight)) (Some seat_id)
                        ticket_price with
                | None => None
                | Some (Returns (Some booking_ref), db2, g') =>
                    (* if booking_ref: a string is true when not empty *)
                    if filled booking_ref
                    then Some (BookingConfirmed booking_ref, db2, g')
                    else Some (ReservationFailed, db2, g')
                | Some (_, db2, g') => Some (ReservationFailed, db2, g')
                end
              | _ => Some (PassengerFailed, db1, g)
              end
            end
        end
    end
  end.

End BookingPage.

(** ** Vocabulary of the further properties *)

(* the reservations with status 'confirmed' on seat [s] of flight [f] *)
Definition confirmed_holders (db : DB) (f s : nat) : list Reservation :=
  filter (fun r_ =>
            (r_flight_id r_ =? f)
            && match r_seat_id r_ with Some k => k =? s | None => false end
            && ReservationStatus.eqb (r_status r_) ReservationStatus.confirmed)
         (Reservations db).

(* PRIMARY KEY and UNIQUE of Passengers and Reservations *)
Definition keys_unique (db : DB) : Prop :=
  NoDup (map p_passenger_id (Passengers db)) /\
  NoDup (map email (Passengers db)) /\
  NoDup (map reservation_id (Reservations db)) /\
  NoDup (map booking_reference (Reservations db)).

(* the row that create_passenger inserts *)
Definition new_passenger {srv : Server} (db : DB) (fn ln e : string)
    (ph : option string)
    (dob : option Z) (pp na : option string) : Passenger :=
  {| p_passenger_id :=
       Sql.auto_increment "Passengers" (map p_passenger_id (Passengers db));
     first_name := fn; last_name := ln; email := e; phone := ph;
     date_of_birth := dob; passport_number := pp; nationality := na |}.

(* the constraints of the Passengers table on a new row *)
Definition passenger_accepted {srv : Server} (db : DB) (fn ln e : string)
    (ph pp na : option string) : bool :=
  Sql.varchar 50 fn && Sql.varchar 50 ln && Sql.varchar 100 e
  && Sql.varchar_null 20 ph && Sql.varchar_null 20 pp
  && Sql.varchar_null 50 na
  && negb (existsb (fun p => Sql.eq (email p) e) (Passengers db))
  && Sql.unique_null pp (map passport_number (Passengers db)).

(* the FOREIGN KEY of Flights on Aircraft *)
Definition flights_reference_aircraft (aircraft : list Aircraft) (db : DB)
  : Prop :=
  forall f, In f (Flights db) ->
    In (f_aircraft_id f) (map aircraft_id aircraft).

(* a row of get_reservation_by_reference after the UPDATE of
   cancel_reservation on its reservation *)
Definition cancelled_row {srv : Server} (ref : string)
    (x : Database.ReservationDetails)
  : Database.ReservationDetails :=
  {| Database.r := Database.update_cancelled ref (Database.r x);
     Database.d_first_name := Database.d_first_name x;
     Database.d_last_name := Database.d_last_name x;
     Database.d_email := Database.d_email x;
     Database.d_phone := Database.d_phone x;
     Database.d_flight_number := Database.d_flight_number x;
     Database.d_departure_time := Database.d_departure_time x;
     Database.d_arrival_time := Database.d_arrival_time x;
     Database.origin_code := Database.origin_code x;
     Database.origin_city := Database.origin_city x;
     Database.destination_code := Database.destination_code x;
     Database.destination_city := Database.destination_city x;
     Database.d_seat_number := Database.d_seat_number x |}.

(* the FOREIGN KEYs of Reservations on Passengers and Flights *)
Definition reservations_reference_rows (db : DB) : Prop :=
  forall r_, In r_ (Reservations db) ->
    In (r_passenger_id r_) (map p_passenger_id (Passengers db)) /\
    In (r_flight_id r_) (map f_flight_id (Flights db)).

(* a form filled for a new passenger who asks for business seat 1A and
   presses the button; phone, passport and nationality are left blank *)
Definition ann_form : BookingPage.Form :=
  {| BookingPage.first_name_ := "Ann"; BookingPage.last_name_ := "Lee";
     BookingPage.email_ := "ann.lee@email.com"; BookingPage.phone_ := "";
     BookingPage.date_of_birth_ := 0%Z; BookingPage.passport_number_ := "";
     BookingPage.nationality_ := "";
     BookingPage.class_ := BookingPage.Business;
     BookingPage.selected_seat_ := "1A";
     BookingPage.confirm_booking := true |}.

(* the sample store after ann_form was booked from: the passenger it
   created is on file with an empty passport number *)
Definition ann : Passenger :=
  {| p_passenger_id := 3; first_name := "Ann"; last_name := "Lee";
     email := "ann.lee@email.com"; phone := Some "";
     date_of_birth := Some 0%Z; passport_number := Some "";
     nationality := Some "" |}.

Definition with_ann : DB :=
  {| Airports := [JFK; LAX]; Flights := [AA101 FlightStatus.scheduled];
     Passengers := [john; jane; ann]; Seats := [seat_1A; seat_4A];
     Reservations := [] |}.

(* the sample store with AA101 at the largest price that DECIMAL(10,2)
   holds, and the same store with the passenger of ann_form on file: the
   business surcharge takes the ticket price out of the column's range *)
Definition AA101_dear : Flight :=
  {| f_flight_id := 1; flight_number := "AA101"; f_aircraft_id := 1;
     origin_airport_id := 1; destination_airport_id := 2;
     departure_time := 1763193600; arrival_time := 1763206200;
     base_price := 9999999999; f_status := FlightStatus.scheduled |}.

Definition dear : DB :=
  {| Airports := [JFK; LAX]; Flights := [AA101_dear];
     Passengers := [john; jane]; Seats := [seat_1A; seat_4A];
     Reservations := [] |}.

Definition dear_with_ann : DB :=
  {| Airports := [JFK; LAX]; Flights := [AA101_dear];
     Passengers := [john; jane; ann]; Seats := [seat_1A; seat_4A];
     Reservations := [] |}.

(* a second new passenger who leaves the passport field blank too *)
Definition bob_form : BookingPage.Form :=
  {| BookingPage.first_name_ := "Bob"; BookingPage.last_name_ := "Ray";
     BookingPage.email_ := "bob.ray@email.com"; BookingPage.phone_ := "";
     BookingPage.date_of_birth_ := 0%Z; BookingPage.passport_number_ := "";
     BookingPage.nationality_ := "";
     BookingPage.class_ := BookingPage.Economy;
     BookingPage.selected_seat_ := "4A";
     BookingPage.confirm_booking := true |}.

(* the Aircraft row of the sample data that the sample flight uses *)
Definition boeing_737 : Aircraft :=
  {| aircraft_id := 1; aircraft_model := "Boeing 737-800";
     total_seats := 189; business_class_seats := 12;
     economy_class_seats := 177 |}.

(** ** Two servers

    [binary] compares byte by byte.  [ascii_general_ci] ignores the case of
    the letters a-z, as the default collations of MySQL do: its key is the
    string in upper case.  Neither skips a key. *)

Definition binary : Server :=
  {| WEIGHT_STRING := fun s => s; skipped := fun _ _ => 0 |}.

Definition upper (c : ascii) : ascii :=
  let n := nat_of_ascii c in
  if (97 <=? n) && (n <=? 122) then ascii_of_nat (n - 32) else c.

Fixpoint uppercase (s : string) : string :=
  match s with
  | EmptyString => EmptyString
  | String c s' => String (upper c) (uppercase s')
  end.

#[global] Instance ascii_general_ci : Server :=
  {| WEIGHT_STRING := uppercase; skipped := fun _ _ => 0 |}.

(** * Properties *)

(** ** The collation *)

Lemma Sql_eq_spec {srv : Server} a b : reflect (collates a b) (Sql.eq a b).
Proof. unfold collates, Sql.eq. apply String.eqb_spec. Qed.

Lemma Sql_eq_true {srv : Server} a b : Sql.eq a b = true <-> collates a b.
Proof. unfold collates, Sql.eq. apply String.eqb_eq. Qed.

Lemma Sql_eq_false {srv : Server} a b : Sql.eq a b = false <-> ~ collates a b.
Proof. unfold collates, Sql.eq. apply String.eqb_neq. Qed.


Lemma collates_refl {srv : Server} a : collates a a.
Proof. reflexivity. Qed.

Lemma collates_sym {srv : Server} a b : collates a b -> collates b a.
Proof. unfold collates. congruence. Qed.

Lemma collates_trans {srv : Server} a b c :
  collates a b -> collates b c -> collates a c.
Proof. unfold collates. congruence. Qed.

(* a stored reference collides with itself *)
Lemma In_collides {srv : Server} db ref :
  In ref (references db) -> collides db ref.
Proof. intros H. exists ref. split; [exact H | apply collates_refl]. Qed.

Lemma collides_absent {srv : Server} db ref :
  ~ collides db ref -> ~ In ref (references db).
Proof. intros H Hin. apply H. now apply In_collides. Qed.

(* under the binary collation, to collide is to be stored *)
Lemma collides_binary db ref :
  @collides binary db ref <-> In ref (references db).
Proof.
  split; [|apply (@In_collides binary)].
  intros (b & Hb & E). unfold collates in E. cbn in E. now subst.
Qed.

(** ** The random source and the candidates *)

Lemma advance_0 g : advance g 0 = g.
Proof. destruct g as [d c]. unfold advance. simpl. now rewrite Nat.add_0_r. Qed.

Lemma advance_advance g a b : advance (advance g a) b = advance g (a + b).
Proof. unfold advance. simpl. f_equal. lia. Qed.

Lemma choices_length population k : forall g,
  List.length (fst (choices population k g)) = k.
Proof.
  induction k as [|k IH]; intro g; simpl; [reflexivity|].
  specialize (IH {| draw := draw g; cursor := S (cursor g) |}).
  destruct (choices population k _) as [rest g']. simpl in *. now rewrite IH.
Qed.

Lemma choices_advance population k : forall g,
  snd (choices population k g) = advance g k.
Proof.
  induction k as [|k IH]; intro g; simpl.
  - now rewrite advance_0.
  - specialize (IH {| draw := draw g; cursor := S (cursor g) |}).
    destruct (choices population k _) as [rest g']. simpl in *. subst g'.
    unfold advance. simpl. f_equal. lia.
Qed.

Lemma choices_In population k : population <> [] -> forall g,
  Forall (fun c => In c population) (fst (choices population k g)).
Proof.
  intros Hne. induction k as [|k IH]; intro g; simpl; [constructor|].
  specialize (IH {| draw := draw g; cursor := S (cursor g) |}).
  destruct (choices population k _) as [rest g']. simpl in *.
  constructor; [|exact IH].
  apply nth_In. apply Nat.mod_upper_bound.
  destruct population; [congruence | simpl; lia].
Qed.

Lemma alphabet_upper_or_digit c : In c alphabet -> is_upper_or_digit c = true.
Proof.
  assert (H : forallb is_upper_or_digit alphabet = true) by reflexivity.
  rewrite forallb_forall in H. apply H.
Qed.

Lemma length_string_of_list_ascii l :
  String.length (string_of_list_ascii l) = List.length l.
Proof. induction l as [|c l IH]; simpl; congruence. Qed.

Lemma next_candidate_length g : String.length (next_candidate g) = 8.
Proof.
  unfold next_candidate. now rewrite length_string_of_list_ascii, choices_length.
Qed.

Lemma next_candidate_chars g :
  Forall (fun c => is_upper_or_digit c = true)
         (list_ascii_of_string (next_candidate g)).
Proof.
  unfold next_candidate. rewrite list_ascii_of_string_of_list_ascii.
  eapply Forall_impl; [apply alphabet_upper_or_digit|].
  apply choices_In. discriminate.
Qed.

Lemma candidate_0 g : candidate g 0 = next_candidate g.
Proof. unfold candidate. simpl. now rewrite advance_0. Qed.

Lemma candidate_S g k : candidate (advance g 8) k = candidate g (S k).
Proof. unfold candidate. rewrite advance_advance. f_equal. f_equal. lia. Qed.

(** ** The uniqueness check of the generator *)

Lemma select_booking_reference_nil {srv : Server} db ref :
  Database.select_booking_reference db ref = [] <-> ~ collides db ref.
Proof.
  unfold Database.select_booking_reference, collides, references.
  induction (map booking_reference (Reservations db)) as [|b l IH]; simpl.
  - split; [intros _ (b & [] & _) | reflexivity].
  - destruct (Sql_eq_spec b ref) as [E|Hne].
    + split; [discriminate|]. intros H. exfalso. apply H.
      exists b. split; [now left | exact E].
    + rewrite IH. split.
      * intros H (b' & [<-|Hb'] & E); [contradiction|].
        apply H. now exists b'.
      * intros H (b' & Hb' & E). apply H. exists b'. split; [now right|exact E].
Qed.

Lemma generate_booking_reference_S {srv : Server} fuel db g :
  Database.generate_booking_reference (S fuel) db g =
  match Database.select_booking_reference db (next_candidate g) with
  | [] => Some (Returns (next_candidate g), advance g 8)
  | _ :: _ => Database.generate_booking_reference fuel db (advance g 8)
  end.
Proof.
  cbn [Database.generate_booking_reference]. unfold next_candidate.
  rewrite <- (choices_advance alphabet 8 g).
  destruct (choices alphabet 8 g) as [cs g']. reflexivity.
Qed.

Lemma select_booking_reference_cons {srv : Server} db ref b l :
  Database.select_booking_reference db ref = b :: l -> collides db ref.
Proof.
  intros E. assert (H : In b (Database.select_booking_reference db ref)).
  { rewrite E. now left. }
  unfold Database.select_booking_reference in H. apply filter_In in H.
  destruct H as [H Hb]. apply Sql_eq_true in Hb. now exists b.
Qed.

(* the loop returns the first candidate that collides with no stored
   reference *)
Lemma generate_finds {srv : Server} db k : forall g fuel,
  (forall i, i < k -> collides db (candidate g i)) ->
  ~ collides db (candidate g k) ->
  k < fuel ->
  Database.generate_booking_reference fuel db g =
  Some (Returns (candidate g k), advance g (8 * S k)).
Proof.
  induction k as [|k IH]; intros g fuel Hbefore Hfree Hfuel;
    (destruct fuel as [|fuel]; [lia|]); rewrite generate_booking_reference_S.
  - rewrite candidate_0 in Hfree |- *.
    apply select_booking_reference_nil in Hfree. now rewrite Hfree.
  - assert (H0 : collides db (next_candidate g)).
    { rewrite <- candidate_0. apply Hbefore. lia. }
    destruct (Database.select_booking_reference db (next_candidate g)) eqn:E.
    + apply select_booking_reference_nil in E. contradiction.
    + rewrite (IH (advance g 8) fuel).
      * rewrite candidate_S, advance_advance. do 3 f_equal. lia.
      * intros i Hi. rewrite candidate_S. apply Hbefore. lia.
      * now rewrite candidate_S.
      * lia.
Qed.

(* while every candidate collides, the loop goes on *)
Lemma generate_starves {srv : Server} db : forall fuel g,
  (forall i, i < fuel -> collides db (candidate g i)) ->
  Database.generate_booking_reference fuel db g = None.
Proof.
  induction fuel as [|fuel IH]; intros g Hall; [reflexivity|].
  rewrite generate_booking_reference_S.
  destruct (Database.select_booking_reference db (next_candidate g)) eqn:E.
  - apply select_booking_reference_nil in E. exfalso. apply E.
    rewrite <- candidate_0. apply Hall. lia.
  - apply IH. intros i Hi. rewrite candidate_S. apply Hall. lia.
Qed.

(* what a returned reference looks like *)
Lemma generate_returns {srv : Server} db : forall fuel g out g',
  Database.generate_booking_reference fuel db g = Some (out, g') ->
  exists k, k < fuel /\ out = Returns (candidate g k) /\
            g' = advance g (8 * S k) /\
            ~ collides db (candidate g k) /\
            forall i, i < k -> collides db (candidate g i).
Proof.
  induction fuel as [|fuel IH]; intros g out g' H; [discriminate|].
  rewrite generate_booking_reference_S in H.
  destruct (Database.select_booking_reference db (next_candidate g)) eqn:E.
  - inversion H; subst. exists 0. rewrite candidate_0.
    apply select_booking_reference_nil in E.
    split; [lia|]. split; [reflexivity|]. split; [reflexivity|].
    split; [exact E|]. intros i Hi. lia.
  - apply IH in H. destruct H as (k & Hk & -> & -> & Hfree & Hbefore).
    exists (S k). rewrite candidate_S in Hfree. rewrite advance_advance.
    split; [lia|]. split; [now rewrite candidate_S|].
    split; [f_equal; lia|]. split; [exact Hfree|].
    intros [|i] Hi.
    + rewrite candidate_0. eapply select_booking_reference_cons. exact E.
    + rewrite <- candidate_S. apply Hbefore. lia.
Qed.

(** ** What [create_reservation] does to the store *)

Lemma set_Reservations_same db :
  Database.set_Reservations db (Reservations db) = db.
Proof. now destruct db. Qed.

(* every finished call generated a free reference and then either
   appended the confirmed/paid row or, refused by a constraint, wrote
   nothing; it never raises *)
Lemma create_reservation_cases {srv : Server} fuel db g p f s c out db' g' :
  Database.create_reservation fuel db g p f s c = Some (out, db', g') ->
  exists ref,
    Database.generate_booking_reference fuel db g = Some (Returns ref, g') /\
    ((Database.reservation_accepted db p f s ref c = true /\
      out = Returns (Some ref) /\
      db' = Database.set_Reservations db
              (Reservations db ++ [Database.new_reservation db p f s ref c]))
     \/
     (Database.reservation_accepted db p f s ref c = false /\
      out = Returns None /\ db' = db)).
Proof.
  unfold Database.create_reservation. intros H.
  destruct (Database.generate_booking_reference fuel db g)
    as [[o g1]|] eqn:G; [|discriminate].
  destruct (generate_returns _ _ _ _ _ G) as (k & _ & -> & _).
  unfold Database.insert_reservation in H.
  exists (candidate g k).
  destruct (Database.reservation_accepted db p f s (candidate g k) c) eqn:A;
    inversion H; subst; (split; [reflexivity|]); [left | right]; auto.
Qed.

Lemma references_update_cancelled {srv : Server} ref rs :
  map booking_reference (map (Database.update_cancelled ref) rs) =
  map booking_reference rs.
Proof.
  rewrite map_map. apply map_ext. intros x.
  unfold Database.update_cancelled.
  now destruct (Sql.eq (booking_reference x) ref).
Qed.

Lemma create_passenger_Reservations {srv : Server} db fn ln e ph dob pp na :
  Reservations (snd (Database.create_passenger db fn ln e ph dob pp na)) =
  Reservations db.
Proof.
  unfold Database.create_passenger, Database.insert_passenger.
  destruct (Database.select_passenger_id db e); [|reflexivity].
  match goal with |- context [if ?b then _ else _] => destruct b end;
    reflexivity.
Qed.

(* no step removes a booking reference from the store *)
Lemma step_references {srv : Server} db1 db2 :
  step db1 db2 -> incl (references db1) (references db2).
Proof.
  intros H. destruct H; unfold references;
    cbn [snd Database.cancel_reservation Database.update_flight_status
         Database.set_Reservations Reservations].
  - rewrite create_passenger_Reservations. apply incl_refl.
  - apply create_reservation_cases in H.
    destruct H as (ref & _ & [(_ & _ & ->) | (_ & _ & ->)]).
    + cbn [Database.set_Reservations Reservations].
      rewrite map_app. apply incl_appl, incl_refl.
    + apply incl_refl.
  - rewrite references_update_cancelled. apply incl_refl.
  - apply incl_refl.
Qed.

Lemma steps_references {srv : Server} db1 db2 :
  steps db1 db2 -> incl (references db1) (references db2).
Proof.
  induction 1 as [db | db1 db2 db3 H1 _ IH]; [apply incl_refl|].
  eapply incl_tran; [apply step_references; exact H1 | exact IH].
Qed.

(** ** Reference generator *)

(** C2, as amended: [generate_booking_reference] has no retry ceiling and
    no terminal error.  It draws candidates until the SELECT finds no
    stored reference equal to one (equal as the server compares
    [booking_reference]; with the [binary] server, until one is absent
    from the store): when candidate [k] is the first such one it returns
    it after exactly [k + 1] draws, however large [k] is; when every
    candidate collides it never returns; and it never raises. *)
Theorem C2_generate_booking_reference_unbounded {srv : Server} db g :
  (forall k,
      (forall i, i < k -> collides db (candidate g i)) ->
      ~ collides db (candidate g k) ->
      forall fuel,
        Database.generate_booking_reference fuel db g =
        if fuel <=? k then None
        else Some (Returns (candidate g k), advance g (8 * S k)))
  /\ ((forall i, collides db (candidate g i)) ->
      forall fuel, Database.generate_booking_reference fuel db g = None)
  /\ (forall fuel out g',
        Database.generate_booking_reference fuel db g = Some (out, g') ->
        exists ref, out = Returns ref).
Proof.
  split; [|split].
  - intros k Hbefore Hfree fuel. destruct (Nat.leb_spec fuel k) as [Hle|Hlt].
    + apply generate_starves. intros i Hi. apply Hbefore. lia.
    + now apply generate_finds.
  - intros Hall fuel. apply generate_starves. intros i _. apply Hall.
  - intros fuel out g' H. apply generate_returns in H.
    destruct H as (k & _ & -> & _). now exists (candidate g k).
Qed.

Lemma C2_generate_booking_reference_unbounded_witness :
  Database.generate_booking_reference 1
    (sample FlightStatus.scheduled [AAAAAAAA]) A_then_B = None /\
  Database.generate_booking_reference 2
    (sample FlightStatus.scheduled [AAAAAAAA]) A_then_B =
  Some (Returns "BBBBBBBB", advance A_then_B 16).
Proof.
  pose proof (proj1 (C2_generate_booking_reference_unbounded
                       (sample FlightStatus.scheduled [AAAAAAAA]) A_then_B) 1)
    as H.
  assert (H1 : forall i, i < 1 ->
             collides (sample FlightStatus.scheduled [AAAAAAAA])
                      (candidate A_then_B i)).
  { intros i Hi. assert (i = 0) by lia. subst i.
    exists "AAAAAAAA". split; [now left | reflexivity]. }
  assert (H2 : ~ collides (sample FlightStatus.scheduled [AAAAAAAA])
                          (candidate A_then_B 1)).
  { intros (b & [<-|[]] & E). vm_compute in E. discriminate E. }
  split; [exact (H H1 H2 1) | exact (H H1 H2 2)].
Defined.

Lemma candidate_constant_0 i : candidate (constant 0) i = "AAAAAAAA".
Proof. reflexivity. Qed.

(** C2, as stated, fails: with "AAAAAAAA" in the store and a generator
    that keeps drawing it, the loop has not ended after 20 candidates, nor
    after 1000, and no amount of fuel makes it return or raise. *)
Lemma C2_retry_ceiling_counterexample :
  Database.generate_booking_reference 20
    (sample FlightStatus.scheduled [AAAAAAAA]) (constant 0) = None /\
  Database.generate_booking_reference 1000
    (sample FlightStatus.scheduled [AAAAAAAA]) (constant 0) = None /\
  ~ (exists fuel out g',
        Database.generate_booking_reference fuel
          (sample FlightStatus.scheduled [AAAAAAAA]) (constant 0)
        = Some (out, g')).
Proof.
  assert (H : forall fuel,
             Database.generate_booking_reference fuel
               (sample FlightStatus.scheduled [AAAAAAAA]) (constant 0) = None).
  { intros fuel. apply generate_starves. intros i _.
    rewrite candidate_constant_0.
    exists "AAAAAAAA". split; [now left | reflexivity]. }
  split; [apply H | split; [apply H|]].
  intros (fuel & out & g' & E). rewrite H in E. discriminate.
Qed.

(** C3: a reference returned by [generate_booking_reference] has eight
    characters, each an uppercase letter or a digit, and is absent from
    the Reservation store when it is returned (no stored reference is
    even equal to it as the server compares them); hence two successful
    bookings, the second made at any later time, get different
    references (different for the server too). *)
Theorem C3_reference_format_and_uniqueness {srv : Server} :
  (forall fuel db g ref g',
      Database.generate_booking_reference fuel db g = Some (Returns ref, g') ->
      String.length ref = 8 /\
      Forall (fun c => is_upper_or_digit c = true) (list_ascii_of_string ref) /\
      ~ In ref (references db) /\ ~ collides db ref)
  /\
  (forall fuel1 db0 g0 p1 f1 s1 c1 ref1 db1 g1
          db2 fuel2 g2 p2 f2 s2 c2 ref2 db3 g3,
      Database.create_reservation fuel1 db0 g0 p1 f1 s1 c1
        = Some (Returns (Some ref1), db1, g1) ->
      steps db1 db2 ->
      Database.create_reservation fuel2 db2 g2 p2 f2 s2 c2
        = Some (Returns (Some ref2), db3, g3) ->
      ref1 <> ref2 /\ ~ collates ref1 ref2).
Proof.
  split.
  - intros fuel db g ref g' H. apply generate_returns in H.
    destruct H as (k & _ & E & _ & Hfree & _). inversion E; subst ref.
    unfold candidate at 1 2.
    split; [apply next_candidate_length|].
    split; [apply next_candidate_chars|].
    split; [now apply collides_absent | exact Hfree].
  - intros fuel1 db0 g0 p1 f1 s1 c1 ref1 db1 g1
           db2 fuel2 g2 p2 f2 s2 c2 ref2 db3 g3 B1 Hsteps B2.
    assert (N : ~ collates ref1 ref2);
      [|split; [intros ->; apply N, collates_refl | exact N]].
    intros C.
    apply create_reservation_cases in B1, B2.
    destruct B1 as (r1 & _ & [(_ & E1 & ->) | (_ & E1 & _)]);
      [|discriminate]. inversion E1; subst r1.
    destruct B2 as (r2 & G2 & [(_ & E2 & _) | (_ & E2 & _)]);
      [|discriminate]. inversion E2; subst r2.
    apply generate_returns in G2.
    destruct G2 as (k & _ & E & _ & Hfree & _). inversion E as [E'].
    apply Hfree. rewrite <- E'. exists ref1. split; [|exact C].
    apply (steps_references _ _ Hsteps). unfold references.
    cbn [Database.set_Reservations Reservations]. rewrite map_app.
    apply in_or_app. right. left. reflexivity.
Qed.

Lemma C3_reference_format_and_uniqueness_witness :
  (String.length "AAAAAAAA" = 8 /\
   Forall (fun c => is_upper_or_digit c = true)
          (list_ascii_of_string "AAAAAAAA") /\
   ~ In "AAAAAAAA" (references booked) /\
   ~ collides booked "AAAAAAAA")
  /\ ("AAAAAAAA" <> "BBBBBBBB" /\ ~ collates "AAAAAAAA" "BBBBBBBB").
Proof.
  split.
  - apply (proj1 C3_reference_format_and_uniqueness 1
             booked
             (constant 0) "AAAAAAAA" (advance (constant 0) 8)).
    reflexivity.
  - eapply (proj2 C3_reference_format_and_uniqueness 1
              booked
              A_then_B 2 1 (Some 1) 55000%Z "AAAAAAAA" _ _
              _ 2 A_then_B 1 1 None 35000%Z "BBBBBBBB").
    + reflexivity.
    + eapply steps_cons; [apply (step_cancel_reservation _ "BK2025001")|].
      apply steps_refl.
    + reflexivity.
Defined.

(** ** Seat holding *)

Lemma holds_new_reservation {srv : Server} db p f s ref c :
  holds f s (Database.new_reservation db p f (Some s) ref c) = true.
Proof. unfold holds. simpl. now rewrite !Nat.eqb_refl. Qed.

(** C1, as amended: [create_reservation] makes no check of the seat and
    never fails with SeatUnavailableError.  A call that returns a
    reference adds exactly one live reservation for (F, S), whoever holds
    the seat already, so at most one live reservation references (F, S)
    afterwards if and only if none did before the call; a call that
    returns None leaves the store as it was. *)
Theorem C1_create_reservation_adds_a_holder {srv : Server}
    fuel db g p f s c out db' g' :
  Database.create_reservation fuel db g p f (Some s) c = Some (out, db', g') ->
  (exists v, out = Returns v) /\
  (forall ref, out = Returns (Some ref) ->
     List.length (holders db' f s) = S (List.length (holders db f s)) /\
     (List.length (holders db' f s) <= 1 <-> holders db f s = [])) /\
  (out = Returns None -> db' = db).
Proof.
  intros H. apply create_reservation_cases in H.
  destruct H as (ref & _ & [(_ & -> & ->) | (_ & -> & ->)]).
  - split; [eauto|]. split; [|discriminate].
    intros ref' _. unfold holders.
    cbn [Database.set_Reservations Reservations].
    rewrite filter_app. cbn [filter]. rewrite holds_new_reservation.
    rewrite length_app. cbn [List.length].
    split; [lia|].
    destruct (filter (holds f s) (Reservations db)); cbn [List.length];
      split; intros; try reflexivity; try discriminate; lia.
  - split; [eauto|]. split; [discriminate | reflexivity].
Qed.

Lemma C1_create_reservation_adds_a_holder_witness :
  List.length
    (holders (Database.set_Reservations booked
                (Reservations booked ++
                 [Database.new_reservation booked 2 1 (Some 1) "AAAAAAAA" 55000]))
             1 1) = 1.
Proof.
  pose proof (C1_create_reservation_adds_a_holder
                1 booked (constant 0) 2 1 1 55000%Z
                (Returns (Some "AAAAAAAA")) _ _ eq_refl) as H.
  destruct H as (_ & H & _).
  destruct (H "AAAAAAAA" eq_refl) as [H1 _]. exact H1.
Defined.

(** C1, as stated, fails: seat 4A of AA101 is held by the confirmed
    reservation BK2025001, and a booking of the same seat returns a
    reference and leaves two live reservations on it. *)
Lemma C1_double_booking_counterexample :
  List.length (holders booked 1 2) = 1 /\
  exists db' g',
    Database.create_reservation 1 booked (constant 0) 2 1 (Some 2) 35000
      = Some (Returns (Some "AAAAAAAA"), db', g') /\
    List.length (holders db' 1 2) = 2.
Proof.
  split; [reflexivity|]. do 2 eexists. split; reflexivity.
Qed.

(** ** Availability *)

Lemma mem_In k keys : Sql.mem k keys = true <-> In k keys.
Proof.
  unfold Sql.mem. rewrite existsb_exists. split.
  - intros (x & Hx & E). apply Nat.eqb_eq in E. now subst.
  - intros H. exists k. split; [exact H | apply Nat.eqb_refl].
Qed.

Lemma order_insert_In {srv : Server} a x l :
  In a (Database.order_insert x l) <-> a = x \/ In a l.
Proof.
  induction l as [|y l IH]; simpl.
  - intuition.
  - destruct (Database.order_leb x y); simpl; [intuition|].
    rewrite IH. intuition.
Qed.

(* ORDER BY only reorders the rows *)
Lemma order_by_In {srv : Server} a l : In a (Database.order_by l) <-> In a l.
Proof.
  unfold Database.order_by. induction l as [|x l IH]; simpl; [tauto|].
  rewrite order_insert_In, IH. intuition.
Qed.

Lemma status_eqb_confirmed st :
  ReservationStatus.eqb st ReservationStatus.confirmed = true <->
  st = ReservationStatus.confirmed.
Proof. destruct st; simpl; split; congruence. Qed.

(* the subquery lists the seats under a 'confirmed' reservation *)
Lemma confirmed_seat_ids_In db f s :
  In s (Database.confirmed_seat_ids db f) <-> confirmed_on db f s.
Proof.
  unfold Database.confirmed_seat_ids, confirmed_on. rewrite in_flat_map.
  split.
  - intros (x & Hx & H). exists x. split; [exact Hx|].
    destruct (r_seat_id x) as [k|]; [|contradiction].
    destruct (r_flight_id x =? f) eqn:Ef; simpl in H; [|contradiction].
    destruct (ReservationStatus.eqb (r_status x) ReservationStatus.confirmed)
      eqn:Es; [|contradiction].
    destruct H as [->|[]]. apply Nat.eqb_eq in Ef.
    apply status_eqb_confirmed in Es. auto.
  - intros (x & Hx & Ef & Es & Est). exists x. split; [exact Hx|].
    rewrite Es, Ef, Est, Nat.eqb_refl. simpl. now left.
Qed.

(* a seat of the flight's aircraft that no 'confirmed' reservation of the
   flight references is in the result *)
Lemma available_intro {srv : Server} db flight_id s f :
  In s (Seats db) -> In f (Flights db) -> f_flight_id f = flight_id ->
  s_aircraft_id s = f_aircraft_id f ->
  ~ confirmed_on db flight_id (s_seat_id s) ->
  In (seat_row s) (Database.get_available_seats db flight_id).
Proof.
  intros Hs Hf Ef Ea Hfree.
  unfold Database.get_available_seats. rewrite order_by_In, in_flat_map.
  exists s. split; [exact Hs|]. apply in_flat_map. exists f.
  split; [exact Hf|].
  rewrite Ea, Ef, !Nat.eqb_refl.
  destruct (Sql.mem (s_seat_id s) (Database.confirmed_seat_ids db flight_id))
    eqn:Em.
  - exfalso. apply Hfree. now rewrite <- confirmed_seat_ids_In, <- mem_In.
  - now left.
Qed.

(** C4, as amended: [get_available_seats F] returns exactly the seats of
    the aircraft of flight [F] that no reservation of [F] with status
    'confirmed' references; a seat referenced only by a checked_in or
    completed reservation is returned as available. *)
Theorem C4_get_available_seats_excludes_confirmed {srv : Server}
    db flight_id a :
  In a (Database.get_available_seats db flight_id) <->
  exists s f,
    In s (Seats db) /\ In f (Flights db) /\ f_flight_id f = flight_id /\
    s_aircraft_id s = f_aircraft_id f /\ a = seat_row s /\
    ~ confirmed_on db flight_id (s_seat_id s).
Proof.
  unfold Database.get_available_seats. rewrite order_by_In, in_flat_map.
  split.
  - intros (s & Hs & H). apply in_flat_map in H. destruct H as (f & Hf & H).
    exists s, f.
    destruct (s_aircraft_id s =? f_aircraft_id f) eqn:Ea;
      [|contradiction].
    destruct (f_flight_id f =? flight_id) eqn:Ef; [|contradiction].
    destruct (Sql.mem (s_seat_id s) (Database.confirmed_seat_ids db flight_id))
      eqn:Em; [contradiction|].
    destruct H as [<-|[]].
    apply Nat.eqb_eq in Ea, Ef.
    repeat (split; [assumption || reflexivity|]).
    rewrite <- confirmed_seat_ids_In, <- mem_In. congruence.
  - intros (s & f & Hs & Hf & Ef & Ea & -> & Hfree).
    rewrite <- in_flat_map, <- order_by_In.
    now apply (available_intro db flight_id s f).
Qed.

(** C4, as stated, fails: seat 4A of AA101 is held by a checked_in
    reservation, and by a completed one, and [get_available_seats] still
    returns it. *)
Lemma C4_checked_in_seat_available_counterexample :
  (List.length (holders (sample FlightStatus.scheduled
      [BK2025001 ReservationStatus.checked_in PaymentStatus.paid]) 1 2) = 1 /\
   In (seat_row seat_4A)
      (Database.get_available_seats (sample FlightStatus.scheduled
         [BK2025001 ReservationStatus.checked_in PaymentStatus.paid]) 1))
  /\
  (List.length (holders (sample FlightStatus.scheduled
      [BK2025001 ReservationStatus.completed PaymentStatus.paid]) 1 2) = 1 /\
   In (seat_row seat_4A)
      (Database.get_available_seats (sample FlightStatus.scheduled
         [BK2025001 ReservationStatus.completed PaymentStatus.paid]) 1)).
Proof.
  split; (split; [reflexivity | right; left; reflexivity]).
Qed.

(** ** Booking and the status of the flight *)

(* the generator reads the Reservations table only *)
Lemma generate_booking_reference_ext {srv : Server} db1 db2 :
  Reservations db1 = Reservations db2 ->
  forall fuel g,
    Database.generate_booking_reference fuel db1 g =
    Database.generate_booking_reference fuel db2 g.
Proof.
  intros E. induction fuel as [|fuel IH]; intro g; [reflexivity|].
  rewrite !generate_booking_reference_S.
  unfold Database.select_booking_reference. rewrite E.
  destruct (filter _ _); [reflexivity | apply IH].
Qed.

Lemma update_flight_status_flight_ids db f st :
  map f_flight_id (Flights (snd (Database.update_flight_status db f st))) =
  map f_flight_id (Flights db).
Proof.
  cbn [snd Database.update_flight_status Flights]. rewrite map_map.
  apply map_ext. intros x. now destruct (f_flight_id x =? f).
Qed.

(* a change of status changes neither the verdict of the constraints nor
   the row to insert *)
Lemma reservation_accepted_update_flight_status {srv : Server}
    db f' st p f s ref c :
  Database.reservation_accepted
    (snd (Database.update_flight_status db f' st)) p f s ref c =
  Database.reservation_accepted db p f s ref c.
Proof.
  unfold Database.reservation_accepted.
  rewrite update_flight_status_flight_ids. reflexivity.
Qed.

Lemma reservation_accepted_flight {srv : Server} db p f s ref c :
  Database.reservation_accepted db p f s ref c = true ->
  In f (map f_flight_id (Flights db)).
Proof.
  unfold Database.reservation_accepted. intros H.
  repeat (apply andb_prop in H; destruct H as [H ?]).
  now apply mem_In.
Qed.

(** C5, as amended: [create_reservation] never fails with
    FlightNotBookableError and never reads the status of the flight.  Once
    the generator draws a reference that collides with no stored one (the
    candidate [k], after [k] that collide; until then the call does not
    return), the call returns: when the flight does not exist the insert
    is refused by the foreign key, the call returns None and the store is
    unchanged; for an existing flight the outcome and the reservation
    written are the same whatever status the flight is put in, scheduled
    or not. *)
Theorem C5_create_reservation_ignores_flight_status {srv : Server}
    fuel db g p f s c k :
  (forall i, i < k -> collides db (candidate g i)) ->
  ~ collides db (candidate g k) ->
  k < fuel ->
  exists out db',
    Database.create_reservation fuel db g p f s c
    = Some (Returns out, db', advance g (8 * S k)) /\
    (~ In f (map f_flight_id (Flights db)) -> out = None /\ db' = db) /\
    (forall f' st,
        exists db'',
          Database.create_reservation fuel
            (snd (Database.update_flight_status db f' st)) g p f s c
          = Some (Returns out, db'', advance g (8 * S k)) /\
          Reservations db'' = Reservations db').
Proof.
  intros Hbefore Hfree Hfuel.
  pose proof (generate_finds db k g fuel Hbefore Hfree Hfuel) as G.
  assert (G' : forall f' st,
             Database.generate_booking_reference fuel
               (snd (Database.update_flight_status db f' st)) g =
             Some (Returns (candidate g k), advance g (8 * S k))).
  { intros f' st. rewrite <- G. now apply generate_booking_reference_ext. }
  unfold Database.create_reservation, Database.insert_reservation.
  rewrite G.
  destruct (Database.reservation_accepted db p f s (candidate g k) c) eqn:A.
  - do 2 eexists. split; [reflexivity|]. split.
    + intros Hnone. apply reservation_accepted_flight in A. contradiction.
    + intros f' st. rewrite G', reservation_accepted_update_flight_status, A.
      eexists. split; reflexivity.
  - do 2 eexists. split; [reflexivity|]. split.
    + intros _. split; reflexivity.
    + intros f' st. rewrite G', reservation_accepted_update_flight_status, A.
      eexists. split; reflexivity.
Qed.

Lemma C5_create_reservation_ignores_flight_status_witness :
  exists out db',
    Database.create_reservation 2
      (sample FlightStatus.departed [AAAAAAAA]) A_then_B 2 7 (Some 1) 55000
    = Some (Returns out, db', advance A_then_B 16) /\
    (~ In 7 (map f_flight_id (Flights (sample FlightStatus.departed [AAAAAAAA])))
     -> out = None /\ db' = sample FlightStatus.departed [AAAAAAAA]) /\
    (forall f' st,
        exists db'',
          Database.create_reservation 2
            (snd (Database.update_flight_status
                    (sample FlightStatus.departed [AAAAAAAA]) f' st))
            A_then_B 2 7 (Some 1) 55000
          = Some (Returns out, db'', advance A_then_B 16) /\
          Reservations db'' = Reservations db').
Proof.
  apply (C5_create_reservation_ignores_flight_status
           2 (sample FlightStatus.departed [AAAAAAAA]) A_then_B 2 7 (Some 1)
           55000%Z 1).
  - intros i Hi. assert (i = 0) by lia. subst i.
    exists "AAAAAAAA". split; [now left | reflexivity].
  - intros (b & [<-|[]] & E). vm_compute in E. discriminate E.
  - lia.
Defined.

(** C5, as stated, fails: AA101 has departed and a booking on it returns a
    reference and writes a confirmed reservation; on a flight that does not
    exist the call returns None, it does not raise. *)
Lemma C5_departed_flight_booked_counterexample :
  (Flights (sample FlightStatus.departed []) = [AA101 FlightStatus.departed] /\
   exists db' g',
     Database.create_reservation 1 (sample FlightStatus.departed [])
       (constant 0) 1 1 (Some 1) 35000
     = Some (Returns (Some "AAAAAAAA"), db', g') /\
     Reservations db' =
     [Database.new_reservation (sample FlightStatus.departed [])
        1 1 (Some 1) "AAAAAAAA" 35000])
  /\
  (exists g',
     Database.create_reservation 1 (sample FlightStatus.departed [])
       (constant 0) 1 7 (Some 1) 35000
     = Some (Returns None, sample FlightStatus.departed [], g')).
Proof.
  split.
  - split; [reflexivity|]. do 2 eexists. split; reflexivity.
  - eexists. reflexivity.
Qed.

(** ** Cancellation *)

Lemma update_cancelled_other {srv : Server} ref r_ :
  ~ collates (booking_reference r_) ref ->
  Database.update_cancelled ref r_ = r_.
Proof.
  intros H. unfold Database.update_cancelled.
  apply Sql_eq_false in H. now rewrite H.
Qed.

Lemma update_cancelled_same {srv : Server} ref r_ :
  collates (booking_reference r_) ref ->
  Database.update_cancelled ref r_ =
  {| reservation_id := reservation_id r_;
     r_passenger_id := r_passenger_id r_;
     r_flight_id := r_flight_id r_;
     r_seat_id := r_seat_id r_;
     booking_reference := booking_reference r_;
     ticket_price := ticket_price r_;
     r_status := ReservationStatus.cancelled;
     payment_status := PaymentStatus.refunded |}.
Proof.
  intros H. unfold Database.update_cancelled.
  apply Sql_eq_true in H. now rewrite H.
Qed.

Lemma update_cancelled_idempotent {srv : Server} ref r_ :
  Database.update_cancelled ref (Database.update_cancelled ref r_) =
  Database.update_cancelled ref r_.
Proof.
  destruct (Sql_eq_spec (booking_reference r_) ref) as [E|E].
  - rewrite (update_cancelled_same ref r_ E).
    now rewrite update_cancelled_same.
  - now rewrite !(update_cancelled_other ref r_ E).
Qed.

(* an UPDATE whose WHERE matches no row writes nothing *)
Lemma map_update_cancelled_absent {srv : Server} ref rs :
  (forall x, In x rs -> ~ collates (booking_reference x) ref) ->
  map (Database.update_cancelled ref) rs = rs.
Proof.
  induction rs as [|x rs IH]; simpl; intros H; [reflexivity|].
  rewrite update_cancelled_other by (apply H; now left).
  rewrite IH by (intros y Hy; apply H; now right). reflexivity.
Qed.

Lemma not_collides_rows {srv : Server} db ref :
  ~ collides db ref ->
  forall x, In x (Reservations db) -> ~ collates (booking_reference x) ref.
Proof.
  intros H x Hx E. apply H. exists (booking_reference x).
  split; [now apply in_map | exact E].
Qed.

(** C6, as amended: for a booking reference that the server finds equal
    to no stored one (with the [binary] server: a reference absent from
    the Reservation store), [cancel_reservation] leaves the store
    unchanged and returns normally; it raises no NotFoundError, the
    unknown reference is accepted in silence. *)
Theorem C6_cancel_unknown_reference_is_silent {srv : Server} db ref :
  ~ collides db ref ->
  Database.cancel_reservation db ref = (Returns tt, db).
Proof.
  intros H. unfold Database.cancel_reservation.
  rewrite map_update_cancelled_absent by (now apply not_collides_rows).
  now rewrite set_Reservations_same.
Qed.

Lemma C6_cancel_unknown_reference_is_silent_witness :
  Database.cancel_reservation booked "ZZZZZZZZ" = (Returns tt, booked).
Proof.
  apply (C6_cancel_unknown_reference_is_silent booked "ZZZZZZZZ").
  intros (b & [<-|[]] & E). vm_compute in E. discriminate E.
Defined.

(** C6, as stated, fails: "ZZZZZZZZ" is not a reference of the sample
    store, and cancelling it returns instead of failing with
    NotFoundError.  Nor is "bk2025001" one, and on a server that ignores
    case cancelling it does not even leave the store unchanged: it cancels
    BK2025001. *)
Lemma C6_cancel_unknown_reference_counterexample :
  (Database.select_booking_reference booked "ZZZZZZZZ" = [] /\
   fst (Database.cancel_reservation booked "ZZZZZZZZ") = Returns tt /\
   fst (Database.cancel_reservation booked "ZZZZZZZZ")
   <> Raises NotFoundError) /\
  (~ In "bk2025001" (references booked) /\
   Database.cancel_reservation booked "bk2025001" =
   (Returns tt,
    sample FlightStatus.scheduled
      [BK2025001 ReservationStatus.cancelled PaymentStatus.refunded])).
Proof.
  split.
  - split; [reflexivity|]. split; [reflexivity | discriminate].
  - split; [intros [E|[]]; discriminate E | reflexivity].
Qed.

Lemma cancel_offered_iff st dep now :
  App.cancel_offered st dep now = true <->
  st = ReservationStatus.confirmed /\ (now < dep)%Z.
Proof.
  unfold App.cancel_offered.
  rewrite andb_true_iff, status_eqb_confirmed, Z.ltb_lt. tauto.
Qed.

(* a run of the bookings tab writes nothing, or cancels one listed
   reservation whose button is drawn *)
Lemma listing_cases {srv : Server} db now w l :
  App.listing db now w l = db \/
  exists res,
    In res l /\
    App.cancel_offered (r_status (Queries.pr_r res))
                       (departure_time (Queries.pr_f res)) now = true /\
    App.cancel_button w (booking_reference (Queries.pr_r res)) = true /\
    App.listing db now w l =
    snd (Database.cancel_reservation
           db (booking_reference (Queries.pr_r res))).
Proof.
  induction l as [|x l IH]; cbn [App.listing]; [now left|].
  destruct (App.cancel_offered _ _ _) eqn:O; cbn [andb].
  - destruct (App.cancel_button w _) eqn:B.
    + right. exists x. split; [now left | auto].
    + destruct IH as [IH | (res & Hin & H)]; [now left|].
      right. exists res. split; [now right | exact H].
  - destruct IH as [IH | (res & Hin & H)]; [now left|].
    right. exists res. split; [now right | exact H].
Qed.

Lemma show_my_bookings_page_cases {srv : Server} db now w :
  App.show_my_bookings_page db now w = db \/
  exists res,
    In res (Queries.get_passenger_reservations db (App.email_input w)) /\
    App.search w = true /\
    App.cancel_offered (r_status (Queries.pr_r res))
                       (departure_time (Queries.pr_f res)) now = true /\
    App.cancel_button w (booking_reference (Queries.pr_r res)) = true /\
    App.show_my_bookings_page db now w =
    snd (Database.cancel_reservation
           db (booking_reference (Queries.pr_r res))).
Proof.
  unfold App.show_my_bookings_page.
  destruct (App.search w); [|now left].
  destruct (App.email_input w) as [|c e] eqn:E; [now left|].
  destruct (listing_cases db now w
              (Queries.get_passenger_reservations db (String c e)))
    as [H | (res & Hin & O & B & H)]; [now left|].
  right. exists res. auto.
Qed.

(** C7, as amended: [cancel_reservation] checks no transition legality.
    Every reservation whose reference the server finds equal to the one
    given, whatever its status (completed and cancelled included), gets
    status 'cancelled' and payment status 'refunded', whatever its payment
    status was (a 'pending' payment too); its other columns, the other
    reservations, the number of rows and the other tables are unchanged.
    The only gate is the caller's: a run of the bookings tab writes
    nothing, or cancels one listed reservation whose "Cancel Booking"
    button is drawn, which it is only in status 'confirmed' with the
    departure in the future; and as the button sits under the "Search"
    button, a run started by one click makes no call at all. *)
Theorem C7_cancel_reservation_unconditional {srv : Server} db ref :
  fst (Database.cancel_reservation db ref) = Returns tt /\
  List.length (Reservations (snd (Database.cancel_reservation db ref))) =
  List.length (Reservations db) /\
  (forall i r_,
      nth_error (Reservations db) i = Some r_ ->
      exists r',
        nth_error (Reservations (snd (Database.cancel_reservation db ref))) i
        = Some r' /\
        reservation_id r' = reservation_id r_ /\
        r_passenger_id r' = r_passenger_id r_ /\
        r_flight_id r' = r_flight_id r_ /\
        r_seat_id r' = r_seat_id r_ /\
        booking_reference r' = booking_reference r_ /\
        ticket_price r' = ticket_price r_ /\
        (collates (booking_reference r_) ref ->
         r_status r' = ReservationStatus.cancelled /\
         payment_status r' = PaymentStatus.refunded) /\
        (~ collates (booking_reference r_) ref -> r' = r_)) /\
  (Airports (snd (Database.cancel_reservation db ref)) = Airports db /\
   Flights (snd (Database.cancel_reservation db ref)) = Flights db /\
   Passengers (snd (Database.cancel_reservation db ref)) = Passengers db /\
   Seats (snd (Database.cancel_reservation db ref)) = Seats db) /\
  (forall now w,
      App.show_my_bookings_page db now w = db \/
      exists res,
        In res (Queries.get_passenger_reservations db (App.email_input w)) /\
        r_status (Queries.pr_r res) = ReservationStatus.confirmed /\
        (now < departure_time (Queries.pr_f res))%Z /\
        App.show_my_bookings_page db now w =
        snd (Database.cancel_reservation
               db (booking_reference (Queries.pr_r res)))) /\
  (forall now w,
      App.one_click w -> App.show_my_bookings_page db now w = db).
Proof.
  cbn [fst snd Database.cancel_reservation Database.set_Reservations
       Reservations Airports Flights Passengers Seats].
  split; [reflexivity|]. split; [apply length_map|].
  split; [|split; [repeat split|split]].
  - intros i r_ Hi. exists (Database.update_cancelled ref r_).
    split; [now apply map_nth_error|].
    destruct (Sql_eq_spec (booking_reference r_) ref) as [E|E].
    + rewrite (update_cancelled_same ref r_ E). cbn.
      repeat (split; [reflexivity|]). split; [auto | contradiction].
    + rewrite (update_cancelled_other ref r_ E).
      repeat (split; [reflexivity|]). split; [contradiction | reflexivity].
  - intros now w.
    destruct (show_my_bookings_page_cases db now w)
      as [H | (res & Hin & _ & O & _ & H)]; [now left|].
    right. exists res. apply cancel_offered_iff in O. destruct O as [O1 O2].
    auto.
  - intros now w Hone.
    destruct (show_my_bookings_page_cases db now w)
      as [H | (res & _ & Hs & _ & B & _)]; [exact H|].
    rewrite (Hone Hs) in B. discriminate B.
Qed.

(** C7, as stated, fails: cancelling a completed reservation whose payment
    is pending makes it cancelled and refunded. *)
Lemma C7_completed_pending_cancelled_counterexample :
  Reservations
    (snd (Database.cancel_reservation
            (sample FlightStatus.arrived
               [BK2025001 ReservationStatus.completed PaymentStatus.pending])
            "BK2025001"))
  = [BK2025001 ReservationStatus.cancelled PaymentStatus.refunded].
Proof. reflexivity. Qed.

Lemma C7_cancel_reservation_unconditional_witness :
  exists r',
    nth_error (Reservations (snd (Database.cancel_reservation booked
                                    "bk2025001"))) 0 = Some r' /\
    r_status r' = ReservationStatus.cancelled /\
    payment_status r' = PaymentStatus.refunded.
Proof.
  destruct (C7_cancel_reservation_unconditional booked "bk2025001")
    as (_ & _ & H & _).
  destruct (H 0 (BK2025001 ReservationStatus.confirmed PaymentStatus.paid)
              eq_refl)
    as (r' & Hn & _ & _ & _ & _ & _ & _ & Hsame & _).
  exists r'. split; [exact Hn | exact (Hsame eq_refl)].
Defined.

Lemma C4_get_available_seats_excludes_confirmed_witness :
  In (seat_row seat_1A) (Database.get_available_seats booked 1).
Proof.
  apply (proj2 (C4_get_available_seats_excludes_confirmed
                  booked 1 (seat_row seat_1A))).
  exists seat_1A, (AA101 FlightStatus.scheduled).
  split; [left; reflexivity|]. split; [left; reflexivity|].
  do 3 (split; [reflexivity|]).
  intros (x & [<-|[]] & _ & E & _). discriminate E.
Defined.

(* after the UPDATE no reservation with the reference is 'confirmed', and
   the others are as before *)
Lemma confirmed_on_after_cancel {srv : Server} db ref f s :
  confirmed_on (snd (Database.cancel_reservation db ref)) f s ->
  exists r_, In r_ (Reservations db) /\
             ~ collates (booking_reference r_) ref /\
             r_flight_id r_ = f /\ r_seat_id r_ = Some s /\
             r_status r_ = ReservationStatus.confirmed.
Proof.
  unfold confirmed_on.
  cbn [snd Database.cancel_reservation Database.set_Reservations Reservations].
  intros (x & Hx & Ef & Es & Est). apply in_map_iff in Hx.
  destruct Hx as (r0 & <- & Hr0).
  destruct (Sql_eq_spec (booking_reference r0) ref) as [E|E].
  - rewrite (update_cancelled_same ref r0 E) in Est. discriminate Est.
  - rewrite (update_cancelled_other ref r0 E) in Ef, Es, Est.
    exists r0. auto.
Qed.

Lemma cancel_reservation_idempotent {srv : Server} db ref :
  Database.cancel_reservation
    (snd (Database.cancel_reservation db ref)) ref =
  Database.cancel_reservation db ref.
Proof.
  unfold Database.cancel_reservation.
  cbn [snd Database.set_Reservations Reservations Airports Flights
       Passengers Seats].
  unfold Database.set_Reservations at 1 3. cbn. do 2 f_equal.
  rewrite map_map. apply map_ext. intros x.
  apply update_cancelled_idempotent.
Qed.

(** C8, as amended: calling [cancel_reservation] twice yields the same
    store and the same normal return as calling it once.  After either,
    the seat of the cancelled reservation is returned by
    [get_available_seats] provided it is a seat of the flight's aircraft
    and no other reservation with status 'confirmed' references the same
    flight and seat.  The reservation is one whose reference the server
    finds equal to the one given (the same reference, for one), the others
    are those it finds different. *)
Theorem C8_cancel_idempotent_and_seat_released {srv : Server} db ref r_ s f :
  In r_ (Reservations db) -> collates (booking_reference r_) ref ->
  r_seat_id r_ = Some (s_seat_id s) -> In s (Seats db) ->
  In f (Flights db) -> f_flight_id f = r_flight_id r_ ->
  s_aircraft_id s = f_aircraft_id f ->
  (forall r2, In r2 (Reservations db) ->
              ~ collates (booking_reference r2) ref ->
              r_flight_id r2 = r_flight_id r_ ->
              r_seat_id r2 = r_seat_id r_ ->
              r_status r2 <> ReservationStatus.confirmed) ->
  Database.cancel_reservation
    (snd (Database.cancel_reservation db ref)) ref =
  Database.cancel_reservation db ref /\
  In (seat_row s)
     (Database.get_available_seats
        (snd (Database.cancel_reservation db ref)) (r_flight_id r_)) /\
  In (seat_row s)
     (Database.get_available_seats
        (snd (Database.cancel_reservation
                (snd (Database.cancel_reservation db ref)) ref))
        (r_flight_id r_)).
Proof.
  intros Hr Eref Eseat Hs Hf Ef Ea Hothers.
  assert (Hone : In (seat_row s)
                    (Database.get_available_seats
                       (snd (Database.cancel_reservation db ref))
                       (r_flight_id r_))).
  { apply (available_intro _ _ s f); try assumption.
    intros Hc. apply confirmed_on_after_cancel in Hc.
    destruct Hc as (r2 & H2 & Href & Hfl & Hse & Hst).
    apply (Hothers r2 H2 Href Hfl); congruence. }
  split; [apply cancel_reservation_idempotent|].
  split; [exact Hone|]. now rewrite cancel_reservation_idempotent.
Qed.

Lemma C8_cancel_idempotent_and_seat_released_witness :
  Database.cancel_reservation
    (snd (Database.cancel_reservation booked "BK2025001")) "BK2025001" =
  Database.cancel_reservation booked "BK2025001" /\
  In (seat_row seat_4A)
     (Database.get_available_seats
        (snd (Database.cancel_reservation booked "BK2025001")) 1) /\
  In (seat_row seat_4A)
     (Database.get_available_seats
        (snd (Database.cancel_reservation
                (snd (Database.cancel_reservation booked "BK2025001"))
                "BK2025001")) 1).
Proof.
  apply (C8_cancel_idempotent_and_seat_released booked "BK2025001"
           (BK2025001 ReservationStatus.confirmed PaymentStatus.paid)
           seat_4A (AA101 FlightStatus.scheduled)).
  - left. reflexivity.
  - reflexivity.
  - reflexivity.
  - right. left. reflexivity.
  - left. reflexivity.
  - reflexivity.
  - reflexivity.
  - intros r2 [<-|[]] H. exfalso. apply H. reflexivity.
Defined.

(** C8, as stated, fails: once seat 4A of AA101 has been booked a second
    time, cancelling BK2025001, once or twice, does not make the seat
    available. *)
Lemma C8_seat_still_held_counterexample :
  exists db1 g1,
    Database.create_reservation 1 booked (constant 0) 2 1 (Some 2) 35000
      = Some (Returns (Some "AAAAAAAA"), db1, g1) /\
    In "BK2025001" (references db1) /\
    ~ In (seat_row seat_4A)
         (Database.get_available_seats
            (snd (Database.cancel_reservation db1 "BK2025001")) 1) /\
    ~ In (seat_row seat_4A)
         (Database.get_available_seats
            (snd (Database.cancel_reservation
                    (snd (Database.cancel_reservation db1 "BK2025001"))
                    "BK2025001")) 1).
Proof.
  do 2 eexists. split; [reflexivity|]. split; [left; reflexivity|].
  split; intros [E|[]]; discriminate E.
Qed.

(** ** Lookup *)

Lemma In_map_exists {A} (key : A -> nat) k l :
  In k (map key l) -> exists x, In x l /\ key x = k.
Proof.
  intros H. apply in_map_iff in H. destruct H as (x & E & Hx). eauto.
Qed.

Lemma left_join_seats_nonempty db seat_id :
  exists s, In s (Database.left_join_seats db seat_id).
Proof.
  unfold Database.left_join_seats.
  destruct (filter _ (Seats db)) as [|x l].
  - exists None. now left.
  - exists (Some x). now left.
Qed.

(* every row of the join carries a reservation of the store with the
   reference asked for *)
Lemma select_reservation_details_r {srv : Server} db ref d :
  In d (Database.select_reservation_details db ref) ->
  In (Database.r d) (Reservations db) /\
  collates (booking_reference (Database.r d)) ref.
Proof.
  unfold Database.select_reservation_details. intros H.
  apply in_flat_map in H. destruct H as (r_ & Hr & H).
  destruct (Sql_eq_spec (booking_reference r_) ref) as [E|E];
    [|contradiction].
  apply in_flat_map in H. destruct H as (p & _ & H).
  destruct (r_passenger_id r_ =? p_passenger_id p); [|contradiction].
  apply in_flat_map in H. destruct H as (f & _ & H).
  destruct (r_flight_id r_ =? f_flight_id f); [|contradiction].
  apply in_flat_map in H. destruct H as (o & _ & H).
  destruct (origin_airport_id f =? airport_id o); [|contradiction].
  apply in_flat_map in H. destruct H as (a & _ & H).
  destruct (destination_airport_id f =? airport_id a); [|contradiction].
  apply in_map_iff in H. destruct H as (s & <- & _). auto.
Qed.

(* the inner joins keep a reservation whose passenger, flight and airports
   exist; the left join never drops it *)
Lemma select_reservation_details_collates {srv : Server} db r_ ref :
  In r_ (Reservations db) ->
  In (r_passenger_id r_) (map p_passenger_id (Passengers db)) ->
  In (r_flight_id r_) (map f_flight_id (Flights db)) ->
  flights_reference_airports db ->
  collates (booking_reference r_) ref ->
  exists d, In d (Database.select_reservation_details db ref).
Proof.
  intros Hr Hp Hf Hfk C. apply Sql_eq_true in C.
  apply In_map_exists in Hp. destruct Hp as (p & Hp & Ep).
  apply In_map_exists in Hf. destruct Hf as (f & Hf & Ef).
  destruct (Hfk f Hf) as [Ho Hd].
  apply In_map_exists in Ho. destruct Ho as (o & Ho & Eo).
  apply In_map_exists in Hd. destruct Hd as (a & Ha & Ea).
  destruct (left_join_seats_nonempty db (r_seat_id r_)) as (s & Hs).
  eexists. unfold Database.select_reservation_details.
  apply in_flat_map. exists r_. split; [exact Hr|].
  rewrite C.
  apply in_flat_map. exists p. split; [exact Hp|].
  rewrite Ep, Nat.eqb_refl.
  apply in_flat_map. exists f. split; [exact Hf|].
  rewrite Ef, Nat.eqb_refl.
  apply in_flat_map. exists o. split; [exact Ho|].
  rewrite Eo, Nat.eqb_refl.
  apply in_flat_map. exists a. split; [exact Ha|].
  rewrite Ea, Nat.eqb_refl.
  apply in_map_iff. exists s. split; [reflexivity | exact Hs].
Qed.

Lemma select_reservation_details_nonempty {srv : Server} db r_ :
  In r_ (Reservations db) ->
  In (r_passenger_id r_) (map p_passenger_id (Passengers db)) ->
  In (r_flight_id r_) (map f_flight_id (Flights db)) ->
  flights_reference_airports db ->
  exists d,
    In d (Database.select_reservation_details db (booking_reference r_)).
Proof.
  intros Hr Hp Hf Hfk.
  apply (select_reservation_details_collates db r_); auto.
  apply collates_refl.
Qed.

Lemma reservation_accepted_passenger {srv : Server} db p f s ref c :
  Database.reservation_accepted db p f s ref c = true ->
  In p (map p_passenger_id (Passengers db)).
Proof.
  unfold Database.reservation_accepted. intros H.
  repeat (apply andb_prop in H; destruct H as [H ?]).
  now apply mem_In.
Qed.

(* the FOREIGN KEYs of Flights hold along every run *)
Lemma step_flights_reference_airports {srv : Server} db1 db2 :
  step db1 db2 ->
  flights_reference_airports db1 -> flights_reference_airports db2.
Proof.
  unfold flights_reference_airports. intros H Hfk. destruct H.
  - unfold Database.create_passenger, Database.insert_passenger.
    destruct (Database.select_passenger_id db e); [|exact Hfk].
    match goal with |- context [if ?b then _ else _] => destruct b end;
      exact Hfk.
  - apply create_reservation_cases in H.
    destruct H as (ref & _ & [(_ & _ & ->) | (_ & _ & ->)]); exact Hfk.
  - exact Hfk.
  - cbn [snd Database.update_flight_status Flights Airports].
    intros x Hx. apply in_map_iff in Hx. destruct Hx as (y & <- & Hy).
    destruct (f_flight_id y =? f); cbn; apply (Hfk y Hy).
Qed.

(** C9: after a successful booking, in a store that satisfies the foreign
    keys of Flights on Airports, [get_reservation_by_reference] on the
    returned reference yields a row whose seat, flight and ticket price
    are those passed to [create_reservation], with status 'confirmed' and
    payment status 'paid'. *)
Theorem C9_book_lookup_round_trip {srv : Server} fuel db g p f s c ref db' g' :
  flights_reference_airports db ->
  Database.create_reservation fuel db g p f s c
    = Some (Returns (Some ref), db', g') ->
  exists d,
    Database.get_reservation_by_reference db' ref = Some d /\
    r_seat_id (Database.r d) = s /\
    r_flight_id (Database.r d) = f /\
    ticket_price (Database.r d) = c /\
    r_status (Database.r d) = ReservationStatus.confirmed /\
    payment_status (Database.r d) = PaymentStatus.paid.
Proof.
  intros Hfk H. apply create_reservation_cases in H.
  destruct H as (ref' & G & [(A & E & ->) | (_ & E & _)]); [|discriminate].
  inversion E; subst ref'. clear E.
  apply generate_returns in G.
  destruct G as (k & _ & E & _ & Hfree & _). injection E as E'.
  rewrite <- E' in Hfree. clear E' k.
  set (row := Database.new_reservation db p f s ref c).
  set (db' := Database.set_Reservations db (Reservations db ++ [row])).
  assert (Hrow : In row (Reservations db')).
  { apply in_or_app. right. now left. }
  destruct (select_reservation_details_nonempty db' row Hrow) as (d0 & Hd0).
  { exact (reservation_accepted_passenger _ _ _ _ _ _ A). }
  { exact (reservation_accepted_flight _ _ _ _ _ _ A). }
  { exact Hfk. }
  change (booking_reference row) with ref in Hd0.
  unfold Database.get_reservation_by_reference.
  destruct (Database.select_reservation_details db' ref) as [|d l] eqn:El;
    [contradiction|].
  exists d. split; [reflexivity|].
  assert (Hd : In d (Database.select_reservation_details db' ref)).
  { rewrite El. now left. }
  apply select_reservation_details_r in Hd. destruct Hd as [Hin Href].
  apply in_app_or in Hin. destruct Hin as [Hold | [<- | []]].
  - exfalso. apply Hfree. exists (booking_reference (Database.r d)).
    split; [now apply in_map | exact Href].
  - repeat split.
Qed.

Lemma C9_book_lookup_round_trip_witness :
  exists d,
    Database.get_reservation_by_reference
      (Database.set_Reservations booked
         (Reservations booked ++
          [Database.new_reservation booked 2 1 (Some 1) "AAAAAAAA" 55000]))
      "AAAAAAAA" = Some d /\
    r_seat_id (Database.r d) = Some 1 /\
    r_flight_id (Database.r d) = 1 /\
    ticket_price (Database.r d) = 55000%Z /\
    r_status (Database.r d) = ReservationStatus.confirmed /\
    payment_status (Database.r d) = PaymentStatus.paid.
Proof.
  apply (C9_book_lookup_round_trip 1 booked (constant 0) 2 1 (Some 1)
           55000%Z "AAAAAAAA" _ (advance (constant 0) 8)).
  - intros x [<-|[]]. split; [left | right; left]; reflexivity.
  - reflexivity.
Defined.

(** ** Passengers *)

Lemma NoDup_map_inj {A B} (key : A -> B) l x y :
  NoDup (map key l) -> In x l -> In y l -> key x = key y -> x = y.
Proof.
  induction l as [|z l IH]; simpl; intros Hd Hx Hy E; [contradiction|].
  inversion Hd as [|? ? Hz Hl]; subst.
  destruct Hx as [->|Hx], Hy as [->|Hy]; auto.
  - exfalso. apply Hz. rewrite E. now apply in_map.
  - exfalso. apply Hz. rewrite <- E. now apply in_map.
Qed.

(** C10: when the email is already in the Passengers table (when the
    server finds a stored email equal to it), [create_passenger] returns
    the identifier of the first passenger with that email, whatever the
    other arguments are, and the store is unchanged: no row is inserted
    and the existing row is not updated.  Under UNIQUE (email) the
    passenger found for a stored email is the one who has it. *)
Theorem C10_create_passenger_existing_email {srv : Server}
    db first_name last_name e phone date_of_birth passport_number nationality :
  email_known db e ->
  exists p,
    Database.get_passenger_by_email db e = Some p /\
    In p (Passengers db) /\ collates (email p) e /\
    (In e (map email (Passengers db)) -> emails_unique db -> email p = e) /\
    Database.create_passenger db first_name last_name e phone date_of_birth
                              passport_number nationality
    = (Returns (Some (p_passenger_id p)), db).
Proof.
  intros (q & Hq & Eq).
  assert (Hf : In q (filter (fun p => Sql.eq (email p) e) (Passengers db))).
  { apply filter_In. split; [exact Hq | now apply Sql_eq_true]. }
  unfold Database.get_passenger_by_email, Database.create_passenger,
    Database.select_passenger_id.
  destruct (filter (fun p => Sql.eq (email p) e) (Passengers db))
    as [|p l] eqn:El; [contradiction|].
  assert (Hp : In p (filter (fun p => Sql.eq (email p) e) (Passengers db))).
  { rewrite El. now left. }
  apply filter_In in Hp. destruct Hp as [Hp Ep]. apply Sql_eq_true in Ep.
  exists p. cbn [hd_error map].
  split; [reflexivity|]. split; [exact Hp|]. split; [exact Ep|].
  split; [|reflexivity].
  intros Hin Hu. apply in_map_iff in Hin. destruct Hin as (p' & E' & Hp').
  unfold emails_unique in Hu. rewrite map_map in Hu.
  rewrite <- E'. f_equal.
  apply (NoDup_map_inj _ _ _ _ Hu Hp Hp'). unfold collates in Ep. congruence.
Qed.

Lemma C10_create_passenger_existing_email_witness :
  exists p,
    Database.get_passenger_by_email booked "Jane.Smith@Email.com" = Some p /\
    In p (Passengers booked) /\
    collates (email p) "Jane.Smith@Email.com" /\
    (In "Jane.Smith@Email.com" (map email (Passengers booked)) ->
     emails_unique booked -> email p = "Jane.Smith@Email.com") /\
    Database.create_passenger booked "Janet" "Smythe" "Jane.Smith@Email.com"
                              None None (Some "X0000000") (Some "UK")
    = (Returns (Some (p_passenger_id p)), booked).
Proof.
  apply (C10_create_passenger_existing_email booked "Janet" "Smythe"
           "Jane.Smith@Email.com" None None (Some "X0000000") (Some "UK")).
  exists jane. split; [right; left; reflexivity | reflexivity].
Defined.

(** * Further properties of the code *)

(** ** ORDER BY *)

Lemma order_insert_by_In {A} (leb : A -> A -> bool) a x l :
  In a (order_insert_by leb x l) <-> a = x \/ In a l.
Proof.
  induction l as [|y l IH]; simpl.
  - intuition.
  - destruct (leb x y); simpl; [intuition|]. rewrite IH. intuition.
Qed.

Lemma order_rows_In {A} (leb : A -> A -> bool) a l :
  In a (order_rows leb l) <-> In a l.
Proof.
  unfold order_rows. induction l as [|x l IH]; simpl; [tauto|].
  rewrite order_insert_by_In, IH. intuition.
Qed.

Lemma order_insert_by_length {A} (leb : A -> A -> bool) x l :
  List.length (order_insert_by leb x l) = S (List.length l).
Proof.
  induction l as [|y l IH]; simpl; [reflexivity|].
  destruct (leb x y); simpl; congruence.
Qed.

Lemma order_rows_length {A} (leb : A -> A -> bool) l :
  List.length (order_rows leb l) = List.length l.
Proof.
  unfold order_rows. induction l as [|x l IH]; simpl; [reflexivity|].
  now rewrite order_insert_by_length, IH.
Qed.

(* the rows come out in the order asked for, when the order is total *)
Inductive ordered {A} (leb : A -> A -> bool) : list A -> Prop :=
| ordered_nil : ordered leb []
| ordered_one x : ordered leb [x]
| ordered_cons x y l :
    leb x y = true -> ordered leb (y :: l) -> ordered leb (x :: y :: l).

Lemma order_insert_by_ordered {A} (leb : A -> A -> bool) x l :
  (forall u v, leb u v = false -> leb v u = true) ->
  ordered leb l -> ordered leb (order_insert_by leb x l).
Proof.
  intros Htotal H. induction H as [|y|y z l Hyz Hl IH]; simpl.
  - constructor.
  - destruct (leb x y) eqn:E; repeat constructor; auto.
  - destruct (leb x y) eqn:E.
    + repeat constructor; auto.
    + simpl in IH. destruct (leb x z) eqn:E2.
      * constructor; [auto|]. constructor; auto.
      * constructor; auto.
Qed.

Lemma order_rows_ordered {A} (leb : A -> A -> bool) l :
  (forall u v, leb u v = false -> leb v u = true) ->
  ordered leb (order_rows leb l).
Proof.
  intros Htotal. unfold order_rows.
  induction l as [|x l IH]; simpl; [constructor|].
  now apply order_insert_by_ordered.
Qed.

(** ** Passengers *)

Lemma auto_increment_fresh {srv : Server} table keys :
  ~ In (Sql.auto_increment table keys) keys.
Proof.
  unfold Sql.auto_increment. intros H.
  assert (Hle : list_max keys <= list_max keys) by lia.
  apply list_max_le in Hle. rewrite Forall_forall in Hle.
  specialize (Hle _ H). lia.
Qed.

Lemma email_absent_select {srv : Server} db e :
  ~ email_known db e <->
  filter (fun p => Sql.eq (email p) e) (Passengers db) = [].
Proof.
  unfold email_known.
  induction (Passengers db) as [|p l IH]; simpl.
  - split; [reflexivity | intros _ (p & [] & _)].
  - destruct (Sql_eq_spec (email p) e) as [E|E].
    + split; [|discriminate]. intros H. exfalso. apply H.
      exists p. split; [now left | exact E].
    + rewrite <- IH. split.
      * intros H (q & Hq & Eq). apply H. exists q. split; [now right|exact Eq].
      * intros H (q & [<-|Hq] & Eq); [contradiction|]. apply H. now exists q.
Qed.

Lemma email_known_dec {srv : Server} db e :
  email_known db e \/ ~ email_known db e.
Proof.
  destruct (filter (fun p => Sql.eq (email p) e) (Passengers db)) eqn:El.
  - right. now apply email_absent_select.
  - left. assert (Hp : In p (filter (fun p => Sql.eq (email p) e)
                                    (Passengers db))).
    { rewrite El. now left. }
    apply filter_In in Hp. destruct Hp as [Hp Ep]. apply Sql_eq_true in Ep.
    now exists p.
Qed.

Lemma email_absent_existsb {srv : Server} db e :
  ~ email_known db e ->
  existsb (fun p => Sql.eq (email p) e) (Passengers db) = false.
Proof.
  intros H. destruct (existsb _ _) eqn:E; [|reflexivity].
  apply existsb_exists in E. destruct E as (p & Hp & Ep).
  apply Sql_eq_true in Ep. exfalso. apply H. now exists p.
Qed.

(* an email that the server finds equal to no stored one is not stored *)
Lemma email_unknown_absent {srv : Server} db e :
  ~ email_known db e -> ~ In e (map email (Passengers db)).
Proof.
  intros H Hin. apply H. apply in_map_iff in Hin.
  destruct Hin as (p & <- & Hp). exists p. split; [exact Hp | reflexivity].
Qed.

(* create_passenger on an email that is not in the table is the INSERT *)
Lemma create_passenger_absent {srv : Server} db fn ln e ph dob pp na :
  ~ email_known db e ->
  Database.create_passenger db fn ln e ph dob pp na =
  if passenger_accepted db fn ln e ph pp na
  then (Returns (Some (p_passenger_id (new_passenger db fn ln e ph dob pp na))),
        {| Airports := Airports db; Flights := Flights db;
           Passengers :=
             Passengers db ++ [new_passenger db fn ln e ph dob pp na];
           Seats := Seats db; Reservations := Reservations db |})
  else (Returns None, db).
Proof.
  intros H. unfold Database.create_passenger, Database.select_passenger_id.
  apply email_absent_select in H. rewrite H. cbn [map].
  unfold Database.insert_passenger, passenger_accepted, new_passenger.
  match goal with |- context [if ?b then _ else _] => destruct b end;
    reflexivity.
Qed.

Lemma create_passenger_present {srv : Server} db fn ln e ph dob pp na :
  email_known db e ->
  snd (Database.create_passenger db fn ln e ph dob pp na) = db.
Proof.
  intros H. unfold Database.create_passenger, Database.select_passenger_id.
  destruct (filter (fun p => Sql.eq (email p) e) (Passengers db))
    as [|p l] eqn:El.
  - apply email_absent_select in El. contradiction.
  - reflexivity.
Qed.

(** X1: a passenger created under a new email is found again.  When the
    server finds no stored email equal to the one given and the row meets
    the column constraints, [create_passenger] returns a key that no
    passenger had, adds exactly one row and touches no other table, and
    [get_passenger_by_email] on that email, or on one that the server
    finds equal to it, then returns the row with the key returned and the
    fields passed. *)
Theorem X1_create_passenger_lookup_round_trip {srv : Server}
    db fn ln e ph dob pp na :
  ~ email_known db e ->
  passenger_accepted db fn ln e ph pp na = true ->
  exists id db',
    Database.create_passenger db fn ln e ph dob pp na
      = (Returns (Some id), db') /\
    ~ In id (map p_passenger_id (Passengers db)) /\
    List.length (Passengers db') = S (List.length (Passengers db)) /\
    Reservations db' = Reservations db /\ Flights db' = Flights db /\
    Seats db' = Seats db /\ Airports db' = Airports db /\
    forall e', collates e' e ->
      Database.get_passenger_by_email db' e' =
      Some {| p_passenger_id := id; first_name := fn; last_name := ln;
              email := e; phone := ph; date_of_birth := dob;
              passport_number := pp; nationality := na |}.
Proof.
  intros Habs Hacc. rewrite (create_passenger_absent _ _ _ _ _ _ _ _ Habs).
  rewrite Hacc. do 2 eexists. split; [reflexivity|].
  split; [apply auto_increment_fresh|].
  cbn [Passengers Reservations Flights Seats Airports].
  split; [rewrite length_app; simpl; lia|].
  do 4 (split; [reflexivity|]).
  intros e' C.
  assert (Habs' : ~ email_known db e').
  { intros (q & Hq & Eq). apply Habs. exists q. split; [exact Hq|].
    now apply (collates_trans _ e'). }
  unfold Database.get_passenger_by_email. cbn [Passengers].
  rewrite filter_app. apply email_absent_select in Habs'. rewrite Habs'.
  cbn [filter app new_passenger email].
  apply collates_sym, Sql_eq_true in C. rewrite C. reflexivity.
Qed.

Lemma X1_create_passenger_lookup_round_trip_witness :
  exists id db',
    Database.create_passenger booked "Ann" "Lee" "ann.lee@email.com"
      (Some "") (Some 0%Z) (Some "") (Some "")
      = (Returns (Some id), db') /\
    ~ In id (map p_passenger_id (Passengers booked)) /\
    List.length (Passengers db') = S (List.length (Passengers booked)) /\
    Reservations db' = Reservations booked /\ Flights db' = Flights booked /\
    Seats db' = Seats booked /\ Airports db' = Airports booked /\
    forall e', collates e' "ann.lee@email.com" ->
      Database.get_passenger_by_email db' e' =
      Some {| p_passenger_id := id; first_name := "Ann"; last_name := "Lee";
              email := "ann.lee@email.com"; phone := Some "";
              date_of_birth := Some 0%Z;
              passport_number := Some ""; nationality := Some "" |}.
Proof.
  apply (X1_create_passenger_lookup_round_trip booked "Ann" "Lee"
           "ann.lee@email.com" (Some "") (Some 0%Z) (Some "") (Some "")).
  - intros (q & [<-|[<-|[]]] & E); vm_compute in E; discriminate E.
  - reflexivity.
Defined.

(** X2: a passport number already on file makes the INSERT fail.  For an
    email that the server finds equal to no stored one and a passport
    number that it finds equal to one some passenger already has (the
    empty string of a form left blank included), [create_passenger]
    returns None and writes nothing. *)
Theorem X2_create_passenger_duplicate_passport {srv : Server}
    db fn ln e ph dob pp na :
  ~ email_known db e ->
  (exists q, In (Some q) (map passport_number (Passengers db)) /\
             collates q pp) ->
  Database.create_passenger db fn ln e ph dob (Some pp) na
    = (Returns None, db).
Proof.
  intros Habs (q & Hdup & C).
  rewrite (create_passenger_absent _ _ _ _ _ _ _ _ Habs).
  assert (Hu : Sql.unique_null (Some pp) (map passport_number (Passengers db))
               = false).
  { unfold Sql.unique_null. apply negb_false_iff. apply existsb_exists.
    exists (Some q). split; [exact Hdup | now apply Sql_eq_true]. }
  unfold passenger_accepted. rewrite Hu, andb_false_r. reflexivity.
Qed.

Lemma X2_create_passenger_duplicate_passport_witness :
  Database.create_passenger booked "Ann" "Lee" "ann.lee@email.com"
    None None (Some "p12345678") None = (Returns None, booked).
Proof.
  apply (X2_create_passenger_duplicate_passport booked "Ann" "Lee"
           "ann.lee@email.com" None None "p12345678" None).
  - intros (q & [<-|[<-|[]]] & E); vm_compute in E; discriminate E.
  - exists "P12345678". split; [left; reflexivity | reflexivity].
Defined.


(** ** Keys *)

Lemma NoDup_snoc {A} (l : list A) x :
  NoDup l -> ~ In x l -> NoDup (l ++ [x]).
Proof.
  induction l as [|y l IH]; simpl; intros Hd Hx.
  - constructor; [tauto | constructor].
  - inversion Hd as [|? ? Hy Hl]; subst. constructor.
    + rewrite in_app_iff. simpl. intros [H|[H|[]]]; [tauto|].
      apply Hx. now left.
    + apply IH; [exact Hl | tauto].
Qed.

Lemma reservation_ids_update_cancelled {srv : Server} ref rs :
  map reservation_id (map (Database.update_cancelled ref) rs) =
  map reservation_id rs.
Proof.
  rewrite map_map. apply map_ext. intros x.
  unfold Database.update_cancelled.
  now destruct (Sql.eq (booking_reference x) ref).
Qed.

Lemma create_reservation_fresh {srv : Server} fuel db g p f s c ref db' g' :
  Database.create_reservation fuel db g p f s c
    = Some (Returns (Some ref), db', g') ->
  ~ collides db ref /\ String.length ref = 8 /\
  Database.reservation_accepted db p f s ref c = true /\
  db' = Database.set_Reservations db
          (Reservations db ++ [Database.new_reservation db p f s ref c]).
Proof.
  intros H. apply create_reservation_cases in H.
  destruct H as (ref' & G & [(A & E & ->) | (_ & E & _)]); [|discriminate].
  injection E as <-. apply generate_returns in G.
  destruct G as (k & _ & E & _ & Hfree & _). injection E as ->.
  split; [exact Hfree|]. split; [apply next_candidate_length|]. now split.
Qed.

Lemma step_keys_unique {srv : Server} db1 db2 :
  step db1 db2 -> keys_unique db1 -> keys_unique db2.
Proof.
  intros Hstep Hk. unfold keys_unique in *.
  destruct Hk as (Hp & He & Hr & Hb). destruct Hstep.
  - destruct (email_known_dec db e) as [Hin|Habs].
    + rewrite (create_passenger_present _ _ _ _ _ _ _ _ Hin). auto.
    + rewrite (create_passenger_absent _ _ _ _ _ _ _ _ Habs).
      destruct (passenger_accepted db fn ln e ph pp na); cbn [snd]; auto.
      cbn [Passengers Reservations]. rewrite !map_app. cbn [map].
      repeat split; auto.
      * apply NoDup_snoc; [exact Hp | apply auto_increment_fresh].
      * apply NoDup_snoc; [exact He | now apply email_unknown_absent].
  - apply create_reservation_cases in H.
    destruct H as (ref & G & [(_ & _ & ->) | (_ & _ & ->)]); auto.
    apply generate_returns in G.
    destruct G as (k & _ & E & _ & Hfree & _). injection E as ->.
    cbn [Database.set_Reservations Passengers Reservations].
    rewrite !map_app. cbn [map].
    repeat split; auto.
    + apply NoDup_snoc; [exact Hr | apply auto_increment_fresh].
    + apply NoDup_snoc; [exact Hb | now apply collides_absent].
  - cbn [snd Database.cancel_reservation Database.set_Reservations
         Passengers Reservations].
    rewrite reservation_ids_update_cancelled, references_update_cancelled.
    auto.
  - cbn [snd Database.update_flight_status Passengers Reservations]. auto.
Qed.

(* UNIQUE (email), as the server compares emails, holds along a run *)
Lemma step_emails_unique {srv : Server} db1 db2 :
  step db1 db2 -> emails_unique db1 -> emails_unique db2.
Proof.
  intros Hstep He. unfold emails_unique in *. destruct Hstep.
  - destruct (email_known_dec db e) as [Hin|Habs].
    + rewrite (create_passenger_present _ _ _ _ _ _ _ _ Hin). auto.
    + rewrite (create_passenger_absent _ _ _ _ _ _ _ _ Habs).
      destruct (passenger_accepted db fn ln e ph pp na); cbn [snd]; auto.
      cbn [Passengers]. rewrite !map_app. cbn [map new_passenger email].
      apply NoDup_snoc; [exact He|].
      intros Hin. rewrite map_map in Hin. apply in_map_iff in Hin.
      destruct Hin as (q & Eq & Hq). apply Habs. now exists q.
  - apply create_reservation_cases in H.
    destruct H as (ref & _ & [(_ & _ & ->) | (_ & _ & ->)]); auto.
  - exact He.
  - exact He.
Qed.

(* and so does UNIQUE (booking_reference) *)
Lemma step_references_unique {srv : Server} db1 db2 :
  step db1 db2 -> references_unique db1 -> references_unique db2.
Proof.
  intros Hstep Hb. unfold references_unique, references in *.
  destruct Hstep.
  - now rewrite create_passenger_Reservations.
  - apply create_reservation_cases in H.
    destruct H as (ref & G & [(_ & _ & ->) | (_ & _ & ->)]); auto.
    apply generate_returns in G.
    destruct G as (k & _ & E & _ & Hfree & _). injection E as ->.
    cbn [Database.set_Reservations Reservations].
    rewrite !map_app. cbn [map Database.new_reservation booking_reference].
    apply NoDup_snoc; [exact Hb|].
    intros Hin. apply in_map_iff in Hin. destruct Hin as (b & Eb & Hin).
    apply Hfree. now exists b.
  - cbn [snd Database.cancel_reservation Database.set_Reservations
         Reservations].
    now rewrite references_update_cancelled.
  - exact Hb.
Qed.

(** X4: the keys stay unique.  If the passenger keys, the emails, the
    reservation keys and the booking references of a store are each
    without repetition, they still are after any run of
    [create_passenger], [create_reservation], [cancel_reservation] and
    [update_flight_status] calls; and so are the emails and the booking
    references as the server compares them, which is what UNIQUE
    checks. *)
Theorem X4_keys_stay_unique {srv : Server} db1 db2 :
  steps db1 db2 ->
  (keys_unique db1 -> keys_unique db2) /\
  (emails_unique db1 -> emails_unique db2) /\
  (references_unique db1 -> references_unique db2).
Proof.
  induction 1 as [db | db1 db2 db3 Hstep _ IH]; [auto|].
  destruct IH as (IH1 & IH2 & IH3).
  split; [|split]; intros Hk.
  - now apply IH1, (step_keys_unique db1).
  - now apply IH2, (step_emails_unique db1).
  - now apply IH3, (step_references_unique db1).
Qed.

Lemma X4_keys_stay_unique_witness :
  keys_unique (snd (Database.cancel_reservation booked "BK2025001")).
Proof.
  apply (proj1 (X4_keys_stay_unique booked _
    (steps_cons _ _ _ (step_cancel_reservation booked "BK2025001")
                (steps_refl _)))).
  - unfold keys_unique. simpl.
    repeat split; repeat constructor; simpl; try tauto;
      intros [E|[]]; discriminate E.
Defined.

(** ** Lookup by reference *)

Lemma map_flat_map {A B C} (h : B -> C) (f : A -> list B) l :
  map h (flat_map f l) = flat_map (fun x => map h (f x)) l.
Proof.
  induction l as [|x l IH]; simpl; [reflexivity|].
  now rewrite map_app, IH.
Qed.

Lemma flat_map_map {A B C} (g : A -> B) (f : B -> list C) l :
  flat_map f (map g l) = flat_map (fun x => f (g x)) l.
Proof. induction l as [|x l IH]; simpl; [reflexivity | now rewrite IH]. Qed.

Lemma hd_error_map {A B} (h : A -> B) l :
  hd_error (map h l) = option_map h (hd_error l).
Proof. now destruct l. Qed.

Lemma update_cancelled_keys {srv : Server} ref r_ :
  booking_reference (Database.update_cancelled ref r_) = booking_reference r_ /\
  r_passenger_id (Database.update_cancelled ref r_) = r_passenger_id r_ /\
  r_flight_id (Database.update_cancelled ref r_) = r_flight_id r_ /\
  r_seat_id (Database.update_cancelled ref r_) = r_seat_id r_ /\
  ticket_price (Database.update_cancelled ref r_) = ticket_price r_ /\
  reservation_id (Database.update_cancelled ref r_) = reservation_id r_.
Proof.
  unfold Database.update_cancelled.
  destruct (Sql.eq (booking_reference r_) ref); cbn; tauto.
Qed.

(* the join after the UPDATE is the join before, row by row *)
Lemma select_reservation_details_cancel {srv : Server} db ref ref' :
  Database.select_reservation_details
    (snd (Database.cancel_reservation db ref)) ref' =
  map (cancelled_row ref) (Database.select_reservation_details db ref').
Proof.
  unfold Database.select_reservation_details.
  cbn [snd Database.cancel_reservation Database.set_Reservations
       Reservations Passengers Flights Airports].
  rewrite flat_map_map, map_flat_map. apply flat_map_ext. intros r_.
  destruct (update_cancelled_keys ref r_) as (-> & -> & -> & -> & _).
  destruct (Sql.eq (booking_reference r_) ref'); [|reflexivity].
  rewrite map_flat_map. apply flat_map_ext. intros p.
  destruct (r_passenger_id r_ =? p_passenger_id p); [|reflexivity].
  rewrite map_flat_map. apply flat_map_ext. intros f.
  destruct (r_flight_id r_ =? f_flight_id f); [|reflexivity].
  rewrite map_flat_map. apply flat_map_ext. intros o.
  destruct (origin_airport_id f =? airport_id o); [|reflexivity].
  rewrite map_flat_map. apply flat_map_ext. intros d.
  destruct (destination_airport_id f =? airport_id d); [|reflexivity].
  rewrite map_map. reflexivity.
Qed.

(** X5: a stored reference is always found, an unknown one never.  In a
    store that satisfies the foreign keys of Reservations and of Flights,
    [get_reservation_by_reference] returns None exactly for the references
    that the server finds equal to none that a reservation carries; so it
    finds a row for every stored reference. *)
Theorem X5_lookup_none_iff_unknown {srv : Server} db ref :
  reservations_reference_rows db -> flights_reference_airports db ->
  (Database.get_reservation_by_reference db ref = None <->
   ~ collides db ref) /\
  (In ref (references db) ->
   Database.get_reservation_by_reference db ref <> None).
Proof.
  intros Hres Hfk.
  assert (Hiff : Database.get_reservation_by_reference db ref = None <->
                 ~ collides db ref).
  { unfold Database.get_reservation_by_reference. split.
    - intros Hnone (b & Hin & C). apply in_map_iff in Hin.
      destruct Hin as (r_ & <- & Hr). destruct (Hres r_ Hr) as [Hp Hf].
      destruct (select_reservation_details_collates db r_ ref Hr Hp Hf Hfk C)
        as (d & Hd).
      destruct (Database.select_reservation_details db ref);
        [contradiction | discriminate].
    - intros Habs.
      destruct (Database.select_reservation_details db ref) as [|d l] eqn:El;
        [reflexivity|].
      exfalso. apply Habs.
      assert (Hd : In d (Database.select_reservation_details db ref)).
      { rewrite El. now left. }
      apply select_reservation_details_r in Hd. destruct Hd as [Hin C].
      exists (booking_reference (Database.r d)).
      split; [now apply in_map | exact C]. }
  split; [exact Hiff|].
  intros Hin Hnone. apply Hiff in Hnone. apply Hnone. now apply In_collides.
Qed.

Lemma sample_flights_reference_airports st rs :
  flights_reference_airports (sample st rs).
Proof.
  intros x [<-|[]]. split; [left | right; left]; reflexivity.
Qed.

Lemma X5_lookup_none_iff_unknown_witness :
  Database.get_reservation_by_reference booked "ZZZZZZZZ" = None.
Proof.
  assert (Hres : reservations_reference_rows booked).
  { intros x [<-|[]]. split; left; reflexivity. }
  apply (proj1 (X5_lookup_none_iff_unknown booked "ZZZZZZZZ" Hres
                  (sample_flights_reference_airports _ _))).
  intros (b & [<-|[]] & E). vm_compute in E. discriminate E.
Defined.

(** X6: what a lookup shows after a cancellation.  The row that
    [get_reservation_by_reference] returns after [cancel_reservation ref]
    is the row it returned before with the UPDATE applied to its
    reservation: a lookup of a reference that the server finds different
    is unchanged, and a lookup of [ref] that found a row still finds it,
    now cancelled and refunded, with the same passenger, flight, seat and
    price. *)
Theorem X6_lookup_after_cancel {srv : Server} db ref ref' :
  Database.get_reservation_by_reference
    (snd (Database.cancel_reservation db ref)) ref' =
  option_map (cancelled_row ref)
             (Database.get_reservation_by_reference db ref') /\
  (~ collates ref' ref ->
   Database.get_reservation_by_reference
     (snd (Database.cancel_reservation db ref)) ref' =
   Database.get_reservation_by_reference db ref') /\
  (forall x,
      Database.get_reservation_by_reference db ref = Some x ->
      exists y,
        Database.get_reservation_by_reference
          (snd (Database.cancel_reservation db ref)) ref = Some y /\
        r_status (Database.r y) = ReservationStatus.cancelled /\
        payment_status (Database.r y) = PaymentStatus.refunded /\
        r_passenger_id (Database.r y) = r_passenger_id (Database.r x) /\
        r_flight_id (Database.r y) = r_flight_id (Database.r x) /\
        r_seat_id (Database.r y) = r_seat_id (Database.r x) /\
        ticket_price (Database.r y) = ticket_price (Database.r x) /\
        Database.d_email y = Database.d_email x /\
        Database.d_seat_number y = Database.d_seat_number x).
Proof.
  assert (E : Database.get_reservation_by_reference
                (snd (Database.cancel_reservation db ref)) ref' =
              option_map (cancelled_row ref)
                (Database.get_reservation_by_reference db ref')).
  { unfold Database.get_reservation_by_reference.
    now rewrite select_reservation_details_cancel, hd_error_map. }
  split; [exact E|]. split.
  - intros Hne. rewrite E. unfold Database.get_reservation_by_reference.
    destruct (Database.select_reservation_details db ref') as [|x l] eqn:El;
      [reflexivity|].
    assert (Hx : In x (Database.select_reservation_details db ref')).
    { rewrite El. now left. }
    apply select_reservation_details_r in Hx. destruct Hx as [_ Hx].
    cbn. f_equal. destruct x as [r0]. unfold cancelled_row. cbn in *.
    rewrite update_cancelled_other; [reflexivity|].
    intros C. apply Hne. apply (collates_trans _ (booking_reference r0));
      [now apply collates_sym | exact C].
  - intros x Hx.
    assert (Href : collates (booking_reference (Database.r x)) ref).
    { unfold Database.get_reservation_by_reference in Hx.
      destruct (Database.select_reservation_details db ref) as [|x0 l] eqn:El;
        [discriminate|]. injection Hx as ->.
      assert (Hin : In x (Database.select_reservation_details db ref)).
      { rewrite El. now left. }
      now apply select_reservation_details_r in Hin. }
    exists (cancelled_row ref x). split.
    + unfold Database.get_reservation_by_reference in *.
      rewrite select_reservation_details_cancel, hd_error_map, Hx.
      reflexivity.
    + unfold cancelled_row. cbn.
      rewrite (update_cancelled_same ref _ Href). cbn. tauto.
Qed.

Lemma X6_lookup_after_cancel_witness :
  exists y,
    Database.get_reservation_by_reference
      (snd (Database.cancel_reservation booked "bk2025001")) "bk2025001"
    = Some y /\
    r_status (Database.r y) = ReservationStatus.cancelled /\
    payment_status (Database.r y) = PaymentStatus.refunded.
Proof.
  destruct (X6_lookup_after_cancel booked "bk2025001" "bk2025001")
    as (_ & _ & H).
  destruct (H _ eq_refl) as (y & Hy & Hs & Hp & _).
  exists y. auto.
Defined.

(** ** Flight status *)

Lemma update_flight_status_Flights db F st :
  Flights (snd (Database.update_flight_status db F st)) =
  map (fun f =>
         if f_flight_id f =? F then
           {| f_flight_id := f_flight_id f;
              flight_number := flight_number f;
              f_aircraft_id := f_aircraft_id f;
              origin_airport_id := origin_airport_id f;
              destination_airport_id := destination_airport_id f;
              departure_time := departure_time f;
              arrival_time := arrival_time f;
              base_price := base_price f;
              f_status := st |}
         else f)
      (Flights db).
Proof. reflexivity. Qed.

(** X7: a status update of an unknown flight is accepted in silence.  When
    no flight has the key, [update_flight_status] returns normally and the
    store is unchanged. *)
Theorem X7_update_flight_status_unknown db F st :
  ~ In F (map f_flight_id (Flights db)) ->
  Database.update_flight_status db F st = (Returns tt, db).
Proof.
  intros H. unfold Database.update_flight_status. f_equal.
  destruct db as [ap fl ps se rs]. cbn in *. f_equal.
  induction fl as [|f fl IH]; cbn in *; [reflexivity|].
  destruct (Nat.eqb_spec (f_flight_id f) F) as [E|E]; [tauto|].
  f_equal. apply IH. tauto.
Qed.

Lemma X7_update_flight_status_unknown_witness :
  Database.update_flight_status booked 7 FlightStatus.delayed
  = (Returns tt, booked).
Proof.
  apply (X7_update_flight_status_unknown booked 7 FlightStatus.delayed).
  intros [E|[]]. discriminate E.
Defined.

(** X8: the last status written is the one read.  After
    [update_flight_status F st] every flight with key [F] has status [st]
    and its other columns as before, the flights with another key are
    unchanged, and a second update of [F] overrides the first. *)
Theorem X8_update_flight_status_last_write_wins db F st st' :
  (forall i f,
      nth_error (Flights db) i = Some f ->
      exists f',
        nth_error (Flights (snd (Database.update_flight_status db F st))) i
        = Some f' /\
        f_flight_id f' = f_flight_id f /\
        flight_number f' = flight_number f /\
        f_aircraft_id f' = f_aircraft_id f /\
        origin_airport_id f' = origin_airport_id f /\
        destination_airport_id f' = destination_airport_id f /\
        departure_time f' = departure_time f /\
        arrival_time f' = arrival_time f /\
        base_price f' = base_price f /\
        (f_flight_id f = F -> f_status f' = st) /\
        (f_flight_id f <> F -> f' = f)) /\
  Database.update_flight_status
    (snd (Database.update_flight_status db F st')) F st =
  Database.update_flight_status db F st.
Proof.
  split.
  - intros i f Hi. rewrite update_flight_status_Flights.
    eexists. split; [apply map_nth_error; exact Hi|].
    destruct (Nat.eqb_spec (f_flight_id f) F) as [E|E]; cbn;
      repeat (split; [reflexivity|]);
      first [split; intros; congruence | intros; congruence].
  - unfold Database.update_flight_status. f_equal.
    cbn [snd Airports Flights Passengers Seats Reservations]. f_equal.
    rewrite map_map. apply map_ext. intros f.
    destruct (Nat.eqb_spec (f_flight_id f) F) as [E|E]; cbn.
    + rewrite E, Nat.eqb_refl. reflexivity.
    + apply Nat.eqb_neq in E. now rewrite E.
Qed.

Lemma X8_update_flight_status_last_write_wins_witness :
  exists f',
    nth_error (Flights (snd (Database.update_flight_status booked 1
                               FlightStatus.boarding))) 0 = Some f' /\
    f_status f' = FlightStatus.boarding.
Proof.
  destruct (X8_update_flight_status_last_write_wins booked 1
              FlightStatus.boarding FlightStatus.delayed) as [H _].
  destruct (H 0 (AA101 FlightStatus.scheduled) eq_refl)
    as (f' & Hn & _ & _ & _ & _ & _ & _ & _ & _ & Hs & _).
  exists f'. split; [exact Hn | exact (Hs eq_refl)].
Defined.

(** X9: a status update reaches nothing but the status.  Whatever status
    a flight is given, cancelled included, [update_flight_status] leaves
    the reservations, passengers, seats and airports as they are, and
    [get_available_seats] and the count of booked seats of every flight
    return what they returned before. *)
Theorem X9_update_flight_status_frame {srv : Server} db F st F' :
  Reservations (snd (Database.update_flight_status db F st)) = Reservations db /\
  Passengers (snd (Database.update_flight_status db F st)) = Passengers db /\
  Seats (snd (Database.update_flight_status db F st)) = Seats db /\
  Airports (snd (Database.update_flight_status db F st)) = Airports db /\
  Database.get_available_seats (snd (Database.update_flight_status db F st)) F'
  = Database.get_available_seats db F' /\
  Queries.count_confirmed (snd (Database.update_flight_status db F st)) F'
  = Queries.count_confirmed db F'.
Proof.
  do 4 (split; [reflexivity|]). split; [|reflexivity].
  unfold Database.get_available_seats, Database.confirmed_seat_ids.
  rewrite update_flight_status_Flights.
  cbn [snd Database.update_flight_status Seats Reservations].
  f_equal. apply flat_map_ext. intros s.
  rewrite flat_map_map. apply flat_map_ext. intros f.
  destruct (f_flight_id f =? F); reflexivity.
Qed.

(** ** Flight search *)

Lemma join_flights_In aircraft db where_ x :
  In x (Queries.join_flights aircraft db where_) <->
  exists f o d a,
    In f (Flights db) /\ In o (Airports db) /\ In d (Airports db) /\
    In a aircraft /\
    origin_airport_id f = airport_id o /\
    destination_airport_id f = airport_id d /\
    f_aircraft_id f = aircraft_id a /\
    where_ f o d = true /\
    x = {| Queries.row_f := f; Queries.row_o := o;
           Queries.row_d := d; Queries.row_a := a |}.
Proof.
  unfold Queries.join_flights. rewrite in_flat_map. split.
  - intros (f & Hf & H). exists f.
    apply in_flat_map in H. destruct H as (o & Ho & H). exists o.
    destruct (Nat.eqb_spec (origin_airport_id f) (airport_id o)) as [Eo|];
      [|contradiction].
    apply in_flat_map in H. destruct H as (d & Hd & H). exists d.
    destruct (Nat.eqb_spec (destination_airport_id f) (airport_id d)) as [Ed|];
      [|contradiction].
    apply in_flat_map in H. destruct H as (a & Ha & H). exists a.
    destruct (Nat.eqb_spec (f_aircraft_id f) (aircraft_id a)) as [Ea|];
      [|contradiction].
    destruct (where_ f o d); [|contradiction].
    destruct H as [<-|[]]. repeat split; auto.
  - intros (f & o & d & a & Hf & Ho & Hd & Ha & Eo & Ed & Ea & Hw & ->).
    exists f. split; [exact Hf|].
    apply in_flat_map. exists o. split; [exact Ho|].
    rewrite Eo, Nat.eqb_refl.
    apply in_flat_map. exists d. split; [exact Hd|].
    rewrite Ed, Nat.eqb_refl.
    apply in_flat_map. exists a. split; [exact Ha|].
    rewrite Ea, Nat.eqb_refl, Hw. now left.
Qed.

Lemma is_scheduled_iff st :
  Queries.is_scheduled st = true <-> st = FlightStatus.scheduled.
Proof. destruct st; simpl; split; congruence. Qed.

(** X10: what a search returns.  [search_flights] returns exactly the
    flights in status 'scheduled' that leave on the day asked for from an
    airport with the origin code to one with the destination code, joined
    to their aircraft, each with its count of confirmed reservations, and
    lists them by increasing departure time; a flight in any other status
    is never returned.  The codes are compared as the server compares
    [airport_code]. *)
Theorem X10_search_flights_exact {srv : Server}
    aircraft db origin_code destination_code departure_date :
  (forall x,
      In x (Queries.search_flights aircraft db origin_code destination_code
              departure_date) <->
      exists f o d a,
        In f (Flights db) /\ In o (Airports db) /\ In d (Airports db) /\
        In a aircraft /\
        origin_airport_id f = airport_id o /\
        destination_airport_id f = airport_id d /\
        f_aircraft_id f = aircraft_id a /\
        collates (airport_code o) origin_code /\
        collates (airport_code d) destination_code /\
        DATE (departure_time f) = departure_date /\
        f_status f = FlightStatus.scheduled /\
        x = {| Queries.details :=
                 {| Queries.row_f := f; Queries.row_o := o;
                    Queries.row_d := d; Queries.row_a := a |};
               Queries.booked_seats :=
                 Queries.count_confirmed db (f_flight_id f) |}) /\
  ordered Queries.departs_leb
    (Queries.search_flights aircraft db origin_code destination_code
       departure_date).
Proof.
  split.
  - intros x. unfold Queries.search_flights.
    rewrite order_rows_In, in_map_iff. split.
    + intros (y & <- & Hy). apply join_flights_In in Hy.
      destruct Hy as (f & o & d & a & Hf & Ho & Hd & Ha & Eo & Ed & Ea
                      & Hw & ->).
      apply andb_prop in Hw. destruct Hw as [Hw Hs].
      apply andb_prop in Hw. destruct Hw as [Hw Hdate].
      apply andb_prop in Hw. destruct Hw as [Hoc Hdc].
      apply Sql_eq_true in Hoc, Hdc. apply Z.eqb_eq in Hdate.
      apply is_scheduled_iff in Hs.
      exists f, o, d, a. repeat split; auto.
    + intros (f & o & d & a & Hf & Ho & Hd & Ha & Eo & Ed & Ea
              & Hoc & Hdc & Hdate & Hs & ->).
      exists {| Queries.row_f := f; Queries.row_o := o;
                Queries.row_d := d; Queries.row_a := a |}.
      split; [reflexivity|]. apply join_flights_In.
      exists f, o, d, a. repeat split; auto.
      apply Sql_eq_true in Hoc, Hdc.
      rewrite Hoc, Hdc, Hdate, Hs, Z.eqb_refl. reflexivity.
  - apply order_rows_ordered. intros u v H.
    unfold Queries.departs_leb in *. apply Z.leb_gt in H. apply Z.leb_le. lia.
Qed.

Lemma X10_search_flights_exact_witness :
  In {| Queries.details :=
          {| Queries.row_f := AA101 FlightStatus.scheduled;
             Queries.row_o := JFK; Queries.row_d := LAX;
             Queries.row_a := boeing_737 |};
        Queries.booked_seats := 1 |}
     (Queries.search_flights [boeing_737] booked "jfk" "lax" 20407).
Proof.
  apply (proj2 (proj1 (X10_search_flights_exact [boeing_737] booked
                         "jfk" "lax" 20407) _)).
  exists (AA101 FlightStatus.scheduled), JFK, LAX, boeing_737.
  split; [left; reflexivity|]. split; [left; reflexivity|].
  split; [right; left; reflexivity|]. split; [left; reflexivity|].
  repeat split.
Defined.

(** X11: a flight taken out of status 'scheduled' disappears from every
    search.  After [update_flight_status F st] with [st] other than
    'scheduled', no row of [search_flights] is flight [F]. *)
Theorem X11_unscheduled_flight_not_found {srv : Server}
    aircraft db F st oc dc date x :
  st <> FlightStatus.scheduled ->
  In x (Queries.search_flights aircraft
          (snd (Database.update_flight_status db F st)) oc dc date) ->
  f_flight_id (Queries.row_f (Queries.details x)) <> F.
Proof.
  intros Hst Hx. unfold Queries.search_flights in Hx.
  rewrite order_rows_In, in_map_iff in Hx. destruct Hx as (y & <- & Hy).
  apply join_flights_In in Hy.
  destruct Hy as (f & o & d & a & Hf & _ & _ & _ & _ & _ & _ & Hw & ->).
  apply andb_prop in Hw. destruct Hw as [_ Hs]. apply is_scheduled_iff in Hs.
  rewrite update_flight_status_Flights in Hf. apply in_map_iff in Hf.
  destruct Hf as (f0 & <- & _). cbn.
  destruct (Nat.eqb_spec (f_flight_id f0) F) as [E|E]; cbn in *; congruence.
Qed.

Lemma X11_unscheduled_flight_not_found_witness :
  In {| Queries.details :=
          {| Queries.row_f := AA103 FlightStatus.scheduled;
             Queries.row_o := JFK; Queries.row_d := LAX;
             Queries.row_a := boeing_737 |};
        Queries.booked_seats := 0 |}
     (Queries.search_flights [boeing_737]
        (snd (Database.update_flight_status two_flights 1
                FlightStatus.delayed))
        "JFK" "LAX" 20407) /\
  f_flight_id (AA103 FlightStatus.scheduled) <> 1.
Proof.
  assert (Hin :
    In {| Queries.details :=
            {| Queries.row_f := AA103 FlightStatus.scheduled;
               Queries.row_o := JFK; Queries.row_d := LAX;
               Queries.row_a := boeing_737 |};
          Queries.booked_seats := 0 |}
       (Queries.search_flights [boeing_737]
          (snd (Database.update_flight_status two_flights 1
                  FlightStatus.delayed))
          "JFK" "LAX" 20407)).
  { left. reflexivity. }
  split; [exact Hin|].
  apply (X11_unscheduled_flight_not_found [boeing_737] two_flights 1
           FlightStatus.delayed "JFK" "LAX" 20407%Z _ ltac:(discriminate) Hin).
Defined.

(** ** Booked seats and statistics *)

(* the store after a booking and the cancellation of its reference: the
   new row is the only one the UPDATE reaches *)
Lemma book_then_cancel_Reservations {srv : Server}
    fuel db g p f s c ref db' g' :
  Database.create_reservation fuel db g p f s c
    = Some (Returns (Some ref), db', g') ->
  Reservations db' =
  (Reservations db ++ [Database.new_reservation db p f s ref c])%list /\
  Reservations (snd (Database.cancel_reservation db' ref)) =
  (Reservations db ++
   [Database.update_cancelled ref
      (Database.new_reservation db p f s ref c)])%list /\
  Flights db' = Flights db /\ Passengers db' = Passengers db.
Proof.
  intros H. apply create_reservation_fresh in H.
  destruct H as (Hfree & _ & _ & ->).
  cbn [snd Database.cancel_reservation Database.set_Reservations
       Reservations Flights Passengers].
  split; [reflexivity|]. split; [|split; reflexivity].
  rewrite map_app. cbn [map].
  now rewrite (map_update_cancelled_absent ref _ (not_collides_rows _ _ Hfree)).
Qed.

Lemma total_revenue_sum db :
  Queries.total_revenue (Queries.get_statistics db) =
  fold_right Z.add 0%Z
    (map ticket_price
       (filter (fun r_ => Queries.is_paid (payment_status r_))
               (Reservations db))).
Proof.
  unfold Queries.get_statistics, Queries.sum_paid.
  cbn [Queries.total_revenue].
  destruct (filter _ (Reservations db)) as [|x l]; [reflexivity|].
  destruct (Z.eqb_spec (fold_right Z.add 0%Z (map ticket_price (x :: l))) 0);
    congruence.
Qed.

Lemma fold_right_add_app l1 l2 :
  fold_right Z.add 0%Z (l1 ++ l2) =
  (fold_right Z.add 0%Z l1 + fold_right Z.add 0%Z l2)%Z.
Proof. induction l1 as [|x l1 IH]; simpl; [reflexivity | rewrite IH; lia]. Qed.

(** X12: the count of booked seats follows the bookings.  A successful
    [create_reservation] on flight [F], seated or not, raises the count of
    confirmed reservations of [F] that [search_flights] and
    [get_all_flights] report by one and leaves the count of every other
    flight; cancelling the reference it returned brings every count back
    to what it was before the booking. *)
Theorem X12_booked_seats_follow_bookings {srv : Server}
    fuel db g p F s c ref db' g' :
  Database.create_reservation fuel db g p F s c
    = Some (Returns (Some ref), db', g') ->
  Queries.count_confirmed db' F = S (Queries.count_confirmed db F) /\
  (forall F', F' <> F ->
     Queries.count_confirmed db' F' = Queries.count_confirmed db F') /\
  (forall F',
     Queries.count_confirmed (snd (Database.cancel_reservation db' ref)) F'
     = Queries.count_confirmed db F').
Proof.
  intros H. apply book_then_cancel_Reservations in H.
  destruct H as (E1 & E2 & _). unfold Queries.count_confirmed.
  rewrite E1, E2. split; [|split].
  - rewrite filter_app, length_app. cbn. rewrite Nat.eqb_refl. cbn. lia.
  - intros F' Hne. rewrite filter_app, length_app. cbn.
    apply Nat.eqb_neq in Hne. rewrite Nat.eqb_sym, Hne. cbn. lia.
  - intros F'. rewrite filter_app, length_app.
    rewrite update_cancelled_same by apply collates_refl. cbn.
    rewrite andb_false_r. cbn. lia.
Qed.

Lemma X12_booked_seats_follow_bookings_witness :
  Queries.count_confirmed
    (Database.set_Reservations booked
       (Reservations booked ++
        [Database.new_reservation booked 2 1 None "AAAAAAAA" 35000]))
    1 = 2.
Proof.
  pose proof (X12_booked_seats_follow_bookings 1 booked (constant 0)
                2 1 None 35000%Z "AAAAAAAA" _ _ eq_refl) as H.
  exact (proj1 H).
Defined.

(** X13: the statistics follow a booking.  A successful
    [create_reservation] raises the number of active reservations by one
    and the total revenue by the ticket price, and leaves the numbers of
    flights and passengers. *)
Theorem X13_statistics_after_booking {srv : Server}
    fuel db g p F s c ref db' g' :
  Database.create_reservation fuel db g p F s c
    = Some (Returns (Some ref), db', g') ->
  Queries.total_reservations (Queries.get_statistics db') =
  S (Queries.total_reservations (Queries.get_statistics db)) /\
  Queries.total_revenue (Queries.get_statistics db') =
  (Queries.total_revenue (Queries.get_statistics db) + c)%Z /\
  Queries.total_flights (Queries.get_statistics db') =
  Queries.total_flights (Queries.get_statistics db) /\
  Queries.total_passengers (Queries.get_statistics db') =
  Queries.total_passengers (Queries.get_statistics db).
Proof.
  intros H. apply book_then_cancel_Reservations in H.
  destruct H as (E1 & _ & Ef & Ep). rewrite !total_revenue_sum.
  unfold Queries.get_statistics.
  cbn [Queries.total_reservations Queries.total_flights
       Queries.total_passengers].
  rewrite E1, Ef, Ep, !filter_app, length_app, map_app, fold_right_add_app.
  cbn. repeat split; lia.
Qed.

Lemma X13_statistics_after_booking_witness :
  Queries.total_revenue
    (Queries.get_statistics
       (Database.set_Reservations booked
          (Reservations booked ++
           [Database.new_reservation booked 2 1 (Some 1) "AAAAAAAA" 55000])))
  = 90000%Z.
Proof.
  pose proof (X13_statistics_after_booking 1 booked (constant 0)
                2 1 (Some 1) 55000%Z "AAAAAAAA" _ _ eq_refl) as H.
  exact (proj1 (proj2 H)).
Defined.

(** X14: a booking followed by its cancellation leaves the statistics as
    they were.  After a successful [create_reservation] and
    [cancel_reservation] of the reference it returned, [get_statistics]
    returns what it returned before the booking: the cancelled row counts
    neither as an active reservation nor as revenue. *)
Theorem X14_statistics_after_booking_and_cancel {srv : Server}
    fuel db g p F s c ref db' g' :
  Database.create_reservation fuel db g p F s c
    = Some (Returns (Some ref), db', g') ->
  Queries.get_statistics (snd (Database.cancel_reservation db' ref)) =
  Queries.get_statistics db.
Proof.
  intros H. apply book_then_cancel_Reservations in H.
  destruct H as (_ & E2 & Ef & Ep).
  unfold Queries.get_statistics, Queries.sum_paid. rewrite E2.
  cbn [snd Database.cancel_reservation Database.set_Reservations
       Flights Passengers].
  rewrite Ef, Ep, !filter_app.
  rewrite update_cancelled_same by apply collates_refl. cbn [filter].
  cbn [r_status payment_status ReservationStatus.eqb Queries.is_paid].
  now rewrite !app_nil_r.
Qed.

Lemma X14_statistics_after_booking_and_cancel_witness :
  Queries.get_statistics
    (snd (Database.cancel_reservation
            (Database.set_Reservations booked
               (Reservations booked ++
                [Database.new_reservation booked 2 1 (Some 1)
                   "AAAAAAAA" 55000]))
            "AAAAAAAA"))
  = Queries.get_statistics booked.
Proof.
  exact (X14_statistics_after_booking_and_cancel 1 booked (constant 0)
           2 1 (Some 1) 55000%Z "AAAAAAAA" _ _ eq_refl).
Defined.

(** ** Flight details *)

(** X15: [get_flight_details] by key.  A row it returns is a flight of the
    store with the key asked for, joined to its own airports and aircraft;
    for a key that no flight has it returns None; and in a store that
    satisfies the foreign keys of Flights it returns a row for every key
    that a flight has. *)
Theorem X15_get_flight_details_by_key aircraft db flight_id :
  (forall x,
      Queries.get_flight_details aircraft db flight_id = Some x ->
      In (Queries.row_f x) (Flights db) /\
      f_flight_id (Queries.row_f x) = flight_id /\
      In (Queries.row_o x) (Airports db) /\
      airport_id (Queries.row_o x) = origin_airport_id (Queries.row_f x) /\
      In (Queries.row_d x) (Airports db) /\
      airport_id (Queries.row_d x) = destination_airport_id (Queries.row_f x) /\
      In (Queries.row_a x) aircraft /\
      aircraft_id (Queries.row_a x) = f_aircraft_id (Queries.row_f x)) /\
  (~ In flight_id (map f_flight_id (Flights db)) ->
   Queries.get_flight_details aircraft db flight_id = None) /\
  (flights_reference_airports db ->
   flights_reference_aircraft aircraft db ->
   In flight_id (map f_flight_id (Flights db)) ->
   exists x, Queries.get_flight_details aircraft db flight_id = Some x).
Proof.
  unfold Queries.get_flight_details.
  assert (Hrow : forall x,
             hd_error (Queries.join_flights aircraft db
                         (fun f _ _ => f_flight_id f =? flight_id)) = Some x ->
             In x (Queries.join_flights aircraft db
                     (fun f _ _ => f_flight_id f =? flight_id))).
  { intros x H. destruct (Queries.join_flights _ _ _); [discriminate|].
    injection H as ->. now left. }
  split; [|split].
  - intros x H. apply Hrow, join_flights_In in H.
    destruct H as (f & o & d & a & Hf & Ho & Hd & Ha & Eo & Ed & Ea & Hw & ->).
    apply Nat.eqb_eq in Hw. cbn. repeat split; auto.
  - intros Habs. clear Hrow.
    destruct (Queries.join_flights aircraft db
                (fun f _ _ => f_flight_id f =? flight_id)) as [|x l] eqn:El;
      [reflexivity|].
    assert (E : In x (Queries.join_flights aircraft db
                        (fun f _ _ => f_flight_id f =? flight_id))).
    { rewrite El. now left. }
    apply join_flights_In in E.
    destruct E as (f & _ & _ & _ & Hf & _ & _ & _ & _ & _ & _ & Hw & _).
    apply Nat.eqb_eq in Hw. exfalso. apply Habs. rewrite <- Hw.
    now apply in_map.
  - intros Hfk Hfa Hin. apply In_map_exists in Hin.
    destruct Hin as (f & Hf & Ef). destruct (Hfk f Hf) as [Ho Hd].
    apply In_map_exists in Ho. destruct Ho as (o & Ho & Eo).
    apply In_map_exists in Hd. destruct Hd as (d & Hd & Ed).
    pose proof (Hfa f Hf) as Ha. apply In_map_exists in Ha.
    destruct Ha as (a & Ha & Ea).
    assert (Hx : In {| Queries.row_f := f; Queries.row_o := o;
                       Queries.row_d := d; Queries.row_a := a |}
                    (Queries.join_flights aircraft db
                       (fun f _ _ => f_flight_id f =? flight_id))).
    { apply join_flights_In. exists f, o, d, a.
      repeat split; auto. now apply Nat.eqb_eq. }
    destruct (Queries.join_flights _ _ _) as [|x l]; [contradiction|].
    now exists x.
Qed.

Lemma X15_get_flight_details_by_key_witness :
  Queries.get_flight_details [boeing_737] booked 7 = None /\
  exists x, Queries.get_flight_details [boeing_737] booked 1 = Some x.
Proof.
  split.
  - apply (proj1 (proj2 (X15_get_flight_details_by_key [boeing_737] booked 7))).
    intros [E|[]]. discriminate E.
  - apply (proj2 (proj2 (X15_get_flight_details_by_key [boeing_737] booked 1))).
    + apply sample_flights_reference_airports.
    + intros f [<-|[]]. left. reflexivity.
    + left. reflexivity.
Defined.

(** ** Manifest and bookings of a passenger *)

Lemma get_flight_manifest_In {srv : Server} db F x :
  In x (Queries.get_flight_manifest db F) <->
  In (Queries.m_r x) (Reservations db) /\ r_flight_id (Queries.m_r x) = F /\
  In (Queries.m_p x) (Passengers db) /\
  r_passenger_id (Queries.m_r x) = p_passenger_id (Queries.m_p x) /\
  In (Queries.m_s x)
     (Database.left_join_seats db (r_seat_id (Queries.m_r x))).
Proof.
  unfold Queries.get_flight_manifest. rewrite order_rows_In, in_flat_map.
  split.
  - intros (r_ & Hr & H).
    destruct (Nat.eqb_spec (r_flight_id r_) F) as [Ef|]; [|contradiction].
    apply in_flat_map in H. destruct H as (p & Hp & H).
    destruct (Nat.eqb_spec (r_passenger_id r_) (p_passenger_id p)) as [Ep|];
      [|contradiction].
    apply in_map_iff in H. destruct H as (s & <- & Hs). cbn. auto.
  - intros (Hr & Ef & Hp & Ep & Hs). exists (Queries.m_r x).
    split; [exact Hr|]. rewrite Ef, Nat.eqb_refl.
    apply in_flat_map. exists (Queries.m_p x). split; [exact Hp|].
    rewrite Ep, Nat.eqb_refl. apply in_map_iff.
    exists (Queries.m_s x). split; [now destruct x | exact Hs].
Qed.

(** X16: a cancelled passenger stays on the manifest.
    [get_flight_manifest] filters on no status: after
    [cancel_reservation ref] the manifest of every flight has as many rows
    as before, and a reservation of flight [F] that carried [ref] (or a
    reference that the server finds equal to it) is still listed for its
    passenger, with status 'cancelled'. *)
Theorem X16_manifest_keeps_cancelled {srv : Server} db ref F :
  List.length (Queries.get_flight_manifest
                 (snd (Database.cancel_reservation db ref)) F) =
  List.length (Queries.get_flight_manifest db F) /\
  (forall r_ p,
      In r_ (Reservations db) -> r_flight_id r_ = F ->
      collates (booking_reference r_) ref ->
      In p (Passengers db) -> r_passenger_id r_ = p_passenger_id p ->
      exists x,
        In x (Queries.get_flight_manifest
                (snd (Database.cancel_reservation db ref)) F) /\
        Queries.m_p x = p /\
        booking_reference (Queries.m_r x) = booking_reference r_ /\
        r_status (Queries.m_r x) = ReservationStatus.cancelled).
Proof.
  split.
  - unfold Queries.get_flight_manifest. rewrite !order_rows_length.
    cbn [snd Database.cancel_reservation Database.set_Reservations
         Reservations Passengers].
    rewrite flat_map_map.
    match goal with
    | |- List.length ?L = List.length (flat_map ?f ?rs) =>
        replace L with
          (map (fun x => {| Queries.m_p := Queries.m_p x;
                            Queries.m_r := Database.update_cancelled ref
                                             (Queries.m_r x);
                            Queries.m_s := Queries.m_s x |})
               (flat_map f rs)); [apply length_map|]
    end.
    rewrite map_flat_map. apply flat_map_ext. intros r_.
    destruct (update_cancelled_keys ref r_) as (_ & -> & -> & -> & _).
    destruct (r_flight_id r_ =? F); [|reflexivity].
    rewrite map_flat_map. apply flat_map_ext. intros p.
    destruct (r_passenger_id r_ =? p_passenger_id p); [|reflexivity].
    rewrite map_map. reflexivity.
  - intros r_ p Hr Ef Eref Hp Ep.
    destruct (left_join_seats_nonempty db (r_seat_id r_)) as (s & Hs).
    exists {| Queries.m_p := p;
              Queries.m_r := Database.update_cancelled ref r_;
              Queries.m_s := s |}.
    destruct (update_cancelled_keys ref r_) as (Eb & Epp & Eff & Es & _).
    split.
    + apply get_flight_manifest_In. cbn [Queries.m_p Queries.m_r Queries.m_s].
      rewrite Epp, Eff, Es.
      cbn [snd Database.cancel_reservation Database.set_Reservations
           Reservations Passengers].
      repeat split; auto. now apply in_map.
    + cbn. rewrite (update_cancelled_same ref r_ Eref). cbn. auto.
Qed.

Lemma X16_manifest_keeps_cancelled_witness :
  exists x,
    In x (Queries.get_flight_manifest
            (snd (Database.cancel_reservation booked "BK2025001")) 1) /\
    Queries.m_p x = john /\
    booking_reference (Queries.m_r x) = "BK2025001" /\
    r_status (Queries.m_r x) = ReservationStatus.cancelled.
Proof.
  apply (proj2 (X16_manifest_keeps_cancelled booked "BK2025001" 1)
           (BK2025001 ReservationStatus.confirmed PaymentStatus.paid) john).
  - left. reflexivity.
  - reflexivity.
  - reflexivity.
  - left. reflexivity.
  - reflexivity.
Defined.

Lemma get_passenger_reservations_In {srv : Server} db e x :
  In x (Queries.get_passenger_reservations db e) <->
  In (Queries.pr_r x) (Reservations db) /\
  (exists p, In p (Passengers db) /\
             r_passenger_id (Queries.pr_r x) = p_passenger_id p /\
             collates (email p) e) /\
  In (Queries.pr_f x) (Flights db) /\
  r_flight_id (Queries.pr_r x) = f_flight_id (Queries.pr_f x) /\
  In (Queries.pr_o x) (Airports db) /\
  origin_airport_id (Queries.pr_f x) = airport_id (Queries.pr_o x) /\
  In (Queries.pr_d x) (Airports db) /\
  destination_airport_id (Queries.pr_f x) = airport_id (Queries.pr_d x) /\
  In (Queries.pr_s x)
     (Database.left_join_seats db (r_seat_id (Queries.pr_r x))).
Proof.
  unfold Queries.get_passenger_reservations.
  rewrite order_rows_In, in_flat_map. split.
  - intros (r_ & Hr & H).
    apply in_flat_map in H. destruct H as (p & Hp & H).
    destruct (Nat.eqb_spec (r_passenger_id r_) (p_passenger_id p)) as [Ep|];
      [|contradiction].
    destruct (Sql_eq_spec (email p) e) as [Ee|]; [|contradiction].
    cbn [andb] in H.
    apply in_flat_map in H. destruct H as (f & Hf & H).
    destruct (Nat.eqb_spec (r_flight_id r_) (f_flight_id f)) as [Ef|];
      [|contradiction].
    apply in_flat_map in H. destruct H as (o & Ho & H).
    destruct (Nat.eqb_spec (origin_airport_id f) (airport_id o)) as [Eo|];
      [|contradiction].
    apply in_flat_map in H. destruct H as (d & Hd & H).
    destruct (Nat.eqb_spec (destination_airport_id f) (airport_id d)) as [Ed|];
      [|contradiction].
    apply in_map_iff in H. destruct H as (s & <- & Hs). cbn.
    split; [exact Hr|]. split; [exists p; auto|]. repeat split; auto.
  - intros (Hr & (p & Hp & Ep & Ee) & Hf & Ef & Ho & Eo & Hd & Ed & Hs).
    exists (Queries.pr_r x). split; [exact Hr|].
    apply in_flat_map. exists p. split; [exact Hp|].
    apply Sql_eq_true in Ee. rewrite Ep, Ee, Nat.eqb_refl. cbn [andb].
    apply in_flat_map. exists (Queries.pr_f x). split; [exact Hf|].
    rewrite Ef, Nat.eqb_refl.
    apply in_flat_map. exists (Queries.pr_o x). split; [exact Ho|].
    rewrite Eo, Nat.eqb_refl.
    apply in_flat_map. exists (Queries.pr_d x). split; [exact Hd|].
    rewrite Ed, Nat.eqb_refl.
    apply in_map_iff. exists (Queries.pr_s x).
    split; [now destruct x | exact Hs].
Qed.

(** X17: a booking shows under the passenger's email.  In a store that
    satisfies the foreign keys of Flights on Airports, after a successful
    [create_reservation] for passenger [p], [get_passenger_reservations]
    on the email of [p], written as stored or in any way that the server
    finds equal, lists the new reference, confirmed, on the flight booked;
    and every row it lists under an email is a reservation of a passenger
    whose email the server finds equal to it. *)
Theorem X17_booking_listed_under_email {srv : Server}
    fuel db g q F s c ref db' g' :
  flights_reference_airports db ->
  In q (Passengers db) ->
  Database.create_reservation fuel db g (p_passenger_id q) F s c
    = Some (Returns (Some ref), db', g') ->
  (forall e, collates (email q) e ->
    exists x,
      In x (Queries.get_passenger_reservations db' e) /\
      booking_reference (Queries.pr_r x) = ref /\
      r_status (Queries.pr_r x) = ReservationStatus.confirmed /\
      f_flight_id (Queries.pr_f x) = F /\
      r_seat_id (Queries.pr_r x) = s) /\
  (forall e x,
      In x (Queries.get_passenger_reservations db' e) ->
      exists p, In p (Passengers db') /\ collates (email p) e /\
                r_passenger_id (Queries.pr_r x) = p_passenger_id p).
Proof.
  intros Hfk Hq H. apply create_reservation_fresh in H.
  destruct H as (_ & _ & A & ->). split.
  - intros e Ce.
    pose proof (reservation_accepted_flight _ _ _ _ _ _ A) as Hf.
    apply In_map_exists in Hf. destruct Hf as (f & Hf & Ef).
    destruct (Hfk f Hf) as [Ho Hd].
    apply In_map_exists in Ho. destruct Ho as (o & Ho & Eo).
    apply In_map_exists in Hd. destruct Hd as (d & Hd & Ed).
    destruct (left_join_seats_nonempty
                (Database.set_Reservations db
                   (Reservations db ++
                    [Database.new_reservation db (p_passenger_id q) F s ref c]))
                s) as (st & Hst).
    exists {| Queries.pr_r :=
                Database.new_reservation db (p_passenger_id q) F s ref c;
              Queries.pr_f := f; Queries.pr_o := o; Queries.pr_d := d;
              Queries.pr_s := st |}.
    split; [|cbn; auto].
    apply get_passenger_reservations_In.
    cbn [Queries.pr_r Queries.pr_f Queries.pr_o Queries.pr_d Queries.pr_s
         Database.set_Reservations Reservations Passengers Flights Airports].
    split; [apply in_or_app; right; now left|].
    split; [exists q; cbn; auto|].
    cbn. repeat split; auto.
  - intros e x Hx. apply get_passenger_reservations_In in Hx.
    destruct Hx as (_ & (p & Hp & Ep & Ee) & _). exists p. auto.
Qed.

Lemma X17_booking_listed_under_email_witness :
  exists x,
    In x (Queries.get_passenger_reservations
            (Database.set_Reservations booked
               (Reservations booked ++
                [Database.new_reservation booked 2 1 (Some 1)
                   "AAAAAAAA" 55000]))
            "Jane.Smith@Email.com") /\
    booking_reference (Queries.pr_r x) = "AAAAAAAA" /\
    r_status (Queries.pr_r x) = ReservationStatus.confirmed /\
    f_flight_id (Queries.pr_f x) = 1 /\
    r_seat_id (Queries.pr_r x) = Some 1.
Proof.
  pose proof (X17_booking_listed_under_email 1 booked (constant 0) jane
                1 (Some 1) 55000%Z "AAAAAAAA"
                (Database.set_Reservations booked
                   (Reservations booked ++
                    [Database.new_reservation booked 2 1 (Some 1)
                       "AAAAAAAA" 55000]))
                (advance (constant 0) 8)
                (sample_flights_reference_airports _ _)
                (or_intror (or_introl eq_refl)) eq_refl) as H.
  exact (proj1 H "Jane.Smith@Email.com" eq_refl).
Defined.

(** ** The booking page *)


(* a key of the dictionary is the number of one of the seats it was built
   from, and its value the key of that seat *)
Lemma options_Some seats key id :
  BookingPage.options seats key = Some id ->
  exists a, In a seats /\ Database.a_seat_number a = key /\
            Database.a_seat_id a = id.
Proof.
  unfold BookingPage.options.
  assert (H : forall found,
             fold_left (fun found s =>
                          if String.eqb (Database.a_seat_number s) key
                          then Some (Database.a_seat_id s) else found)
                       seats found = Some id ->
             found = Some id \/
             exists a, In a seats /\ Database.a_seat_number a = key /\
                       Database.a_seat_id a = id).
  { induction seats as [|s seats IH]; simpl; intros found H; [now left|].
    apply IH in H. destruct H as [H | (a & Ha & Hk & Hi)].
    - destruct (String.eqb_spec (Database.a_seat_number s) key) as [E|E].
      + right. exists s. injection H as H. auto.
      + now left.
    - right. exists a. auto. }
  intros E. apply H in E. destruct E as [E|E]; [discriminate | exact E].
Qed.



(* the seat selected is one of the seats offered *)
Lemma select_seat_offered available class key base_price id price :
  BookingPage.select_seat available class key base_price
    = BookingPage.Selected id price ->
  exists a, In a available /\ Database.a_seat_id a = id.
Proof.
  unfold BookingPage.select_seat. intros H.
  destruct (_ && _) in H;
    [|destruct (BookingPage.nonempty _) in H; [|discriminate]];
    (destruct (BookingPage.options _ key) as [k|] eqn:O; [|discriminate]);
    injection H as <- _; apply options_Some in O;
    destruct O as (a & Ha & _ & Hi); apply filter_In in Ha;
    exists a; tauto.
Qed.

(* the row of get_flight_details has the key asked for *)
Lemma get_flight_details_key aircraft db F flight :
  Queries.get_flight_details aircraft db F = Some flight ->
  f_flight_id (Queries.row_f flight) = F.
Proof.
  unfold Queries.get_flight_details. intros H.
  assert (Hin : In flight (Queries.join_flights aircraft db
                             (fun f _ _ => f_flight_id f =? F))).
  { destruct (Queries.join_flights _ _ _); [discriminate|].
    injection H as ->. now left. }
  apply join_flights_In in Hin.
  destruct Hin as (f & o & d & a & _ & _ & _ & _ & _ & _ & _ & Hw & ->).
  now apply Nat.eqb_eq in Hw.
Qed.

(* an offered seat is under no confirmed reservation of the flight *)
Lemma available_free {srv : Server} db F a :
  In a (Database.get_available_seats db F) ->
  confirmed_holders db F (Database.a_seat_id a) = [].
Proof.
  unfold Database.get_available_seats. rewrite order_by_In, in_flat_map.
  intros (s & _ & H). apply in_flat_map in H. destruct H as (f & _ & H).
  destruct ((s_aircraft_id s =? f_aircraft_id f) && (f_flight_id f =? F));
    [|contradiction].
  destruct (Sql.mem (s_seat_id s) (Database.confirmed_seat_ids db F)) eqn:Em;
    [contradiction|].
  destruct H as [<-|[]]. cbn [Database.a_seat_id].
  unfold confirmed_holders.
  destruct (filter _ (Reservations db)) as [|x l] eqn:E; [reflexivity|].
  exfalso.
  assert (Hx : In x (filter
            (fun r_ =>
               (r_flight_id r_ =? F)
               && match r_seat_id r_ with
                  | Some k => k =? s_seat_id s
                  | None => false
                  end
               && ReservationStatus.eqb (r_status r_)
                    ReservationStatus.confirmed)
            (Reservations db))).
  { rewrite E. now left. }
  apply filter_In in Hx. destruct Hx as [Hx Hc].
  apply andb_prop in Hc. destruct Hc as [Hc Hst].
  apply andb_prop in Hc. destruct Hc as [Hf Hs].
  destruct (r_seat_id x) as [k|] eqn:Ek; [|discriminate].
  apply Nat.eqb_eq in Hf, Hs. apply status_eqb_confirmed in Hst. subst k.
  assert (Hm : Sql.mem (s_seat_id s) (Database.confirmed_seat_ids db F) = true).
  { apply mem_In, confirmed_seat_ids_In. exists x. auto. }
  congruence.
Qed.

(* the page, gathered: a confirmed run found the flight, selected an
   offered seat, resolved the passenger and inserted the reservation *)
Lemma show_booking_page_confirmed {srv : Server}
    fuel aircraft db g F form ref db' g' :
  BookingPage.show_booking_page fuel aircraft db g (Some F) form
    = Some (BookingPage.BookingConfirmed ref, db', g') ->
  exists flight seat_id price pid db1,
    Queries.get_flight_details aircraft db F = Some flight /\
    BookingPage.select_seat
      (Database.get_available_seats db (f_flight_id (Queries.row_f flight)))
      (BookingPage.class_ form) (BookingPage.selected_seat_ form)
      (base_price (Queries.row_f flight))
    = BookingPage.Selected seat_id price /\
    Database.create_passenger db (BookingPage.first_name_ form)
      (BookingPage.last_name_ form) (BookingPage.email_ form)
      (Some (BookingPage.phone_ form))
      (Some (BookingPage.date_of_birth_ form))
      (Some (BookingPage.passport_number_ form))
      (Some (BookingPage.nationality_ form))
    = (Returns (Some pid), db1) /\
    Database.create_reservation fuel db1 g pid
      (f_flight_id (Queries.row_f flight)) (Some seat_id) price
    = Some (Returns (Some ref), db', g').
Proof.
  unfold BookingPage.show_booking_page. intros H.
  destruct (Queries.get_flight_details aircraft db F) as [flight|];
    [|discriminate].
  destruct (negb (BookingPage.nonempty _)); [discriminate|].
  destruct (BookingPage.select_seat _ _ _ _) as [seat_id price| |] eqn:Sel;
    try discriminate.
  destruct (negb (BookingPage.confirm_booking form)); [discriminate|].
  destruct (negb _); [discriminate|].
  destruct (Database.create_passenger _ _ _ _ _ _ _ _) as [created db1] eqn:P.
  destruct created as [[[|k]|]|]; try discriminate.
  destruct (Database.create_reservation _ _ _ _ _ _ _)
    as [[[[[booking_ref|]|] db2] g2]|] eqn:R; try discriminate.
  destruct (BookingPage.filled booking_ref); [|discriminate].
  injection H as <- <- <-.
  exists flight, seat_id, price, (S k), db1. auto.
Qed.

(** X19: the booking page never books a seat that is under a confirmed
    reservation.  When a run of [show_booking_page] for flight [F] ends in
    "Booking Confirmed", the seat it booked was returned by
    [get_available_seats] for [F] in that run: no confirmed reservation of
    [F] was on it before, exactly one is on it afterwards, and the
    reference shown is new in the store. *)
Theorem X19_page_books_a_free_seat {srv : Server}
    fuel aircraft db g F form ref db' g' :
  BookingPage.show_booking_page fuel aircraft db g (Some F) form
    = Some (BookingPage.BookingConfirmed ref, db', g') ->
  exists a,
    In a (Database.get_available_seats db F) /\
    confirmed_holders db F (Database.a_seat_id a) = [] /\
    List.length (confirmed_holders db' F (Database.a_seat_id a)) = 1 /\
    ~ In ref (references db) /\ In ref (references db').
Proof.
  intros H. apply show_booking_page_confirmed in H.
  destruct H as (flight & seat_id & price & pid & db1 & D & Sel & P & R).
  rewrite (get_flight_details_key _ _ _ _ D) in Sel, R.
  apply select_seat_offered in Sel. destruct Sel as (a & Ha & <-).
  assert (Hrs : Reservations db1 = Reservations db).
  { change db1 with (snd (Returns (Some pid), db1)). rewrite <- P.
    apply create_passenger_Reservations. }
  apply create_reservation_fresh in R.
  destruct R as (Hfree & _ & _ & ->). apply collides_absent in Hfree.
  exists a. split; [exact Ha|].
  pose proof (available_free db F a Ha) as Hnone.
  split; [exact Hnone|]. unfold references, confirmed_holders in *.
  cbn [Database.set_Reservations Reservations]. rewrite Hrs in *.
  rewrite filter_app, Hnone, map_app. cbn. rewrite !Nat.eqb_refl. cbn.
  split; [reflexivity|]. split; [exact Hfree|].
  apply in_or_app. right. now left.
Qed.

Lemma X19_page_books_a_free_seat_witness :
  exists a,
    In a (Database.get_available_seats booked 1) /\
    confirmed_holders booked 1 (Database.a_seat_id a) = [] /\
    ~ In "AAAAAAAA" (references booked).
Proof.
  edestruct (X19_page_books_a_free_seat 1 [boeing_737] booked (constant 0) 1
               ann_form "AAAAAAAA")
    as (a & Ha & Hnone & _ & Hfree & _); [vm_compute; reflexivity|].
  exists a. auto.
Defined.

Lemma filled_length ref : String.length ref = 8 -> BookingPage.filled ref = true.
Proof. destruct ref; [discriminate | reflexivity]. Qed.

(** X20: the booking page writes a reservation only when it confirms.
    Whatever the session and the form hold, a run of [show_booking_page]
    that does not end in "Booking Confirmed" leaves the Reservations table
    as it was; and a run in which the button is not pressed, or in which
    the first name, the last name or the email is empty, leaves the whole
    store as it was. *)
Theorem X20_page_writes_only_when_confirmed {srv : Server}
    fuel aircraft db g selected_flight form pg db' g' :
  BookingPage.show_booking_page fuel aircraft db g selected_flight form
    = Some (pg, db', g') ->
  ((forall ref, pg <> BookingPage.BookingConfirmed ref) ->
   Reservations db' = Reservations db) /\
  (BookingPage.confirm_booking form = false -> db' = db) /\
  (BookingPage.first_name_ form = "" \/ BookingPage.last_name_ form = "" \/
   BookingPage.email_ form = "" -> db' = db).
Proof.
  intros H. unfold BookingPage.show_booking_page in H.
  destruct selected_flight as [F|];
    [|injection H as <- <- <-; repeat split; reflexivity].
  destruct (Queries.get_flight_details aircraft db F) as [flight|];
    [|injection H as <- <- <-; repeat split; reflexivity].
  destruct (negb (BookingPage.nonempty _));
    [injection H as <- <- <-; repeat split; reflexivity|].
  destruct (BookingPage.select_seat _ _ _ _) as [seat_id price| |];
    try (injection H as <- <- <-; repeat split; reflexivity).
  destruct (BookingPage.confirm_booking form) eqn:Eb; cbn [negb] in H;
    [|injection H as <- <- <-; repeat split; reflexivity].
  destruct (BookingPage.filled (BookingPage.first_name_ form)
            && BookingPage.filled (BookingPage.last_name_ form)
            && BookingPage.filled (BookingPage.email_ form)) eqn:Ef;
    cbn [negb] in H;
    [|injection H as <- <- <-; repeat split; reflexivity].
  assert (Hfields : ~ (BookingPage.first_name_ form = "" \/
                       BookingPage.last_name_ form = "" \/
                       BookingPage.email_ form = "")).
  { intros [E|[E|E]]; rewrite E in Ef; cbn in Ef;
      rewrite ?andb_false_r in Ef; discriminate. }
  split; [|split; [discriminate | tauto]].
  intros Hpg.
  destruct (Database.create_passenger _ _ _ _ _ _ _ _) as [created db1] eqn:P.
  assert (Hrs : Reservations db1 = Reservations db).
  { change db1 with (snd (created, db1)). rewrite <- P.
    apply create_passenger_Reservations. }
  destruct created as [[[|k]|]|];
    try (injection H as <- <- <-; exact Hrs).
  destruct (Database.create_reservation _ _ _ _ _ _ _)
    as [[[out db2] g2]|] eqn:R; [|discriminate].
  destruct out as [[booking_ref|]|e].
  - pose proof (create_reservation_fresh _ _ _ _ _ _ _ _ _ _ R)
      as (_ & Hlen & _).
    rewrite (filled_length _ Hlen) in H. injection H as <- <- <-.
    exfalso. exact (Hpg booking_ref eq_refl).
  - injection H as <- <- <-. apply create_reservation_cases in R.
    destruct R as (ref & _ & [(_ & E & _) | (_ & _ & ->)]);
      [discriminate | exact Hrs].
  - apply create_reservation_cases in R.
    destruct R as (ref & _ & [(_ & E & _) | (_ & E & _)]); discriminate.
Qed.

Lemma X20_page_writes_only_when_confirmed_witness :
  BookingPage.show_booking_page 1 [boeing_737] dear (constant 0) (Some 1)
    ann_form
  = Some (BookingPage.ReservationFailed, dear_with_ann,
          advance (constant 0) 8) /\
  Passengers dear_with_ann <> Passengers dear /\
  Reservations dear_with_ann = Reservations dear.
Proof.
  assert (E : BookingPage.show_booking_page 1 [boeing_737] dear (constant 0)
                (Some 1) ann_form
              = Some (BookingPage.ReservationFailed, dear_with_ann,
                      advance (constant 0) 8)).
  { reflexivity. }
  split; [exact E|]. split; [discriminate|].
  apply (proj1 (X20_page_writes_only_when_confirmed _ _ _ _ _ _ _ _ _ E)).
  intros ref. discriminate.
Defined.

(** ** Availability after a booking *)

Lemma available_elim {srv : Server} db F a :
  In a (Database.get_available_seats db F) ->
  exists s f,
    In s (Seats db) /\ In f (Flights db) /\ f_flight_id f = F /\
    s_aircraft_id s = f_aircraft_id f /\ a = seat_row s.
Proof.
  unfold Database.get_available_seats. rewrite order_by_In, in_flat_map.
  intros (s & Hs & H). apply in_flat_map in H. destruct H as (f & Hf & H).
  destruct (Nat.eqb_spec (s_aircraft_id s) (f_aircraft_id f)) as [Ea|];
    [|contradiction].
  destruct (Nat.eqb_spec (f_flight_id f) F) as [Ef|]; [|contradiction].
  destruct (negb _); [|contradiction].
  destruct H as [<-|[]]. exists s, f. auto.
Qed.

Lemma confirmed_holders_nil db F s :
  confirmed_holders db F s = [] -> ~ confirmed_on db F s.
Proof.
  unfold confirmed_holders. intros E (x & Hx & Ef & Es & Est).
  assert (Hin : In x (filter
            (fun r_ =>
               (r_flight_id r_ =? F)
               && match r_seat_id r_ with
                  | Some k => k =? s
                  | None => false
                  end
               && ReservationStatus.eqb (r_status r_)
                    ReservationStatus.confirmed)
            (Reservations db))).
  { apply filter_In. split; [exact Hx|].
    rewrite Ef, Es, Est, !Nat.eqb_refl. reflexivity. }
  rewrite E in Hin. contradiction.
Qed.

(** X21: a booked seat is no longer offered.  After a successful
    [create_reservation] of seat [s] on flight [F],
    [get_available_seats F] does not return [s] any more and returns no
    seat that it did not return before, and the seats offered on every
    other flight are the same as before. *)
Theorem X21_booked_seat_not_offered {srv : Server}
    fuel db g p F s c ref db' g' :
  Database.create_reservation fuel db g p F (Some s) c
    = Some (Returns (Some ref), db', g') ->
  (forall a, In a (Database.get_available_seats db' F) ->
             Database.a_seat_id a <> s /\
             In a (Database.get_available_seats db F)) /\
  (forall F', F' <> F ->
     Database.get_available_seats db' F' = Database.get_available_seats db F').
Proof.
  intros H. apply create_reservation_fresh in H.
  destruct H as (_ & _ & _ & ->). split.
  - intros a Ha. pose proof (available_free _ _ _ Ha) as Hnone.
    unfold confirmed_holders in Hnone.
    cbn [Database.set_Reservations Reservations] in Hnone.
    rewrite filter_app in Hnone. apply app_eq_nil in Hnone.
    destruct Hnone as [Hold Hnew]. split.
    + intros E. rewrite E in Hnew. cbn in Hnew.
      rewrite !Nat.eqb_refl in Hnew. discriminate.
    + apply available_elim in Ha.
      destruct Ha as (st & f & Hs & Hf & Ef & Ea & ->).
      apply (available_intro db F st f); auto.
      now apply confirmed_holders_nil.
  - intros F' Hne. unfold Database.get_available_seats.
    cbn [Database.set_Reservations Seats Flights].
    replace (Database.confirmed_seat_ids
               (Database.set_Reservations db
                  (Reservations db ++
                   [Database.new_reservation db p F (Some s) ref c])) F')
      with (Database.confirmed_seat_ids db F'); [reflexivity|].
    unfold Database.confirmed_seat_ids.
    cbn [Database.set_Reservations Reservations].
    rewrite flat_map_app. cbn.
    apply Nat.eqb_neq in Hne. rewrite Nat.eqb_sym, Hne. cbn.
    now rewrite app_nil_r.
Qed.

Lemma X21_booked_seat_not_offered_witness :
  forallb (fun a => negb (Database.a_seat_id a =? 1))
          (Database.get_available_seats
             (Database.set_Reservations booked
                (Reservations booked ++
                 [Database.new_reservation booked 2 1 (Some 1)
                    "AAAAAAAA" 55000])) 1) = true.
Proof.
  pose proof (X21_booked_seat_not_offered 1 booked (constant 0) 2 1 1
                55000%Z "AAAAAAAA" _ _ eq_refl) as H.
  apply forallb_forall.
  intros a Ha. destruct (proj1 H a Ha) as [Hne _].
  apply Nat.eqb_neq in Hne. now rewrite Hne.
Defined.

(** ** Listings *)

Lemma order_insert_by_Permutation {A} (leb : A -> A -> bool) x l :
  Permutation (order_insert_by leb x l) (x :: l).
Proof.
  induction l as [|y l IH]; simpl; [reflexivity|].
  destruct (leb x y); [reflexivity|].
  rewrite IH. apply perm_swap.
Qed.

Lemma order_rows_Permutation {A} (leb : A -> A -> bool) l :
  Permutation (order_rows leb l) l.
Proof.
  unfold order_rows. induction l as [|x l IH]; simpl; [reflexivity|].
  rewrite order_insert_by_Permutation. now constructor.
Qed.

(** X22: the admin listing shows every flight, whatever its status.
    [get_all_flights] returns exactly the flights of the store joined to
    their airports and aircraft, each with its count of confirmed
    reservations, with no filter on the status, by decreasing departure
    time. *)
Theorem X22_get_all_flights_exact aircraft db :
  (forall x,
      In x (Queries.get_all_flights aircraft db) <->
      exists f o d a,
        In f (Flights db) /\ In o (Airports db) /\ In d (Airports db) /\
        In a aircraft /\
        origin_airport_id f = airport_id o /\
        destination_airport_id f = airport_id d /\
        f_aircraft_id f = aircraft_id a /\
        x = {| Queries.details :=
                 {| Queries.row_f := f; Queries.row_o := o;
                    Queries.row_d := d; Queries.row_a := a |};
               Queries.booked_seats :=
                 Queries.count_confirmed db (f_flight_id f) |}) /\
  ordered (fun x y => Queries.departs_leb y x)
          (Queries.get_all_flights aircraft db).
Proof.
  split.
  - intros x. unfold Queries.get_all_flights.
    rewrite order_rows_In, in_map_iff. split.
    + intros (y & <- & Hy). apply join_flights_In in Hy.
      destruct Hy as (f & o & d & a & Hf & Ho & Hd & Ha & Eo & Ed & Ea
                      & _ & ->).
      exists f, o, d, a. repeat split; auto.
    + intros (f & o & d & a & Hf & Ho & Hd & Ha & Eo & Ed & Ea & ->).
      exists {| Queries.row_f := f; Queries.row_o := o;
                Queries.row_d := d; Queries.row_a := a |}.
      split; [reflexivity|]. apply join_flights_In.
      exists f, o, d, a. repeat split; auto.
  - apply order_rows_ordered. intros u v H.
    unfold Queries.departs_leb in *. apply Z.leb_gt in H. apply Z.leb_le. lia.
Qed.

Lemma X22_get_all_flights_exact_witness :
  In {| Queries.details :=
          {| Queries.row_f := AA101 FlightStatus.departed;
             Queries.row_o := JFK; Queries.row_d := LAX;
             Queries.row_a := boeing_737 |};
        Queries.booked_seats := 0 |}
     (Queries.get_all_flights [boeing_737] (sample FlightStatus.departed [])).
Proof.
  apply (proj2 (proj1 (X22_get_all_flights_exact [boeing_737]
                         (sample FlightStatus.departed [])) _)).
  exists (AA101 FlightStatus.departed), JFK, LAX, boeing_737.
  split; [left; reflexivity|]. split; [left; reflexivity|].
  split; [right; left; reflexivity|]. split; [left; reflexivity|].
  repeat split.
Defined.

(** X23: [get_all_airports] lists every airport once, by city: its result
    is a rearrangement of the Airports table in which each city is at most
    the next one in the order of the server, which compares the sort keys
    of the cities. *)
Theorem X23_get_all_airports_sorted {srv : Server} db :
  Permutation (Queries.get_all_airports db) (Airports db) /\
  ordered (fun x y => String.leb (WEIGHT_STRING (city x))
                                 (WEIGHT_STRING (city y)))
          (Queries.get_all_airports db).
Proof.
  unfold Queries.get_all_airports. split.
  - apply order_rows_Permutation.
  - apply (order_rows_ordered (fun x y => Sql.leb (city x) (city y))).
    intros u v H. unfold Sql.leb in *.
    destruct (String.leb_total (WEIGHT_STRING (city u))
                               (WEIGHT_STRING (city v))) as [E|E];
      congruence.
Qed.

(** ** Conservation of seats *)

Lemma flat_map_nil {A B} (g : A -> list B) l :
  (forall y, In y l -> g y = []) -> flat_map g l = [].
Proof.
  induction l as [|y l IH]; simpl; intros H; [reflexivity|].
  rewrite (H y) by now left. apply IH. intros z Hz. apply H. now right.
Qed.

Lemma flat_map_single {A B} (g : A -> list B) x l :
  NoDup l -> In x l -> (forall y, In y l -> y <> x -> g y = []) ->
  flat_map g l = g x.
Proof.
  induction l as [|y l IH]; simpl; intros Hd Hx Hg; [contradiction|].
  inversion Hd as [|? ? Hy Hl]; subst. destruct Hx as [->|Hx].
  - rewrite flat_map_nil; [apply app_nil_r|].
    intros z Hz. apply Hg; [now right|]. intros ->. contradiction.
  - assert (E : g y = []) by (apply Hg; [now left | intros ->; contradiction]).
    rewrite E. simpl. apply IH; auto.
Qed.

Lemma NoDup_map_NoDup {A B} (key : A -> B) l :
  NoDup (map key l) -> NoDup l.
Proof.
  induction l as [|z l IH]; simpl; intros Hd; constructor;
    inversion Hd; subst; auto.
  intros H. apply H1. now apply in_map.
Qed.

Lemma NoDup_map_filter {A B} (key : A -> B) p l :
  NoDup (map key l) -> NoDup (map key (filter p l)).
Proof.
  induction l as [|z l IH]; simpl; intros Hd; [constructor|].
  inversion Hd as [|? ? Hz Hl]; subst.
  destruct (p z); simpl; auto. constructor; auto.
  intros H. apply Hz. apply in_map_iff in H. destruct H as (w & E & Hw).
  apply filter_In in Hw. rewrite <- E. apply in_map. tauto.
Qed.

Lemma length_flat_map_if {A B} (c : A -> bool) (row : A -> B) l :
  List.length (flat_map (fun x => if c x then [row x] else []) l) =
  List.length (filter c l).
Proof.
  induction l as [|x l IH]; simpl; [reflexivity|].
  destruct (c x); simpl; now rewrite IH.
Qed.

Lemma length_filter_split {A} (p q : A -> bool) l :
  List.length (filter (fun x => p x && negb (q x)) l) +
  List.length (filter (fun x => p x && q x) l) =
  List.length (filter p l).
Proof.
  induction l as [|x l IH]; simpl; [reflexivity|].
  destruct (p x), (q x); simpl; lia.
Qed.

(* a seated confirmed reservation contributes one row to the subquery *)
Lemma count_confirmed_seated db F :
  (forall r_, In r_ (Reservations db) -> r_flight_id r_ = F ->
              r_status r_ = ReservationStatus.confirmed ->
              r_seat_id r_ <> None) ->
  Queries.count_confirmed db F =
  List.length (Database.confirmed_seat_ids db F).
Proof.
  unfold Queries.count_confirmed, Database.confirmed_seat_ids.
  induction (Reservations db) as [|x l IH]; simpl; intros H; [reflexivity|].
  rewrite length_app.
  rewrite <- IH by (intros y Hy; apply H; now right).
  destruct ((r_flight_id x =? F)
            && ReservationStatus.eqb (r_status x) ReservationStatus.confirmed)
    eqn:E.
  - apply andb_prop in E. destruct E as [Ef Es].
    apply Nat.eqb_eq in Ef. apply status_eqb_confirmed in Es.
    destruct (r_seat_id x) eqn:Ek.
    + reflexivity.
    + exfalso. apply (H x); auto.
  - destruct (r_seat_id x); reflexivity.
Qed.

(** X24: seats are conserved.  In a store whose flight and seat keys are
    unique, for a flight [F] all of whose confirmed reservations are
    seated on distinct seats of its aircraft, the number of seats that
    [get_available_seats F] offers plus the number of booked seats that
    [search_flights] reports for [F] is the number of seats of the
    aircraft. *)
Theorem X24_seats_conserved {srv : Server} db F f :
  NoDup (map f_flight_id (Flights db)) ->
  NoDup (map s_seat_id (Seats db)) ->
  In f (Flights db) -> f_flight_id f = F ->
  (forall r_, In r_ (Reservations db) -> r_flight_id r_ = F ->
              r_status r_ = ReservationStatus.confirmed ->
              exists s, In s (Seats db) /\ r_seat_id r_ = Some (s_seat_id s) /\
                        s_aircraft_id s = f_aircraft_id f) ->
  NoDup (Database.confirmed_seat_ids db F) ->
  List.length (Database.get_available_seats db F) +
  Queries.count_confirmed db F =
  List.length (filter (fun s => s_aircraft_id s =? f_aircraft_id f) (Seats db)).
Proof.
  intros Hfl Hse Hf Ef Hseated Hdistinct.
  set (taken := Database.confirmed_seat_ids db F) in *.
  assert (Havail :
            List.length (Database.get_available_seats db F) =
            List.length
              (filter (fun s => (s_aircraft_id s =? f_aircraft_id f)
                                && negb (Sql.mem (s_seat_id s) taken))
                      (Seats db))).
  { unfold Database.get_available_seats. fold taken.
    assert (Hlen : forall l, List.length (Database.order_by l) = List.length l).
    { unfold Database.order_by. induction l as [|x l IH]; simpl; [reflexivity|].
      rewrite <- IH. generalize (fold_right Database.order_insert [] l).
      intros m. induction m as [|y m IHm]; simpl; [reflexivity|].
      destruct (Database.order_leb x y); simpl; congruence. }
    rewrite Hlen, <- length_flat_map_if with (row := seat_row).
    f_equal. apply flat_map_ext. intros s.
    rewrite (flat_map_single _ f); auto.
    - rewrite Ef, Nat.eqb_refl, andb_true_r. reflexivity.
    - now apply NoDup_map_NoDup in Hfl.
    - intros y Hy Hne.
      destruct (Nat.eqb_spec (f_flight_id y) F) as [Ey|Ey].
      + exfalso. apply Hne.
        apply (NoDup_map_inj f_flight_id (Flights db)); auto. congruence.
      + now rewrite andb_false_r. }
  assert (Hbooked :
            List.length
              (filter (fun s => (s_aircraft_id s =? f_aircraft_id f)
                                && Sql.mem (s_seat_id s) taken)
                      (Seats db)) = List.length taken).
  { rewrite <- (length_map s_seat_id). apply Permutation_length.
    apply NoDup_Permutation.
    - now apply NoDup_map_filter.
    - exact Hdistinct.
    - intros k. rewrite in_map_iff. split.
      + intros (s & <- & Hs). apply filter_In in Hs. destruct Hs as [_ Hs].
        apply andb_prop in Hs. now apply mem_In.
      + intros Hk. pose proof Hk as Hc. apply confirmed_seat_ids_In in Hc.
        destruct Hc as (r_ & Hr & Er & Es & Est).
        destruct (Hseated r_ Hr Er Est) as (s & Hs & Ek & Ea).
        assert (k = s_seat_id s) by congruence. subst k.
        exists s. split; [reflexivity|]. apply filter_In.
        split; [exact Hs|]. rewrite Ea, Nat.eqb_refl. now apply mem_In. }
  rewrite Havail, count_confirmed_seated; [fold taken; rewrite <- Hbooked|].
  - apply (length_filter_split
             (fun s => s_aircraft_id s =? f_aircraft_id f)
             (fun s => Sql.mem (s_seat_id s) taken)).
  - intros r_ Hr Er Est. destruct (Hseated r_ Hr Er Est) as (s & _ & E & _).
    congruence.
Qed.

Lemma X24_seats_conserved_witness :
  List.length (Database.get_available_seats booked 1) +
  Queries.count_confirmed booked 1 = 2.
Proof.
  apply (X24_seats_conserved booked 1 (AA101 FlightStatus.scheduled)).
  - repeat constructor. simpl. tauto.
  - repeat constructor; simpl; intuition discriminate.
  - left. reflexivity.
  - reflexivity.
  - intros r_ [<-|[]] _ _. exists seat_4A.
    split; [right; left; reflexivity|]. split; reflexivity.
  - repeat constructor. simpl. tauto.
Defined.

(** ** When a booking fails *)

Lemma references_null_iff seat_id keys :
  Sql.references_null seat_id keys = true <->
  (forall k, seat_id = Some k -> In k keys).
Proof.
  destruct seat_id as [v|]; simpl.
  - rewrite mem_In. split; [intros H k E; now injection E as <- | auto].
  - split; [discriminate | reflexivity].
Qed.

Lemma existsb_reference_false {srv : Server} db ref :
  ~ collides db ref ->
  existsb (fun r_ => Sql.eq (booking_reference r_) ref) (Reservations db)
  = false.
Proof.
  intros H. destruct (existsb _ _) eqn:E; [|reflexivity].
  apply existsb_exists in E. destruct E as (x & Hx & Ex).
  apply Sql_eq_true in Ex. exfalso. apply H.
  exists (booking_reference x). split; [now apply in_map | exact Ex].
Qed.

(** X25: exactly when a booking fails.  A call of [create_reservation]
    that returns, returns a booking reference if and only if the passenger
    and the flight exist, the seat is NULL or exists, and the price fits
    DECIMAL(10,2); otherwise it returns None and the store is unchanged.
    The generated reference itself is never the cause of a failure. *)
Theorem X25_create_reservation_succeeds_iff {srv : Server}
    fuel db g p f s c out db' g' :
  Database.create_reservation fuel db g p f s c = Some (out, db', g') ->
  ((exists ref, out = Returns (Some ref)) <->
   In p (map p_passenger_id (Passengers db)) /\
   In f (map f_flight_id (Flights db)) /\
   (forall k, s = Some k -> In k (map s_seat_id (Seats db))) /\
   (-9999999999 <= c <= 9999999999)%Z) /\
  ((forall ref, out <> Returns (Some ref)) -> out = Returns None /\ db' = db).
Proof.
  intros H. apply create_reservation_cases in H.
  destruct H as (ref & G & Hcases).
  apply generate_returns in G.
  destruct G as (k & _ & E & _ & Hfree & _). injection E as E.
  rewrite <- E in Hfree.
  assert (Hacc : Database.reservation_accepted db p f s ref c = true <->
                 In p (map p_passenger_id (Passengers db)) /\
                 In f (map f_flight_id (Flights db)) /\
                 (forall k, s = Some k -> In k (map s_seat_id (Seats db))) /\
                 (-9999999999 <= c <= 9999999999)%Z).
  { unfold Database.reservation_accepted, Sql.decimal_10_2.
    rewrite (existsb_reference_false _ _ Hfree).
    assert (Hv : Sql.varchar 20 ref = true).
    { unfold Sql.varchar. rewrite E. unfold candidate.
      rewrite next_candidate_length. reflexivity. }
    rewrite Hv. cbn [negb]. rewrite !andb_true_r, !andb_true_iff.
    rewrite !mem_In, references_null_iff, !Z.leb_le. tauto. }
  destruct Hcases as [(A & -> & ->) | (A & -> & ->)].
  - split.
    + split; [intros _; now apply Hacc | intros _; eauto].
    + intros Hno. exfalso. exact (Hno ref eq_refl).
  - split.
    + split.
      * intros (r0 & E0). discriminate E0.
      * intros Hc. apply Hacc in Hc. congruence.
    + intros _. split; reflexivity.
Qed.

Lemma X25_create_reservation_succeeds_iff_witness :
  (exists ref, Returns (@None string) = Returns (Some ref)) <->
  In 9 (map p_passenger_id (Passengers booked)) /\
  In 1 (map f_flight_id (Flights booked)) /\
  (forall k, Some 1 = Some k -> In k (map s_seat_id (Seats booked))) /\
  (-9999999999 <= 35000 <= 9999999999)%Z.
Proof.
  exact (proj1 (X25_create_reservation_succeeds_iff 1 booked (constant 0)
                  9 1 (Some 1) 35000%Z (Returns None) _ _ eq_refl)).
Defined.

(** ** Flight status read back *)

Lemma join_flights_update_flight_status aircraft db F st where_ :
  (forall f o d,
      where_ (if f_flight_id f =? F
              then {| f_flight_id := f_flight_id f;
                      flight_number := flight_number f;
                      f_aircraft_id := f_aircraft_id f;
                      origin_airport_id := origin_airport_id f;
                      destination_airport_id := destination_airport_id f;
                      departure_time := departure_time f;
                      arrival_time := arrival_time f;
                      base_price := base_price f;
                      f_status := st |}
              else f) o d = where_ f o d) ->
  Queries.join_flights aircraft
    (snd (Database.update_flight_status db F st)) where_ =
  map (fun x =>
         {| Queries.row_f :=
              if f_flight_id (Queries.row_f x) =? F
              then {| f_flight_id := f_flight_id (Queries.row_f x);
                      flight_number := flight_number (Queries.row_f x);
                      f_aircraft_id := f_aircraft_id (Queries.row_f x);
                      origin_airport_id := origin_airport_id (Queries.row_f x);
                      destination_airport_id :=
                        destination_airport_id (Queries.row_f x);
                      departure_time := departure_time (Queries.row_f x);
                      arrival_time := arrival_time (Queries.row_f x);
                      base_price := base_price (Queries.row_f x);
                      f_status := st |}
              else Queries.row_f x;
            Queries.row_o := Queries.row_o x;
            Queries.row_d := Queries.row_d x;
            Queries.row_a := Queries.row_a x |})
      (Queries.join_flights aircraft db where_).
Proof.
  intros Hw. unfold Queries.join_flights.
  rewrite update_flight_status_Flights.
  cbn [snd Database.update_flight_status Airports].
  rewrite flat_map_map, map_flat_map. apply flat_map_ext. intros f.
  rewrite map_flat_map.
  replace (origin_airport_id
             (if f_flight_id f =? F then _ else f))
    with (origin_airport_id f) by (destruct (f_flight_id f =? F); reflexivity).
  apply flat_map_ext. intros o.
  destruct (origin_airport_id f =? airport_id o); [|reflexivity].
  rewrite map_flat_map.
  replace (destination_airport_id
             (if f_flight_id f =? F then _ else f))
    with (destination_airport_id f)
    by (destruct (f_flight_id f =? F); reflexivity).
  apply flat_map_ext. intros d.
  destruct (destination_airport_id f =? airport_id d); [|reflexivity].
  rewrite map_flat_map.
  replace (f_aircraft_id (if f_flight_id f =? F then _ else f))
    with (f_aircraft_id f) by (destruct (f_flight_id f =? F); reflexivity).
  apply flat_map_ext. intros a. rewrite Hw.
  destruct ((f_aircraft_id f =? aircraft_id a) && where_ f o d); reflexivity.
Qed.

(** X26: a status written is the status read.  After
    [update_flight_status F st], [get_flight_details F] finds a flight
    exactly when it found one before, and the row it returns is the row it
    returned before with status [st]: same flight, airports and
    aircraft. *)
Theorem X26_flight_status_read_back aircraft db F st :
  (Queries.get_flight_details aircraft
     (snd (Database.update_flight_status db F st)) F = None <->
   Queries.get_flight_details aircraft db F = None) /\
  (forall x,
      Queries.get_flight_details aircraft db F = Some x ->
      exists y,
        Queries.get_flight_details aircraft
          (snd (Database.update_flight_status db F st)) F = Some y /\
        f_status (Queries.row_f y) = st /\
        f_flight_id (Queries.row_f y) = F /\
        flight_number (Queries.row_f y) = flight_number (Queries.row_f x) /\
        departure_time (Queries.row_f y) = departure_time (Queries.row_f x) /\
        base_price (Queries.row_f y) = base_price (Queries.row_f x) /\
        Queries.row_o y = Queries.row_o x /\
        Queries.row_d y = Queries.row_d x /\
        Queries.row_a y = Queries.row_a x).
Proof.
  pose proof (join_flights_update_flight_status aircraft db F st
                (fun f _ _ => f_flight_id f =? F)) as J.
  unfold Queries.get_flight_details.
  rewrite J
    by (intros f o d; destruct (f_flight_id f =? F) eqn:E; cbn;
        rewrite ?E; reflexivity).
  clear J. rewrite hd_error_map. split.
  - destruct (hd_error _); cbn; split; congruence.
  - intros x Hx.
    assert (Ek : f_flight_id (Queries.row_f x) = F)
      by (apply (get_flight_details_key aircraft db); exact Hx).
    rewrite Hx. cbn [option_map].
    eexists. split; [reflexivity|]. cbn.
    rewrite Ek, Nat.eqb_refl. cbn. repeat split; reflexivity.
Qed.

Lemma X26_flight_status_read_back_witness :
  exists y,
    Queries.get_flight_details [boeing_737]
      (snd (Database.update_flight_status booked 1 FlightStatus.boarding)) 1
    = Some y /\
    f_status (Queries.row_f y) = FlightStatus.boarding.
Proof.
  destruct (proj2 (X26_flight_status_read_back [boeing_737] booked 1
                     FlightStatus.boarding)
              {| Queries.row_f := AA101 FlightStatus.scheduled;
                 Queries.row_o := JFK; Queries.row_d := LAX;
                 Queries.row_a := boeing_737 |} eq_refl)
    as (y & Hy & Hs & _).
  exists y. auto.
Defined.

(** ** A passport field left blank *)

(** X27: the booking page admits one blank passport.  The page passes the
    passport field as typed, so a blank field is the empty string, which
    UNIQUE treats as a value.  Once a passenger with an empty passport
    number (or one that the server finds equal to the empty string) is on
    file, a run of [show_booking_page] for a new email (one that the
    server finds equal to no stored email) whose passport field is blank
    never ends in "Booking Confirmed" and leaves the store as it was. *)
Theorem X27_second_blank_passport_cannot_book {srv : Server}
    fuel aircraft db g selected_flight form pg db' g' :
  (exists q, In (Some q) (map passport_number (Passengers db)) /\
             collates q "") ->
  ~ email_known db (BookingPage.email_ form) ->
  BookingPage.passport_number_ form = "" ->
  BookingPage.show_booking_page fuel aircraft db g selected_flight form
    = Some (pg, db', g') ->
  db' = db /\ forall ref, pg <> BookingPage.BookingConfirmed ref.
Proof.
  intros (q & Hblank & Cq) Hnew Epp H.
  unfold BookingPage.show_booking_page in H.
  destruct selected_flight as [F|];
    [|injection H as <- <- <-; split; [reflexivity | discriminate]].
  destruct (Queries.get_flight_details aircraft db F) as [flight|];
    [|injection H as <- <- <-; split; [reflexivity | discriminate]].
  destruct (negb (BookingPage.nonempty _));
    [injection H as <- <- <-; split; [reflexivity | discriminate]|].
  destruct (BookingPage.select_seat _ _ _ _) as [seat_id price| |];
    try (injection H as <- <- <-; split; [reflexivity | discriminate]).
  destruct (negb (BookingPage.confirm_booking form));
    [injection H as <- <- <-; split; [reflexivity | discriminate]|].
  destruct (negb _);
    [injection H as <- <- <-; split; [reflexivity | discriminate]|].
  rewrite (create_passenger_absent _ _ _ _ _ _ _ _ Hnew) in H.
  assert (Hacc : passenger_accepted db (BookingPage.first_name_ form)
                   (BookingPage.last_name_ form) (BookingPage.email_ form)
                   (Some (BookingPage.phone_ form))
                   (Some (BookingPage.passport_number_ form))
                   (Some (BookingPage.nationality_ form)) = false).
  { unfold passenger_accepted. rewrite Epp.
    assert (Hu : Sql.unique_null (Some "")
                   (map passport_number (Passengers db)) = false).
    { unfold Sql.unique_null. apply negb_false_iff. apply existsb_exists.
      exists (Some q). split; [exact Hblank | now apply Sql_eq_true]. }
    rewrite Hu. apply andb_false_r. }
  rewrite Hacc in H. injection H as <- <- <-.
  split; [reflexivity | discriminate].
Qed.

Lemma X27_second_blank_passport_cannot_book_witness :
  BookingPage.show_booking_page 2 [boeing_737] with_ann (constant 0)
    (Some 1) bob_form
  = Some (BookingPage.PassengerFailed, with_ann, constant 0) /\
  (with_ann = with_ann /\
   forall ref,
     BookingPage.PassengerFailed <> BookingPage.BookingConfirmed ref).
Proof.
  split; [reflexivity|].
  apply (X27_second_blank_passport_cannot_book 2 [boeing_737] with_ann
           (constant 0) (Some 1) bob_form BookingPage.PassengerFailed
           with_ann (constant 0)).
  - exists "". split; [right; right; left; reflexivity | reflexivity].
  - intros (q & [<-|[<-|[<-|[]]]] & E); vm_compute in E; discriminate E.
  - reflexivity.
  - reflexivity.
Defined.
